(** * Translation cache: key derivation and the three cache backends

    A shallow embedding of [skills/translation/scripts/utils.py]
    ([generate_cache_key] and the normalisation helpers it calls) and of
    [skills/translation/scripts/cache.py] ([CacheStats], [MemoryCache],
    [FileCache], [SQLiteCache]), followed by the properties of the
    specification that concern them.

    The layers above the cache are embedded as well: the other helpers
    of [utils.py], [Translator] of [skills/translation/scripts/translator.py]
    over an abstract [TranslationProvider], and [BatchTranslator] of
    [skills/translation/scripts/batch_translator.py].  Of the two batch
    functions the branch [parallel=False] is embedded; the thread pool of
    the other branch is not modelled.

    Conventions of the embedding.
    - A Python [str] is the [string] of its UTF-8 bytes.  The character
      level operations ([lower], [strip], the regular expression class
      [\s]) are those of Python on the ASCII range; bytes above 127 are
      letters with no case and are never white space.  Python counts
      some characters outside ASCII as white space (U+0085, U+00A0,
      U+3000, ...) and lowers the cased letters outside ASCII, so these
      operations, [Translator.blank] and the escapes of [Json.dumps] are
      exact on ASCII text ([isascii]) and approximate beyond it.
    - A backing file holds valid UTF-8: reading it does not raise
      [UnicodeDecodeError].
    - [time.time()] is an input of every operation: the argument [now].
      Time stamps and [ttl] are integers of one common clock unit.
    - A Python exception is the constructor [Raises] of [outcome]; the
      state reached when it was raised is returned next to it.
    - [dict] and [OrderedDict] are association lists in insertion order
      with one entry per key (module [PyDict]).
    - The cache directory and the database file are part of the state of
      their backend, with a flag that tells whether the medium currently
      takes modifications: an operation that modifies a medium which does
      not raises [OSError] or [sqlite3.OperationalError] where Python
      does. *)

From Stdlib Require Import ZArith QArith Ascii String List Lia Bool.
From stdpp Require Import gmap strings list fin_maps.

Local Open Scope Z_scope.

(* ===================================================================== *)
(** * Python values, exceptions and outcomes                              *)
(* ===================================================================== *)

Inductive exn : Type :=
  | KeyError
  | IndexError
  | TypeError
  | AttributeError
  | OSError                (* IOError is an alias of OSError *)
  | OperationalError.      (* sqlite3.OperationalError *)

Inductive outcome (A : Type) : Type :=
  | Returns (a : A)
  | Raises (e : exn).
Arguments Returns {A} a.
Arguments Raises {A} e.

(** The values an option of a translation request can take (the JSON
    scalars). *)
Inductive pyval : Type :=
  | PNone
  | PBool (b : bool)
  | PInt (z : Z)
  | PStr (s : string).

Global Instance pyval_eq_dec : EqDecision pyval.
Proof. solve_decision. Defined.

(* ===================================================================== *)
(** * str methods                                                         *)
(* ===================================================================== *)

Module PyStr.

Definition code (c : ascii) : Z := Z.of_N (N_of_ascii c).
Definition chr (z : Z) : ascii := ascii_of_N (Z.to_N z).

(** [str.isspace] on one ASCII character; also the class [\s] of [re]. *)
Definition is_space (c : ascii) : bool :=
  let n := code c in
  ((9 <=? n) && (n <=? 13)) || ((28 <=? n) && (n <=? 32)).

Definition lower_char (c : ascii) : ascii :=
  let n := code c in
  if (65 <=? n) && (n <=? 90) then chr (n + 32) else c.

(** [s.lower()] *)
Fixpoint lower (s : string) : string :=
  match s with
  | EmptyString => EmptyString
  | String c s' => String (lower_char c) (lower s')
  end.

Fixpoint lstrip (s : string) : string :=
  match s with
  | EmptyString => EmptyString
  | String c s' => if is_space c then lstrip s' else s
  end.

Definition rstrip (s : string) : string :=
  String.rev (lstrip (String.rev s)).

(** [s.strip()] *)
Definition strip (s : string) : string := rstrip (lstrip s).

Fixpoint startswith (p s : string) : bool :=
  match p, s with
  | EmptyString, _ => true
  | String a p', String b s' => if decide (a = b) then startswith p' s' else false
  | String _ _, EmptyString => false
  end.

(** [sub in s] *)
Fixpoint contains (sub s : string) : bool :=
  startswith sub s ||
  match s with
  | EmptyString => false
  | String _ s' => contains sub s'
  end.

(** [c in s] for a one-character string [c] *)
Fixpoint has_char (c : ascii) (s : string) : bool :=
  match s with
  | EmptyString => false
  | String a s' => if decide (a = c) then true else has_char c s'
  end.

(** [s.split(sep)] for a one-character separator *)
Fixpoint split (sep : ascii) (s : string) : list string :=
  match s with
  | EmptyString => [EmptyString]
  | String a s' =>
      if decide (a = sep) then EmptyString :: split sep s'
      else match split sep s' with
           | [] => [String a EmptyString]
           | w :: ws => String a w :: ws
           end
  end.

(** [sep.join(parts)] *)
Fixpoint join (sep : string) (parts : list string) : string :=
  match parts with
  | [] => EmptyString
  | [p] => p
  | p :: ps => p +:+ sep +:+ join sep ps
  end.

(** [re.sub(r'\s+', ' ', s)]: every maximal run of white space becomes
    one space.  [in_run] tells that the previous character was white
    space (and the space for its run is already emitted). *)
Fixpoint collapse_ws (in_run : bool) (s : string) : string :=
  match s with
  | EmptyString => EmptyString
  | String c s' =>
      if is_space c
      then if in_run then collapse_ws true s'
           else String " " (collapse_ws true s')
      else String c (collapse_ws false s')
  end.

Definition re_sub_ws (s : string) : string := collapse_ws false s.

(** [len(s)] *)
Definition len (s : string) : Z := Z.of_nat (String.length s).

End PyStr.

(* ===================================================================== *)
(** * hashlib.md5 (RFC 1321)                                              *)
(* ===================================================================== *)

Module Hashlib.

Definition mask32 : Z := 0xFFFFFFFF.
Definition add32 (a b : Z) : Z := Z.land (a + b) mask32.
Definition not32 (a : Z) : Z := Z.lxor a mask32.
Definition rotl32 (x c : Z) : Z :=
  Z.land (Z.lor (Z.shiftl x c) (Z.shiftr x (32 - c))) mask32.

Definition shifts : list Z :=
  [7; 12; 17; 22; 7; 12; 17; 22; 7; 12; 17; 22; 7; 12; 17; 22;
   5;  9; 14; 20; 5;  9; 14; 20; 5;  9; 14; 20; 5;  9; 14; 20;
   4; 11; 16; 23; 4; 11; 16; 23; 4; 11; 16; 23; 4; 11; 16; 23;
   6; 10; 15; 21; 6; 10; 15; 21; 6; 10; 15; 21; 6; 10; 15; 21].

Definition sines : list Z :=
  [0xd76aa478; 0xe8c7b756; 0x242070db; 0xc1bdceee;
   0xf57c0faf; 0x4787c62a; 0xa8304613; 0xfd469501;
   0x698098d8; 0x8b44f7af; 0xffff5bb1; 0x895cd7be;
   0x6b901122; 0xfd987193; 0xa679438e; 0x49b40821;
   0xf61e2562; 0xc040b340; 0x265e5a51; 0xe9b6c7aa;
   0xd62f105d; 0x02441453; 0xd8a1e681; 0xe7d3fbc8;
   0x21e1cde6; 0xc33707d6; 0xf4d50d87; 0x455a14ed;
   0xa9e3e905; 0xfcefa3f8; 0x676f02d9; 0x8d2a4c8a;
   0xfffa3942; 0x8771f681; 0x6d9d6122; 0xfde5380c;
   0xa4beea44; 0x4bdecfa9; 0xf6bb4b60; 0xbebfbc70;
   0x289b7ec6; 0xeaa127fa; 0xd4ef3085; 0x04881d05;
   0xd9d4d039; 0xe6db99e5; 0x1fa27cf8; 0xc4ac5665;
   0xf4292244; 0x432aff97; 0xab9423a7; 0xfc93a039;
   0x655b59c3; 0x8f0ccc92; 0xffeff47d; 0x85845dd1;
   0x6fa87e4f; 0xfe2ce6e0; 0xa3014314; 0x4e0811a1;
   0xf7537e82; 0xbd3af235; 0x2ad7d2bb; 0xeb86d391].

Definition nthZ (l : list Z) (i : Z) : Z := nth (Z.to_nat i) l 0.

Fixpoint bytes_of (s : string) : list Z :=
  match s with
  | EmptyString => []
  | String c s' => PyStr.code c :: bytes_of s'
  end.

(** little-endian bytes of a word *)
Fixpoint le_bytes (n : nat) (w : Z) : list Z :=
  match n with
  | O => []
  | S n' => Z.land w 0xFF :: le_bytes n' (Z.shiftr w 8)
  end.

Definition padding (len : Z) : list Z :=
  let zeros := (55 - len) mod 64 in
  0x80 :: repeat 0 (Z.to_nat zeros) ++ le_bytes 8 ((8 * len) mod 2 ^ 64).

Fixpoint le_word (bs : list Z) : Z :=
  match bs with
  | [] => 0
  | b :: bs' => b + 256 * le_word bs'
  end.

(** the 16 words of a 64-byte block *)
Fixpoint words (n : nat) (bs : list Z) : list Z :=
  match n with
  | O => []
  | S n' => le_word (take 4 bs) :: words n' (drop 4 bs)
  end.

Record md5_state : Type :=
  MkState { sA : Z; sB : Z; sC : Z; sD : Z }.

Definition round (m : list Z) (st : md5_state) (i : Z) : md5_state :=
  let '(MkState a b c d) := st in
  let '(f, g) :=
    if i <? 16 then (Z.lor (Z.land b c) (Z.land (not32 b) d), i)
    else if i <? 32 then (Z.lor (Z.land d b) (Z.land (not32 d) c), (5 * i + 1) mod 16)
    else if i <? 48 then (Z.lxor (Z.lxor b c) d, (3 * i + 5) mod 16)
    else (Z.lxor c (Z.lor b (not32 d)), (7 * i) mod 16) in
  let f' := add32 (add32 (add32 f a) (nthZ sines i)) (nthZ m g) in
  MkState d (add32 b (rotl32 f' (nthZ shifts i))) b c.

Definition block (st : md5_state) (bs : list Z) : md5_state :=
  let m := words 16 bs in
  let st' := fold_left (round m) (map Z.of_nat (seq 0 64)) st in
  MkState (add32 (sA st) (sA st')) (add32 (sB st) (sB st'))
          (add32 (sC st) (sC st')) (add32 (sD st) (sD st')).

Fixpoint blocks (n : nat) (st : md5_state) (bs : list Z) : md5_state :=
  match n with
  | O => st
  | S n' => blocks n' (block st (take 64 bs)) (drop 64 bs)
  end.

Definition md5_init : md5_state :=
  MkState 0x67452301 0xefcdab89 0x98badcfe 0x10325476.

Definition digest (s : string) : list Z :=
  let msg := bytes_of s in
  let padded := msg ++ padding (Z.of_nat (length msg)) in
  let st := blocks (length padded / 64) md5_init padded in
  le_bytes 4 (sA st) ++ le_bytes 4 (sB st) ++
  le_bytes 4 (sC st) ++ le_bytes 4 (sD st).

Definition hex_digit (n : Z) : ascii :=
  if n <? 10 then PyStr.chr (48 + n) else PyStr.chr (87 + n).

Fixpoint hex (bs : list Z) : string :=
  match bs with
  | [] => EmptyString
  | b :: bs' => String (hex_digit (b / 16)) (String (hex_digit (b mod 16)) (hex bs'))
  end.

(** [hashlib.md5(s.encode("utf-8")).hexdigest()] *)
Definition md5_hexdigest (s : string) : string := hex (digest s).

End Hashlib.

(* ===================================================================== *)
(** * sorted                                                              *)
(* ===================================================================== *)

(** [sorted(l, key=f)].  Python's sort is stable; so is this insertion
    sort: an element goes before the first one whose key is not smaller. *)
Section Sorted.
Context {A : Type} (f : A -> Z).

Fixpoint insert_by (x : A) (l : list A) : list A :=
  match l with
  | [] => [x]
  | y :: l' => if f x <=? f y then x :: y :: l' else y :: insert_by x l'
  end.

Fixpoint sorted_by (l : list A) : list A :=
  match l with
  | [] => []
  | x :: l' => insert_by x (sorted_by l')
  end.
End Sorted.

(* ===================================================================== *)
(** * dict and OrderedDict                                                *)
(* ===================================================================== *)

(** A dictionary with [str] keys: the items in insertion order.  A well
    formed dictionary holds each key once ([PyDict.wf]); every operation
    below keeps it so. *)
Module PyDict.
Abbreviation t V := (list (string * V)).

Section Ops.
Context {V : Type}.

Definition keys (d : t V) : list string := map fst d.

(** [d.get(k)] *)
Fixpoint get (d : t V) (k : string) : option V :=
  match d with
  | [] => None
  | (k', v) :: d' => if decide (k' = k) then Some v else get d' k
  end.

(** [k in d] *)
Definition mem (d : t V) (k : string) : bool :=
  match get d k with Some _ => true | None => false end.

(** [len(d)] *)
Definition len (d : t V) : Z := Z.of_nat (length d).

(** [del d[k]] for a key that is present *)
Fixpoint del (d : t V) (k : string) : t V :=
  match d with
  | [] => []
  | (k', v) :: d' => if decide (k' = k) then del d' k else (k', v) :: del d' k
  end.

(** [d[k] = v]: a present key keeps its position, a new key goes to
    the end. *)
Fixpoint set (d : t V) (k : string) (v : V) : t V :=
  match d with
  | [] => [(k, v)]
  | (k', v') :: d' =>
      if decide (k' = k) then (k, v) :: d' else (k', v') :: set d' k v
  end.

(** [OrderedDict.move_to_end(k)] *)
Definition move_to_end (d : t V) (k : string) : outcome (t V) :=
  match get d k with
  | Some v => Returns (del d k ++ [(k, v)])
  | None => Raises KeyError
  end.

(** [OrderedDict.popitem(last=False)] *)
Definition popitem_first (d : t V) : outcome ((string * V) * t V) :=
  match d with
  | [] => Raises KeyError
  | kv :: d' => Returns (kv, d')
  end.
End Ops.
End PyDict.

(* ===================================================================== *)
(** * json.dumps                                                          *)
(* ===================================================================== *)

(** [json.dumps] with its defaults ([ensure_ascii=True], separators
    [", "] and [": "]) on a dictionary of scalars; exact on ASCII text. *)
Module Json.

Definition hex4 (n : Z) : string :=
  String (Hashlib.hex_digit ((n / 4096) mod 16))
    (String (Hashlib.hex_digit ((n / 256) mod 16))
       (String (Hashlib.hex_digit ((n / 16) mod 16))
          (String (Hashlib.hex_digit (n mod 16)) EmptyString))).

(** One character of a string under [ensure_ascii=True]: the printable
    ASCII characters stand for themselves, quote and backslash are
    escaped, the rest is a short escape or [\u00XX]. *)
Definition esc (c : string) : string := String (PyStr.chr 92) c.

Definition escape_char (c : ascii) : string :=
  let n := PyStr.code c in
  if n =? 34 then esc (String c EmptyString)
  else if n =? 92 then esc (String c EmptyString)
  else if n =? 10 then esc "n"
  else if n =? 13 then esc "r"
  else if n =? 9 then esc "t"
  else if n =? 8 then esc "b"
  else if n =? 12 then esc "f"
  else if (32 <=? n) && (n <=? 126) then String c EmptyString
  else esc ("u" +:+ hex4 n).

Fixpoint escape (s : string) : string :=
  match s with
  | EmptyString => EmptyString
  | String c s' => escape_char c +:+ escape s'
  end.

Definition quote (s : string) : string :=
  String (PyStr.chr 34) (escape s) +:+ String (PyStr.chr 34) EmptyString.

Fixpoint digits (fuel : nat) (n : Z) (acc : string) : string :=
  match fuel with
  | O => acc
  | S fuel' =>
      let acc' := String (PyStr.chr (48 + n mod 10)) acc in
      if n <? 10 then acc' else digits fuel' (n / 10) acc'
  end.

(** A number has no more decimal digits than binary ones. *)
Definition dumps_int (z : Z) : string :=
  let n := Z.abs z in
  let ds := digits (S (Z.to_nat (Z.log2 n))) n EmptyString in
  if z <? 0 then "-" +:+ ds else ds.

Definition dumps_val (v : pyval) : string :=
  match v with
  | PNone => "null"
  | PBool true => "true"
  | PBool false => "false"
  | PInt z => dumps_int z
  | PStr s => quote s
  end.

Definition dumps_item (kv : string * pyval) : string :=
  quote (fst kv) +:+ ": " +:+ dumps_val (snd kv).

(** insertion of an item by key, for [sort_keys=True] *)
Fixpoint insert_key (x : string * pyval) (l : list (string * pyval)) :=
  match l with
  | [] => [x]
  | y :: l' =>
      if String.leb (fst x) (fst y) then x :: y :: l' else y :: insert_key x l'
  end.

Definition sort_keys (d : PyDict.t pyval) : PyDict.t pyval :=
  foldr insert_key [] d.

(** [json.dumps(d)] *)
Definition dumps (d : PyDict.t pyval) : string :=
  "{" +:+ PyStr.join ", " (map dumps_item d) +:+ "}".

(** [json.dumps(d, sort_keys=True)] *)
Definition dumps_sorted (d : PyDict.t pyval) : string :=
  dumps (sort_keys d).

End Json.

(* ===================================================================== *)
(** * utils.py                                                            *)
(* ===================================================================== *)

(** The keys of [LANGUAGE_NAMES]. *)
Definition LANGUAGE_NAMES : list string :=
  ["en"; "zh"; "ja"; "ko"; "es"; "fr"; "de"; "it"; "pt"; "ru"; "ar"; "hi";
   "th"; "vi"; "id"; "nl"; "pl"; "tr"; "sv"; "da"; "fi"; "no"; "cs"; "hu";
   "ro"; "el"; "he"; "uk"; "bg"; "hr"; "sk"; "sl"; "et"; "lv"; "lt"; "mt";
   "ga"; "cy"; "auto"].

Definition aliases : PyDict.t string :=
  [("zh-cn", "zh"); ("zh-tw", "zh"); ("zh-hans", "zh"); ("zh-hant", "zh");
   ("en-us", "en"); ("en-gb", "en")].

Definition normalize_language_code (code : string) : string :=
  if decide (code = EmptyString) then "auto"
  else
    let code := PyStr.strip (PyStr.lower code) in
    let base_code := hd EmptyString (PyStr.split "-" code) in
    if PyStr.has_char "-" code && bool_decide (base_code ∈ LANGUAGE_NAMES)
    then base_code
    else default code (PyDict.get aliases code).

Definition preprocess_text (text : string) : string :=
  if decide (text = EmptyString) then EmptyString
  else PyStr.re_sub_ws (PyStr.strip text).

(** The allow-list of [generate_cache_key], in the order the loop visits
    it. *)
Definition relevant_keys : list string :=
  ["formality"; "domain"; "preserve_formatting"].

(** The loop that fills [relevant_options]. *)
Definition relevant_options (options : PyDict.t pyval) : PyDict.t pyval :=
  fold_left
    (fun acc key =>
       match PyDict.get options key with
       | Some v => PyDict.set acc key v
       | None => acc
       end)
    relevant_keys [].

(** [key_parts] at the end of [generate_cache_key] *)
Definition key_parts (text source_lang target_lang : string)
    (options : PyDict.t pyval) : list string :=
  let normalized_text := preprocess_text text in
  let normalized_source := normalize_language_code source_lang in
  let normalized_target := normalize_language_code target_lang in
  let parts := [normalized_text; normalized_source; normalized_target] in
  match options with
  | [] => parts
  | _ :: _ =>
      match relevant_options options with
      | [] => parts
      | r => parts ++ [Json.dumps_sorted r]
      end
  end.

(** [key_string], the text that is hashed *)
Definition key_string (text source_lang target_lang : string)
    (options : PyDict.t pyval) : string :=
  PyStr.join "|" (key_parts text source_lang target_lang options).

Definition generate_cache_key (text source_lang target_lang : string)
    (options : PyDict.t pyval) : string :=
  Hashlib.md5_hexdigest (key_string text source_lang target_lang options).
Global Arguments generate_cache_key : simpl never.

(* ===================================================================== *)
(** * utils.py: the helpers of the translator                             *)
(* ===================================================================== *)

(** The exceptions that reach a caller of the layers above the cache. *)
Inductive error : Type :=
  | Builtin (e : exn)          (* an exception of the cache layer *)
  | ValueError
  | LanguageNotSupportedError (language provider : string)
  | ProviderError (message : string).   (* raised by the provider *)

Inductive result (A : Type) : Type :=
  | Ok (a : A)
  | Fail (e : error).
Arguments Ok {A} a.
Arguments Fail {A} e.

(** [LANGUAGE_NAMES] with its values; [LANGUAGE_NAMES] above lists its
    keys. *)
Definition LANGUAGE_NAMES_items : PyDict.t string :=
  [("en", "English"); ("zh", "Chinese"); ("ja", "Japanese"); ("ko", "Korean");
   ("es", "Spanish"); ("fr", "French"); ("de", "German"); ("it", "Italian");
   ("pt", "Portuguese"); ("ru", "Russian"); ("ar", "Arabic"); ("hi", "Hindi");
   ("th", "Thai"); ("vi", "Vietnamese"); ("id", "Indonesian"); ("nl", "Dutch");
   ("pl", "Polish"); ("tr", "Turkish"); ("sv", "Swedish"); ("da", "Danish");
   ("fi", "Finnish"); ("no", "Norwegian"); ("cs", "Czech"); ("hu", "Hungarian");
   ("ro", "Romanian"); ("el", "Greek"); ("he", "Hebrew"); ("uk", "Ukrainian");
   ("bg", "Bulgarian"); ("hr", "Croatian"); ("sk", "Slovak"); ("sl", "Slovenian");
   ("et", "Estonian"); ("lv", "Latvian"); ("lt", "Lithuanian"); ("mt", "Maltese");
   ("ga", "Irish"); ("cy", "Welsh"); ("auto", "Auto-detect")].

Definition get_language_name (code : string) : string :=
  let normalized := normalize_language_code code in
  default normalized (PyDict.get LANGUAGE_NAMES_items normalized).

Definition validate_language_code (code : string) : bool :=
  if decide (code = EmptyString) then false
  else
    let normalized := normalize_language_code code in
    bool_decide (normalized = "auto") || bool_decide (normalized ∈ LANGUAGE_NAMES).

(** [sorted(l)] on a list of [str]: the order of the code points, which
    is the order of the UTF-8 bytes. *)
Fixpoint insert_str (x : string) (l : list string) : list string :=
  match l with
  | [] => [x]
  | y :: l' => if String.leb x y then x :: y :: l' else y :: insert_str x l'
  end.

Definition sorted_str (l : list string) : list string := foldr insert_str [] l.

Definition get_supported_languages : list string :=
  sorted_str (filter (fun code => code ≠ "auto") LANGUAGE_NAMES).

(** [range(start, stop, step)]: its items, or [ValueError] for a zero
    step. *)
Definition range_len (start stop step : Z) : Z :=
  if 0 <? step then
    if start <? stop then (stop - start - 1) / step + 1 else 0
  else
    if stop <? start then (start - stop - 1) / (- step) + 1 else 0.

Definition range (start stop step : Z) : result (list Z) :=
  if step =? 0 then Fail ValueError
  else Ok (map (fun i => start + Z.of_nat i * step)
               (seq 0 (Z.to_nat (range_len start stop step)))).

(** [l[lo:hi]]: a negative index counts from the end, and both indices
    are brought into the bounds of the list. *)
Definition adjust_index (len i : Z) : Z :=
  if i <? 0 then Z.max 0 (i + len) else Z.min i len.

Definition slice {A : Type} (l : list A) (lo hi : Z) : list A :=
  let len := Z.of_nat (length l) in
  let lo := adjust_index len lo in
  let hi := adjust_index len hi in
  take (Z.to_nat (hi - lo)) (drop (Z.to_nat lo) l).

Definition chunk_texts (texts : list string) (chunk_size : Z)
  : result (list (list string)) :=
  match texts with
  | [] => Ok []
  | _ :: _ =>
      match range 0 (Z.of_nat (length texts)) chunk_size with
      | Fail e => Fail e
      | Ok indices => Ok (map (fun i => slice texts i (i + chunk_size)) indices)
      end
  end.

(* ===================================================================== *)
(** * cache.py: CacheStats and the base class                             *)
(* ===================================================================== *)

Record CacheStats : Type := MkStats {
  total_entries : Z;
  hits : Z;
  misses : Z;
  size_mb : Q
}.

Definition CacheStats_init : CacheStats := MkStats 0 0 0 0%Q.

(** [CacheStats.hit_rate] *)
Definition hit_rate (s : CacheStats) : Q :=
  let total := hits s + misses s in
  if 0 <? total then Qmake (hits s) (Z.to_pos total) else 0%Q.

Definition count_hit (s : CacheStats) : CacheStats :=
  MkStats (total_entries s) (hits s + 1) (misses s) (size_mb s).

Definition count_miss (s : CacheStats) : CacheStats :=
  MkStats (total_entries s) (hits s) (misses s + 1) (size_mb s).

Definition set_total (s : CacheStats) (n : Z) : CacheStats :=
  MkStats n (hits s) (misses s) (size_mb s).

(** [TranslationCache._is_expired], with [time.time()] = [now] *)
Definition _is_expired (ttl now timestamp : Z) : bool :=
  ttl <? now - timestamp.

(** The dictionary that a [stats] method builds.  [r_location] is the
    backend-specific item ([cache_dir] or [db_path]). *)
Record stats_report : Type := MkReport {
  r_total_entries : Z;
  r_hits : Z;
  r_misses : Z;
  r_hit_rate : Q;
  r_size_mb : Q;
  r_type : string;
  r_location : option (string * string)
}.

Definition mebibyte : positive := 1048576.

(* ===================================================================== *)
(** * cache.py: MemoryCache                                               *)
(* ===================================================================== *)

Module MemoryCache.

Record t : Type := Mk {
  max_size : Z;
  ttl : Z;
  stats_attr : CacheStats;                 (* self.stats *)
  _cache : PyDict.t (string * Z)
}.

(** [MemoryCache(max_size, ttl)] *)
Definition init (max_size ttl : Z) : t :=
  Mk max_size ttl CacheStats_init [].

Definition get (self : t) (now : Z)
    (text source_lang target_lang : string) (options : PyDict.t pyval)
  : outcome (option string) * t :=
  let key := generate_cache_key text source_lang target_lang options in
  match PyDict.get (_cache self) key with
  | None =>
      (Returns None,
       Mk (max_size self) (ttl self) (count_miss (stats_attr self)) (_cache self))
  | Some (translated, timestamp) =>
      if _is_expired (ttl self) now timestamp then
        (Returns None,
         Mk (max_size self) (ttl self) (count_miss (stats_attr self))
            (PyDict.del (_cache self) key))
      else
        match PyDict.move_to_end (_cache self) key with
        | Raises e => (Raises e, self)
        | Returns d =>
            (Returns (Some translated),
             Mk (max_size self) (ttl self) (count_hit (stats_attr self)) d)
        end
  end.

(** [while len(self._cache) >= self.max_size: self._cache.popitem(last=False)].
    Every iteration removes the first item, so the loop is a recursion
    on the dictionary; when the condition still holds on the empty
    dictionary, [popitem] raises [KeyError]. *)
Fixpoint evict (max_size : Z) (d : PyDict.t (string * Z))
  : outcome (PyDict.t (string * Z)) :=
  if max_size <=? PyDict.len d then
    match d with
    | [] => Raises KeyError
    | _ :: d' => evict max_size d'
    end
  else Returns d.

Definition set (self : t) (now : Z)
    (text source_lang target_lang translated : string)
    (options : PyDict.t pyval)
  : outcome unit * t :=
  let key := generate_cache_key text source_lang target_lang options in
  let timestamp := now in
  let d1 := if PyDict.mem (_cache self) key
            then PyDict.del (_cache self) key else _cache self in
  match evict (max_size self) d1 with
  | Raises e =>
      (* the loop emptied the dictionary before popitem failed *)
      (Raises e, Mk (max_size self) (ttl self) (stats_attr self) [])
  | Returns d2 =>
      let d3 := PyDict.set d2 key (translated, timestamp) in
      (Returns tt,
       Mk (max_size self) (ttl self)
          (set_total (stats_attr self) (PyDict.len d3)) d3)
  end.

Definition clear (self : t) (pattern : option string) : outcome Z * t :=
  match pattern with
  | None =>
      let count := PyDict.len (_cache self) in
      (Returns count,
       Mk (max_size self) (ttl self) (set_total (stats_attr self) 0) [])
  | Some pattern =>
      let keys_to_delete :=
        filter (fun key => PyStr.contains pattern key = true)
               (PyDict.keys (_cache self)) in
      let d := fold_left PyDict.del keys_to_delete (_cache self) in
      let count := Z.of_nat (length keys_to_delete) in
      (Returns count,
       Mk (max_size self) (ttl self)
          (set_total (stats_attr self) (PyDict.len d)) d)
  end.

(** [json.dumps(dict(self._cache))]: every value is the list
    [[translated, timestamp]]; the time stamp is a float with a whole
    value, printed with [.0]. *)
Definition dumps_entry (kv : string * (string * Z)) : string :=
  let '(k, (translated, timestamp)) := kv in
  Json.quote k +:+ ": [" +:+ Json.quote translated +:+ ", " +:+
  Json.dumps_int timestamp +:+ ".0]".

Definition dumps_cache (d : PyDict.t (string * Z)) : string :=
  "{" +:+ PyStr.join ", " (map dumps_entry d) +:+ "}".

(** The body of the method [stats]. *)
Definition stats (self : t) : stats_report :=
  MkReport (total_entries (stats_attr self))
           (hits (stats_attr self))
           (misses (stats_attr self))
           (hit_rate (stats_attr self))
           (Qmake (PyStr.len (dumps_cache (_cache self))) mebibyte)
           "memory"
           None.

End MemoryCache.

(* ===================================================================== *)
(** * The cache directory of FileCache                                    *)
(* ===================================================================== *)

(** What [json.load] finds in [index.json], item by item: [.get] with a
    default reads each field, so a field may be missing. *)
Record metadata : Type := MkMeta {
  md_timestamp : option Z;
  md_source_lang : option string;
  md_target_lang : option string
}.

Inductive index_file : Type :=
  | IndexMissing
  | IndexCorrupt
  | IndexSaved (idx : PyDict.t metadata).

(** The directory: its [*.txt] files by name (their bytes), [index.json],
    and whether the medium currently takes modifications and reads. *)
Record disk : Type := MkDisk {
  files : gmap string string;
  index_json : index_file;
  writable : bool;
  readable : bool
}.

Module Fs.

Definition CR : ascii := PyStr.chr 13.
Definition LF : ascii := PyStr.chr 10.

(** Reading in text mode with the default [newline=None]: the line ends
    CR LF and CR are returned as LF.  [after_cr] tells that the previous
    byte was a CR (already returned as LF). *)
Fixpoint universal_newlines (after_cr : bool) (s : string) : string :=
  match s with
  | EmptyString => EmptyString
  | String c s' =>
      if decide (c = CR) then String LF (universal_newlines true s')
      else if decide (c = LF) then
        if after_cr then universal_newlines false s'
        else String LF (universal_newlines false s')
      else String c (universal_newlines false s')
  end.

(** [path.exists()] *)
Definition exists_ (d : disk) (name : string) : bool :=
  bool_decide (is_Some (files d !! name)).

(** [path.unlink()] *)
Definition unlink (d : disk) (name : string) : outcome disk :=
  if writable d
  then Returns (MkDisk (delete name (files d)) (index_json d) (writable d) (readable d))
  else Raises OSError.

(** [with open(path, "w", encoding="utf-8") as f: f.write(text)].
    On POSIX the text is written as it is. *)
Definition write_text (d : disk) (name text : string) : outcome disk :=
  if writable d
  then Returns (MkDisk (<[name := text]> (files d)) (index_json d) (writable d) (readable d))
  else Raises OSError.

(** [with open(path, "r", encoding="utf-8") as f: f.read()] *)
Definition read_text (d : disk) (name : string) : outcome string :=
  if readable d
  then match files d !! name with
       | Some bytes => Returns (universal_newlines false bytes)
       | None => Raises OSError
       end
  else Raises OSError.

End Fs.

(* ===================================================================== *)
(** * cache.py: FileCache                                                 *)
(* ===================================================================== *)

Module FileCache.

Record t : Type := Mk {
  max_size : Z;
  ttl : Z;
  stats_attr : CacheStats;                 (* self.stats *)
  cache_dir : string;
  _index : PyDict.t metadata;
  dir : disk                               (* the content of cache_dir *)
}.

Definition timestamp_of (m : metadata) : Z := default 0 (md_timestamp m).

(** [_load_index] *)
Definition _load_index (d : disk) : PyDict.t metadata :=
  match index_json d with
  | IndexMissing => []
  | IndexCorrupt => []
  | IndexSaved idx => if readable d then idx else []
  end.

(** [_save_index]: an [IOError] is swallowed. *)
Definition _save_index (idx : PyDict.t metadata) (d : disk) : disk :=
  if writable d
  then MkDisk (files d) (IndexSaved idx) (writable d) (readable d)
  else d.

(** [_get_cache_file], relative to [cache_dir] *)
Definition _get_cache_file (key : string) : string := key +:+ ".txt".

(** [if cache_file.exists(): cache_file.unlink()] *)
Definition remove_file (d : disk) (key : string) : outcome disk :=
  let cache_file := _get_cache_file key in
  if Fs.exists_ d cache_file then Fs.unlink d cache_file else Returns d.

(** The loops [for key in keys: <remove the file>; del self._index[key]]
    of [_cleanup_expired] and [clear(pattern)]; they stop at the first
    exception. *)
Fixpoint remove_entries (keys : list string) (idx : PyDict.t metadata)
    (d : disk) : outcome unit * (PyDict.t metadata * disk) :=
  match keys with
  | [] => (Returns tt, (idx, d))
  | key :: keys' =>
      match remove_file d key with
      | Raises e => (Raises e, (idx, d))
      | Returns d' => remove_entries keys' (PyDict.del idx key) d'
      end
  end.

(** The loop of [clear()]: only the files are removed. *)
Fixpoint remove_files (keys : list string) (d : disk) : outcome unit * disk :=
  match keys with
  | [] => (Returns tt, d)
  | key :: keys' =>
      match remove_file d key with
      | Raises e => (Raises e, d)
      | Returns d' => remove_files keys' d'
      end
  end.

(** [_cleanup_expired] *)
Definition _cleanup_expired (self : t) (now : Z) : outcome unit * t :=
  let expired_keys :=
    PyDict.keys
      (filter (fun kv => _is_expired (ttl self) now (timestamp_of (snd kv)) = true)
              (_index self)) in
  match remove_entries expired_keys (_index self) (dir self) with
  | (Raises e, (idx, d)) =>
      (Raises e, Mk (max_size self) (ttl self) (stats_attr self) (cache_dir self) idx d)
  | (Returns _, (idx, d)) =>
      let d' := match expired_keys with [] => d | _ :: _ => _save_index idx d end in
      (Returns tt, Mk (max_size self) (ttl self) (stats_attr self) (cache_dir self) idx d')
  end.

(** [FileCache(cache_dir, max_size, ttl)] on the directory content [d] *)
Definition init (cache_dir : string) (max_size ttl : Z) (now : Z) (d : disk)
  : outcome unit * t :=
  _cleanup_expired (Mk max_size ttl CacheStats_init cache_dir (_load_index d) d) now.

Definition get (self : t) (now : Z)
    (text source_lang target_lang : string) (options : PyDict.t pyval)
  : outcome (option string) * t :=
  let key := generate_cache_key text source_lang target_lang options in
  let miss idx d :=
    Mk (max_size self) (ttl self) (count_miss (stats_attr self))
       (cache_dir self) idx d in
  match PyDict.get (_index self) key with
  | None => (Returns None, miss (_index self) (dir self))
  | Some metadata =>
      if _is_expired (ttl self) now (timestamp_of metadata) then
        match remove_file (dir self) key with
        | Raises e => (Raises e, self)
        | Returns d =>
            let idx := PyDict.del (_index self) key in
            (Returns None, miss idx (_save_index idx d))
        end
      else if negb (Fs.exists_ (dir self) (_get_cache_file key)) then
        let idx := PyDict.del (_index self) key in
        (Returns None, miss idx (_save_index idx (dir self)))
      else
        match Fs.read_text (dir self) (_get_cache_file key) with
        | Returns translated =>
            (Returns (Some translated),
             Mk (max_size self) (ttl self) (count_hit (stats_attr self))
                (cache_dir self) (_index self) (dir self))
        | Raises _ => (Returns None, miss (_index self) (dir self))
        end
  end.

(** The eviction step of [set]: the first item of the index sorted by
    time stamp. *)
Definition evict_oldest (idx : PyDict.t metadata) (d : disk)
  : outcome unit * (PyDict.t metadata * disk) :=
  let sorted_items := sorted_by (fun kv => timestamp_of (snd kv)) idx in
  match sorted_items with
  | [] => (Raises IndexError, (idx, d))
  | (oldest_key, _) :: _ =>
      match remove_file d oldest_key with
      | Raises e => (Raises e, (idx, d))
      | Returns d' => (Returns tt, (PyDict.del idx oldest_key, d'))
      end
  end.

Definition set (self : t) (now : Z)
    (text source_lang target_lang translated : string)
    (options : PyDict.t pyval)
  : outcome unit * t :=
  let key := generate_cache_key text source_lang target_lang options in
  let timestamp := now in
  let evicted :=
    if max_size self <=? PyDict.len (_index self)
    then evict_oldest (_index self) (dir self)
    else (Returns tt, (_index self, dir self)) in
  match evicted with
  | (Raises e, (idx, d)) =>
      (Raises e, Mk (max_size self) (ttl self) (stats_attr self) (cache_dir self) idx d)
  | (Returns _, (idx, d)) =>
      match Fs.write_text d (_get_cache_file key) translated with
      | Returns d' =>
          let idx' :=
            PyDict.set idx key
              (MkMeta (Some timestamp) (Some source_lang) (Some target_lang)) in
          (Returns tt,
           Mk (max_size self) (ttl self)
              (set_total (stats_attr self) (PyDict.len idx'))
              (cache_dir self) idx' (_save_index idx' d'))
      | Raises _ =>
          (* except IOError: pass *)
          (Returns tt,
           Mk (max_size self) (ttl self) (stats_attr self) (cache_dir self) idx d)
      end
  end.

(** [pattern in source_lang or pattern in target_lang] of the metadata; a
    missing field counts as the empty string. *)
Definition matches (pattern : string) (m : metadata) : bool :=
  PyStr.contains pattern (default EmptyString (md_source_lang m)) ||
  PyStr.contains pattern (default EmptyString (md_target_lang m)).

Definition clear (self : t) (pattern : option string) : outcome Z * t :=
  match pattern with
  | None =>
      let count := PyDict.len (_index self) in
      match remove_files (PyDict.keys (_index self)) (dir self) with
      | (Raises e, d) =>
          (Raises e,
           Mk (max_size self) (ttl self) (stats_attr self) (cache_dir self)
              (_index self) d)
      | (Returns _, d) =>
          (Returns count,
           Mk (max_size self) (ttl self) (set_total (stats_attr self) 0)
              (cache_dir self) [] (_save_index [] d))
      end
  | Some pattern =>
      let keys_to_delete :=
        PyDict.keys
          (filter (fun kv => matches pattern (snd kv) = true) (_index self)) in
      match remove_entries keys_to_delete (_index self) (dir self) with
      | (Raises e, (idx, d)) =>
          (Raises e,
           Mk (max_size self) (ttl self) (stats_attr self) (cache_dir self) idx d)
      | (Returns _, (idx, d)) =>
          let count := Z.of_nat (length keys_to_delete) in
          let d' := if 0 <? count then _save_index idx d else d in
          (Returns count,
           Mk (max_size self) (ttl self)
              (set_total (stats_attr self) (PyDict.len idx))
              (cache_dir self) idx d')
      end
  end.

(** [sum(f.stat().st_size for f in cache_dir.glob("*.txt"))] *)
Definition is_txt (name : string) : bool :=
  PyStr.startswith (String.rev ".txt") (String.rev name).

Definition total_size (d : disk) : Z :=
  map_fold (fun name bytes acc =>
              if is_txt name then acc + PyStr.len bytes else acc)
           0 (files d).

(** The body of the method [stats]. *)
Definition stats (self : t) : stats_report :=
  MkReport (total_entries (stats_attr self))
           (hits (stats_attr self))
           (misses (stats_attr self))
           (hit_rate (stats_attr self))
           (Qmake (total_size (dir self)) mebibyte)
           "file"
           (Some ("cache_dir", cache_dir self)).

End FileCache.

(* ===================================================================== *)
(** * The database of SQLiteCache                                         *)
(* ===================================================================== *)

(** A row of the table [translations]. *)
Record row : Type := MkRow {
  cache_key : string;
  original_text : string;
  translated_text : string;
  source_lang : string;
  target_lang : string;
  timestamp : Z;
  options_json : option string
}.

(** The database file: the rows of [translations] in rowid order (one row
    per [cache_key], the primary key), and whether the file currently
    takes writes. *)
Record database : Type := MkDb {
  rows : list row;
  db_writable : bool
}.

Module Sql.

(** [SELECT ... WHERE cache_key = ?] followed by [fetchone()] *)
Definition select_by_key (db : database) (key : string) : option row :=
  head (filter (fun r => cache_key r = key) (rows db)).

(** [SELECT COUNT( * ) FROM translations] *)
Definition count (db : database) : Z := Z.of_nat (length (rows db)).

(** [DELETE FROM translations WHERE p]; the result carries
    [cursor.rowcount]. *)
Definition delete_where (db : database) (p : row -> bool)
  : outcome (Z * database) :=
  if db_writable db
  then Returns (Z.of_nat (length (filter (fun r => p r = true) (rows db))),
                MkDb (filter (fun r => p r = false) (rows db)) (db_writable db))
  else Raises OperationalError.

(** [SELECT cache_key FROM translations ORDER BY timestamp ASC LIMIT 1] *)
Definition oldest_key (db : database) : option string :=
  cache_key <$> head (sorted_by timestamp (rows db)).

(** [INSERT OR REPLACE INTO translations VALUES (...)]: a row with the
    same primary key is deleted, the new row gets a fresh rowid. *)
Definition insert_or_replace (db : database) (r : row) : outcome database :=
  if db_writable db
  then Returns (MkDb (filter (fun r' => cache_key r' <> cache_key r) (rows db) ++ [r])
                     (db_writable db))
  else Raises OperationalError.

(** The operator [LIKE]: [%] stands for any run of characters, [_] for
    one character, letters compare without case. *)
Fixpoint like (pattern s : string) : bool :=
  match pattern with
  | EmptyString =>
      match s with EmptyString => true | String _ _ => false end
  | String p pattern' =>
      if decide (p = "%"%char) then
        (fix any (s : string) : bool :=
           like pattern' s ||
           match s with
           | EmptyString => false
           | String _ s' => any s'
           end) s
      else
        match s with
        | EmptyString => false
        | String c s' =>
            (bool_decide (p = "_"%char) ||
             bool_decide (PyStr.lower_char p = PyStr.lower_char c))
            && like pattern' s'
        end
  end.

End Sql.

(* ===================================================================== *)
(** * cache.py: SQLiteCache                                               *)
(* ===================================================================== *)

Module SQLiteCache.

Record t : Type := Mk {
  max_size : Z;
  ttl : Z;
  stats_attr : CacheStats;                 (* self.stats *)
  db_path : string;
  db : database                            (* the file at db_path *)
}.

(** [_cleanup_expired] *)
Definition _cleanup_expired (self : t) (now : Z) : outcome unit * t :=
  let expired_time := now - ttl self in
  match Sql.delete_where (db self) (fun r => timestamp r <? expired_time) with
  | Raises e => (Raises e, self)
  | Returns (_, db') =>
      (Returns tt, Mk (max_size self) (ttl self) (stats_attr self) (db_path self) db')
  end.

(** [SQLiteCache(db_path, max_size, ttl)] on the database [d], whose
    table exists *)
Definition init (db_path : string) (max_size ttl : Z) (now : Z) (d : database)
  : outcome unit * t :=
  _cleanup_expired (Mk max_size ttl CacheStats_init db_path d) now.

Definition get (self : t) (now : Z)
    (text source_lang target_lang : string) (options : PyDict.t pyval)
  : outcome (option string) * t :=
  let key := generate_cache_key text source_lang target_lang options in
  let miss d :=
    Mk (max_size self) (ttl self) (count_miss (stats_attr self)) (db_path self) d in
  match Sql.select_by_key (db self) key with
  | None => (Returns None, miss (db self))
  | Some result =>
      if _is_expired (ttl self) now (timestamp result) then
        match Sql.delete_where (db self) (fun r => bool_decide (cache_key r = key)) with
        | Raises e => (Raises e, self)
        | Returns (_, db') => (Returns None, miss db')
        end
      else
        (Returns (Some (translated_text result)),
         Mk (max_size self) (ttl self) (count_hit (stats_attr self))
            (db_path self) (db self))
  end.

Definition set (self : t) (now : Z)
    (text source_lang target_lang translated : string)
    (options : PyDict.t pyval)
  : outcome unit * t :=
  let key := generate_cache_key text source_lang target_lang options in
  let timestamp := now in
  let options_json :=
    match options with [] => None | _ :: _ => Some (Json.dumps options) end in
  let count := Sql.count (db self) in
  let evicted :=
    if max_size self <=? count
    then match Sql.delete_where (db self)
                 (fun r => bool_decide (Some (cache_key r) = Sql.oldest_key (db self))) with
         | Raises e => Raises e
         | Returns (_, db') => Returns db'
         end
    else Returns (db self) in
  match evicted with
  | Raises e => (Raises e, self)
  | Returns db1 =>
      match Sql.insert_or_replace db1
              (MkRow key text translated source_lang target_lang timestamp
                     options_json) with
      | Raises e => (Raises e, self)
      | Returns db2 =>
          (Returns tt,
           Mk (max_size self) (ttl self)
              (set_total (stats_attr self) (count + 1)) (db_path self) db2)
      end
  end.

(** [source_lang LIKE ? OR target_lang LIKE ?] with the argument
    ["%" + pattern + "%"] *)
Definition matches (pattern : string) (r : row) : bool :=
  let arg := "%" +:+ pattern +:+ "%" in
  Sql.like arg (source_lang r) || Sql.like arg (target_lang r).

Definition clear (self : t) (pattern : option string) : outcome Z * t :=
  let deleted :=
    match pattern with
    | None =>
        let count := Sql.count (db self) in
        match Sql.delete_where (db self) (fun _ => true) with
        | Raises e => Raises e
        | Returns (_, db') => Returns (count, db')
        end
    | Some pattern => Sql.delete_where (db self) (matches pattern)
    end in
  match deleted with
  | Raises e => (Raises e, self)
  | Returns (count, db') =>
      (Returns count,
       Mk (max_size self) (ttl self) (set_total (stats_attr self) 0)
          (db_path self) db')
  end.

(** The body of the method [stats]. *)
Definition stats (self : t) : stats_report :=
  let total_entries := Sql.count (db self) in
  let size_bytes :=
    foldr (fun r acc => PyStr.len (translated_text r) + acc) 0 (rows (db self)) in
  MkReport total_entries
           (hits (stats_attr self))
           (misses (stats_attr self))
           (hit_rate (stats_attr self))
           (Qmake size_bytes mebibyte)
           "sqlite"
           (Some ("db_path", db_path self)).

End SQLiteCache.

(* ===================================================================== *)
(** * cache.py: TranslationCache, the interface of the three backends     *)
(* ===================================================================== *)

Inductive backend : Type :=
  | Memory (c : MemoryCache.t)
  | File (c : FileCache.t)
  | SQLite (c : SQLiteCache.t).

(** A call [cache.set(text, source_lang, target_lang, translated, **options)]
    issued when the clock reads [q_now]. *)
Record request : Type := MkRequest {
  q_now : Z;
  q_text : string;
  q_source : string;
  q_target : string;
  q_translated : string;
  q_options : PyDict.t pyval
}.

Definition key_of (q : request) : string :=
  generate_cache_key (q_text q) (q_source q) (q_target q) (q_options q).

Module TranslationCache.

(** ** Attribute lookup on an instance

    [__init__] binds [max_size], [ttl] and [stats] (and the backend's
    own fields) in the instance; the classes define the methods.  None
    of the classes has a data descriptor, so an attribute of the
    instance is found before an attribute of the class of that name. *)
Inductive attribute : Type :=
  | InstanceAttribute      (* a value stored by __init__: not callable *)
  | BoundMethod.

Definition instance_dict (b : backend) : list string :=
  ["max_size"; "ttl"; "stats"] ++
  match b with
  | Memory _ => ["_cache"]
  | File _ => ["cache_dir"; "_index_file"; "_index"]
  | SQLite _ => ["db_path"]
  end.

Definition class_dict (b : backend) : list string :=
  ["get"; "set"; "clear"; "stats"; "_is_expired"] ++
  match b with
  | Memory _ => []
  | File _ => ["_load_index"; "_save_index"; "_get_cache_file"; "_cleanup_expired"]
  | SQLite _ => ["_init_db"; "_cleanup_expired"]
  end.

Definition getattr (b : backend) (name : string) : outcome attribute :=
  if bool_decide (name ∈ instance_dict b) then Returns InstanceAttribute
  else if bool_decide (name ∈ class_dict b) then Returns BoundMethod
  else Raises AttributeError.

(** [cache.name(...)]: the attribute is looked up, then called. *)
Definition call {A : Type} (b : backend) (name : string)
    (body : outcome A * backend) : outcome A * backend :=
  match getattr b name with
  | Returns BoundMethod => body
  | Returns InstanceAttribute => (Raises TypeError, b)
  | Raises e => (Raises e, b)
  end.

Definition lift {A T : Type} (inj : T -> backend) (r : outcome A * T)
  : outcome A * backend := (fst r, inj (snd r)).

(** ** The four operations, as a caller invokes them *)

Definition get (b : backend) (now : Z)
    (text source_lang target_lang : string) (options : PyDict.t pyval)
  : outcome (option string) * backend :=
  call b "get"
    match b with
    | Memory c => lift Memory (MemoryCache.get c now text source_lang target_lang options)
    | File c => lift File (FileCache.get c now text source_lang target_lang options)
    | SQLite c => lift SQLite (SQLiteCache.get c now text source_lang target_lang options)
    end.

Definition set (b : backend) (now : Z)
    (text source_lang target_lang translated : string)
    (options : PyDict.t pyval)
  : outcome unit * backend :=
  call b "set"
    match b with
    | Memory c =>
        lift Memory (MemoryCache.set c now text source_lang target_lang translated options)
    | File c =>
        lift File (FileCache.set c now text source_lang target_lang translated options)
    | SQLite c =>
        lift SQLite (SQLiteCache.set c now text source_lang target_lang translated options)
    end.

Definition clear (b : backend) (pattern : option string)
  : outcome Z * backend :=
  call b "clear"
    match b with
    | Memory c => lift Memory (MemoryCache.clear c pattern)
    | File c => lift File (FileCache.clear c pattern)
    | SQLite c => lift SQLite (SQLiteCache.clear c pattern)
    end.

(** The body that the class of [b] gives to [stats]. *)
Definition stats_body (b : backend) : stats_report :=
  match b with
  | Memory c => MemoryCache.stats c
  | File c => FileCache.stats c
  | SQLite c => SQLiteCache.stats c
  end.

Definition stats (b : backend) : outcome stats_report * backend :=
  call b "stats" (Returns (stats_body b), b).

(** ** Observations on a store *)

Definition max_size (b : backend) : Z :=
  match b with
  | Memory c => MemoryCache.max_size c
  | File c => FileCache.max_size c
  | SQLite c => SQLiteCache.max_size c
  end.

Definition ttl (b : backend) : Z :=
  match b with
  | Memory c => MemoryCache.ttl c
  | File c => FileCache.ttl c
  | SQLite c => SQLiteCache.ttl c
  end.

Definition counters (b : backend) : CacheStats :=
  match b with
  | Memory c => MemoryCache.stats_attr c
  | File c => FileCache.stats_attr c
  | SQLite c => SQLiteCache.stats_attr c
  end.

(** The keys of the stored entries, oldest insertion first. *)
Definition keys (b : backend) : list string :=
  match b with
  | Memory c => PyDict.keys (MemoryCache._cache c)
  | File c => PyDict.keys (FileCache._index c)
  | SQLite c => map cache_key (rows (SQLiteCache.db c))
  end.

(** The number of stored entries. *)
Definition size (b : backend) : Z := Z.of_nat (length (keys b)).

(** The time stamp recorded for a key, as [get] reads it. *)
Definition entry_timestamp (b : backend) (key : string) : option Z :=
  match b with
  | Memory c => snd <$> PyDict.get (MemoryCache._cache c) key
  | File c => FileCache.timestamp_of <$> PyDict.get (FileCache._index c) key
  | SQLite c => timestamp <$> Sql.select_by_key (SQLiteCache.db c) key
  end.

(** Something is left of the entry of [key]: an item of the dictionary,
    an index record or a backing file, a row. *)
Definition holds (b : backend) (key : string) : bool :=
  match b with
  | Memory c => PyDict.mem (MemoryCache._cache c) key
  | File c =>
      PyDict.mem (FileCache._index c) key ||
      Fs.exists_ (FileCache.dir c) (FileCache._get_cache_file key)
  | SQLite c => bool_decide (key ∈ map cache_key (rows (SQLiteCache.db c)))
  end.

(** The storage medium takes modifications. *)
Definition takes_writes (b : backend) : Prop :=
  match b with
  | Memory _ => True
  | File c => writable (FileCache.dir c) = true
  | SQLite c => db_writable (SQLiteCache.db c) = true
  end.

(** The storage medium takes modifications and reads. *)
Definition healthy (b : backend) : Prop :=
  takes_writes b ∧
  match b with
  | File c => readable (FileCache.dir c) = true
  | _ => True
  end.

(** The environment: between two calls the medium may stop or resume
    taking modifications and reads. *)
Definition set_medium (b : backend) (w r : bool) : backend :=
  match b with
  | Memory c => Memory c
  | File c =>
      File (FileCache.Mk (FileCache.max_size c) (FileCache.ttl c)
              (FileCache.stats_attr c) (FileCache.cache_dir c) (FileCache._index c)
              (MkDisk (files (FileCache.dir c)) (index_json (FileCache.dir c)) w r))
  | SQLite c =>
      SQLite (SQLiteCache.Mk (SQLiteCache.max_size c) (SQLiteCache.ttl c)
                (SQLiteCache.stats_attr c) (SQLiteCache.db_path c)
                (MkDb (rows (SQLiteCache.db c)) w))
  end.

(** A sequence of [set] calls; a caller that catches an exception goes
    on with the store as the failed call left it. *)
Definition set_request (b : backend) (q : request) : backend :=
  snd (set b (q_now q) (q_text q) (q_source q) (q_target q)
           (q_translated q) (q_options q)).

Definition set_all (b : backend) (qs : list request) : backend :=
  fold_left set_request qs b.

(** Any sequence of calls, and of changes of the medium between them. *)
Inductive operation : Type :=
  | OpGet (now : Z) (text source_lang target_lang : string) (options : PyDict.t pyval)
  | OpSet (q : request)
  | OpClear (pattern : option string)
  | OpStats
  | OpMedium (w r : bool).

Definition step (b : backend) (o : operation) : backend :=
  match o with
  | OpGet now text sl tl options => snd (get b now text sl tl options)
  | OpSet q => set_request b q
  | OpClear pattern => snd (clear b pattern)
  | OpStats => snd (stats b)
  | OpMedium w r => set_medium b w r
  end.

Definition run (b : backend) (os : list operation) : backend :=
  fold_left step os b.

End TranslationCache.

(* ===================================================================== *)
(** * translator.py: TranslationResult and the provider interface         *)
(* ===================================================================== *)

Module TranslationResult.

(** The dataclass; [make] fills the fields that a call leaves to their
    defaults. *)
Record t : Type := Mk {
  text : string;
  source_lang : string;
  target_lang : string;
  confidence : option Q;
  cached : bool;
  provider : string;
  metadata : option (PyDict.t pyval)
}.

Definition make (text source_lang target_lang : string) (cached : bool)
    (provider : string) : t :=
  Mk text source_lang target_lang None cached provider None.

End TranslationResult.

(** The dictionary that [detect_language] returns: its item [language]
    (a [str]) if it has one, and its item [confidence]. *)
Record detection : Type := MkDetection {
  language : option string;
  detection_confidence : option Q
}.

Module TranslationProvider.

(** The abstract class.  What the methods return is up to the service
    behind the provider: [St] is the state of the provider object and of
    that service, which a call may change. *)
Record t (St : Type) : Type := Mk {
  name : string;
  translate :
    St -> string -> string -> string -> PyDict.t pyval ->
    result TranslationResult.t * St;
  detect_language : St -> string -> result detection * St;
  get_supported_languages : St -> result (list string) * St
}.
Arguments Mk {St} _ _ _ _.
Arguments name {St} _.
Arguments translate {St} _ _ _ _ _ _.
Arguments detect_language {St} _ _ _.
Arguments get_supported_languages {St} _ _.

End TranslationProvider.

(* ===================================================================== *)
(** * translator.py: Translator                                           *)
(* ===================================================================== *)

Module Translator.

Record t (St : Type) : Type := Mk {
  provider : TranslationProvider.t St;
  service : St;                             (* the state behind the provider *)
  cache : backend;
  default_source_lang : string;
  default_target_lang : string
}.
Arguments Mk {St} _ _ _ _ _.
Arguments provider {St} _.
Arguments service {St} _.
Arguments cache {St} _.
Arguments default_source_lang {St} _.
Arguments default_target_lang {St} _.

(** [Translator(provider, cache, default_source_lang, default_target_lang)];
    a cache object is true, so [cache or MemoryCache()] takes the
    default only for [None]. *)
Definition init {St : Type} (provider : TranslationProvider.t St) (service : St)
    (cache : option backend) (default_source_lang default_target_lang : string)
  : t St :=
  Mk provider service (default (Memory (MemoryCache.init 10000 86400)) cache)
     default_source_lang default_target_lang.

Definition with_state {St : Type} (self : t St) (service : St) (cache : backend)
  : t St :=
  Mk (provider self) service cache
     (default_source_lang self) (default_target_lang self).

(** [x or d] for [x : str | None] *)
Definition py_or (x : option string) (d : string) : string :=
  match x with
  | Some s => if decide (s = EmptyString) then d else s
  | None => d
  end.

(** [not text or not text.strip()] *)
Definition blank (text : string) : bool :=
  bool_decide (text = EmptyString) || bool_decide (PyStr.strip text = EmptyString).

Definition of_outcome {A : Type} (o : outcome A) : result A :=
  match o with
  | Returns a => Ok a
  | Raises e => Fail (Builtin e)
  end.

(** [translate]; [t_get] and [t_set] are the readings of [time.time()]
    in its [cache.get] and in its [cache.set]. *)
Definition translate {St : Type} (self : t St) (t_get t_set : Z) (text : string)
    (source_lang target_lang : option string) (use_cache : bool)
    (options : PyDict.t pyval)
  : result TranslationResult.t * t St :=
  let name := TranslationProvider.name (provider self) in
  if blank text then
    (Ok (TranslationResult.make EmptyString
           (py_or source_lang (default_source_lang self))
           (py_or target_lang (default_target_lang self))
           false name),
     self)
  else
    let source := default (default_source_lang self) source_lang in
    let target := default (default_target_lang self) target_lang in
    if negb (bool_decide (source = "auto")) && negb (validate_language_code source)
    then (Fail (LanguageNotSupportedError source name), self)
    else if negb (validate_language_code target)
    then (Fail (LanguageNotSupportedError target name), self)
    else
      let processed_text := preprocess_text text in
      let looked_up :=
        if use_cache
        then TranslationCache.get (cache self) t_get processed_text source target
               options
        else (Returns None, cache self) in
      match looked_up with
      | (Raises e, cache1) => (Fail (Builtin e), with_state self (service self) cache1)
      | (Returns (Some cached_result), cache1) =>
          (Ok (TranslationResult.make cached_result source target true name),
           with_state self (service self) cache1)
      | (Returns None, cache1) =>
          let detected :=
            if bool_decide (source = "auto") then
              match TranslationProvider.detect_language (provider self)
                      (service self) processed_text with
              | (Ok detection, service1) =>
                  (Ok (default "en" (language detection)), service1)
              | (Fail e, service1) => (Fail e, service1)
              end
            else (Ok source, service self) in
          match detected with
          | (Fail e, service1) => (Fail e, with_state self service1 cache1)
          | (Ok source, service1) =>
              match TranslationProvider.translate (provider self) service1
                      processed_text source target options with
              | (Fail e, service2) => (Fail e, with_state self service2 cache1)
              | (Ok result, service2) =>
                  (* except Exception: pass *)
                  let cache2 :=
                    if use_cache
                    then snd (TranslationCache.set cache1 t_set processed_text
                                source target (TranslationResult.text result) options)
                    else cache1 in
                  (Ok result, with_state self service2 cache2)
              end
          end
      end.

(** The first loop of [translate_batch] under [use_cache]: the results
    appended for the blank texts, [cached_results] and
    [uncached_indices]. *)
Record lookups : Type := MkLookups {
  results : list (option TranslationResult.t);
  cached_results : gmap nat TranslationResult.t;
  uncached_indices : list nat
}.

Fixpoint check_cache (name source target : string) (options : PyDict.t pyval)
    (t_get : nat -> Z) (i : nat) (texts : list string)
    (acc : lookups) (cache : backend) : result lookups * backend :=
  match texts with
  | [] => (Ok acc, cache)
  | text :: texts' =>
      if blank text then
        check_cache name source target options t_get (S i) texts'
          (MkLookups
             (results acc ++
              [Some (TranslationResult.make EmptyString source target false name)])
             (cached_results acc) (uncached_indices acc))
          cache
      else
        let processed_text := preprocess_text text in
        match TranslationCache.get cache (t_get i) processed_text source target
                options with
        | (Raises e, cache1) => (Fail (Builtin e), cache1)
        | (Returns (Some cached_result), cache1) =>
            check_cache name source target options t_get (S i) texts'
              (MkLookups (results acc)
                 (<[i := TranslationResult.make cached_result source target true name]>
                    (cached_results acc))
                 (uncached_indices acc))
              cache1
        | (Returns None, cache1) =>
            check_cache name source target options t_get (S i) texts'
              (MkLookups (results acc) (cached_results acc)
                 (uncached_indices acc ++ [i]))
              cache1
        end
  end.

(** The loop [for idx in uncached_indices: results[idx] = self.translate(...)]
    of the branch [parallel=False]. *)
Fixpoint translate_each {St : Type} (self : t St) (texts : list string)
    (source target : string) (options : PyDict.t pyval)
    (indices : list nat) (results : list (option TranslationResult.t))
  : result (list (option TranslationResult.t)) * t St :=
  match indices with
  | [] => (Ok results, self)
  | idx :: indices' =>
      match texts !! idx with
      | None => (Fail (Builtin IndexError), self)
      | Some text =>
          match translate self 0 0 text (Some source) (Some target) false options with
          | (Fail e, self1) => (Fail e, self1)
          | (Ok r, self1) =>
              if decide (idx < length results)%nat
              then translate_each self1 texts source target options indices'
                     (<[idx := Some r]> results)
              else (Fail (Builtin IndexError), self1)
          end
      end
  end.

(** The loop that saves the new translations; an exception of
    [cache.set] is swallowed. *)
Fixpoint save_each (texts : list string) (source target : string)
    (options : PyDict.t pyval) (t_set : nat -> Z) (indices : list nat)
    (results : list (option TranslationResult.t)) (cache : backend)
  : result unit * backend :=
  match indices with
  | [] => (Ok tt, cache)
  | idx :: indices' =>
      match results !! idx with
      | None => (Fail (Builtin IndexError), cache)
      | Some None => save_each texts source target options t_set indices' results cache
      | Some (Some r) =>
          if decide (TranslationResult.text r = EmptyString)
          then save_each texts source target options t_set indices' results cache
          else
            match texts !! idx with
            | None => (Fail (Builtin IndexError), cache)
            | Some text =>
                save_each texts source target options t_set indices' results
                  (snd (TranslationCache.set cache (t_set idx) (preprocess_text text)
                          source target (TranslationResult.text r) options))
            end
      end
  end.

(** [translate_batch] with [parallel=False].  [t_get i] and [t_set i]
    are the readings of [time.time()] in the [cache.get] and in the
    [cache.set] for the text of index [i].  An item [None] of the result
    is a place holder that was never filled. *)
Definition translate_batch {St : Type} (self : t St) (t_get t_set : nat -> Z)
    (texts : list string) (source_lang target_lang : option string)
    (use_cache : bool) (options : PyDict.t pyval)
  : result (list (option TranslationResult.t)) * t St :=
  match texts with
  | [] => (Ok [], self)
  | _ :: _ =>
      let name := TranslationProvider.name (provider self) in
      let source := default (default_source_lang self) source_lang in
      let target := default (default_target_lang self) target_lang in
      let checked :=
        if use_cache then
          match check_cache name source target options t_get 0 texts
                  (MkLookups [] ∅ []) (cache self) with
          | (Fail e, cache1) => (Fail e, cache1)
          | (Ok found, cache1) =>
              (Ok (MkLookups
                     (results found ++
                      map (fun i => cached_results found !! i) (seq 0 (length texts)))
                     (cached_results found) (uncached_indices found)),
               cache1)
          end
        else
          (Ok (MkLookups (replicate (length texts) None) ∅ (seq 0 (length texts))),
           cache self) in
      match checked with
      | (Fail e, cache1) => (Fail e, with_state self (service self) cache1)
      | (Ok found, cache1) =>
          match uncached_indices found with
          | [] => (Ok (results found), with_state self (service self) cache1)
          | _ :: _ =>
              match translate_each (with_state self (service self) cache1) texts
                      source target options (uncached_indices found) (results found) with
              | (Fail e, self1) => (Fail e, self1)
              | (Ok results1, self1) =>
                  if use_cache then
                    match save_each texts source target options t_set
                            (uncached_indices found) results1 (cache self1) with
                    | (Fail e, cache2) => (Fail e, with_state self1 (service self1) cache2)
                    | (Ok _, cache2) =>
                        (Ok results1, with_state self1 (service self1) cache2)
                    end
                  else (Ok results1, self1)
              end
          end
      end
  end.

Definition detect_language {St : Type} (self : t St) (text : string)
  : result detection * t St :=
  let '(r, service1) :=
    TranslationProvider.detect_language (provider self) (service self) text in
  (r, with_state self service1 (cache self)).

End Translator.

(* ===================================================================== *)
(** * batch_translator.py: BatchTranslator                                *)
(* ===================================================================== *)

Module BatchTranslator.

(** The loop over the chunks; [j] is the number of the chunk. *)
Fixpoint translate_chunks {St : Type} (translator : Translator.t St)
    (t_get t_set : nat -> nat -> Z) (j : nat) (chunks : list (list string))
    (source_lang target_lang : option string) (use_cache : bool)
    (options : PyDict.t pyval)
    (all_results : list (option TranslationResult.t))
  : result (list (option TranslationResult.t)) * Translator.t St :=
  match chunks with
  | [] => (Ok all_results, translator)
  | chunk :: chunks' =>
      match Translator.translate_batch translator (t_get j) (t_set j) chunk
              source_lang target_lang use_cache options with
      | (Fail e, translator1) => (Fail e, translator1)
      | (Ok chunk_results, translator1) =>
          translate_chunks translator1 t_get t_set (S j) chunks'
            source_lang target_lang use_cache options
            (all_results ++ chunk_results)
      end
  end.

(** [translate_batch] with [parallel=False]; [t_get j i] and [t_set j i]
    are the readings of [time.time()] for the text of index [i] of the
    chunk of number [j]. *)
Definition translate_batch {St : Type} (translator : Translator.t St)
    (t_get t_set : nat -> nat -> Z) (texts : list string)
    (source_lang target_lang : option string) (use_cache : bool)
    (batch_size : Z) (options : PyDict.t pyval)
  : result (list (option TranslationResult.t)) * Translator.t St :=
  match texts with
  | [] => (Ok [], translator)
  | _ :: _ =>
      if Z.of_nat (length texts) <=? batch_size then
        Translator.translate_batch translator (t_get 0%nat) (t_set 0%nat) texts
          source_lang target_lang use_cache options
      else
        match chunk_texts texts batch_size with
        | Fail e => (Fail e, translator)
        | Ok chunks =>
            translate_chunks translator t_get t_set 0 chunks
              source_lang target_lang use_cache options []
        end
  end.

(** The values of the dictionary that [translate_dict] walks: a [str],
    a [dict], a [list], or a value of another type. *)
#[warnings="-register-all"] Inductive value : Type :=
  | VStr (s : string)
  | VDict (items : list (string * value))
  | VList (items : list value)
  | VOther (v : pyval).

Section TranslateDict.
Context {St : Type}.
(** [clock n] gives the readings of [time.time()] in the [cache.get]
    and in the [cache.set] of the call of [translate] of number [n];
    the state carries the translator and the number of calls made. *)
Context (clock : nat -> Z * Z).
Context (source_lang target_lang : option string) (options : PyDict.t pyval).

(** [self.translator.translate(text, source_lang=..., target_lang=...,
    **options).text] *)
Definition translate_text (state : Translator.t St * nat) (text : string)
  : result string * (Translator.t St * nat) :=
  let '(translator, n) := state in
  match Translator.translate translator (fst (clock n)) (snd (clock n)) text
          source_lang target_lang true options with
  | (Ok translation, translator1) =>
      (Ok (TranslationResult.text translation), (translator1, S n))
  | (Fail e, translator1) => (Fail e, (translator1, S n))
  end.

(** The list comprehension: the items that are [str] are translated, the
    other items are taken as they are. *)
Fixpoint translate_items (items : list value) (state : Translator.t St * nat)
  : result (list value) * (Translator.t St * nat) :=
  match items with
  | [] => (Ok [], state)
  | item :: items' =>
      let translated :=
        match item with
        | VStr s =>
            match translate_text state s with
            | (Ok t, state1) => (Ok (VStr t), state1)
            | (Fail e, state1) => (Fail e, state1)
            end
        | _ => (Ok item, state)
        end in
      match translated with
      | (Fail e, state1) => (Fail e, state1)
      | (Ok item1, state1) =>
          match translate_items items' state1 with
          | (Fail e, state2) => (Fail e, state2)
          | (Ok items1, state2) => (Ok (item1 :: items1), state2)
          end
      end
  end.

(** The loop [for key, value in data.items(): result[key] = ...], with
    the translation of one value as [translate_value]. *)
Definition translate_entries
    (translate_value :
       value -> Translator.t St * nat -> result value * (Translator.t St * nat))
  : list (string * value) -> PyDict.t value -> Translator.t St * nat ->
    result (PyDict.t value) * (Translator.t St * nat) :=
  fix loop data result state :=
    match data with
    | [] => (Ok result, state)
    | (key, value) :: data' =>
        match translate_value value state with
        | (Fail e, state1) => (Fail e, state1)
        | (Ok value1, state1) => loop data' (PyDict.set result key value1) state1
        end
    end.

(** The branches of the loop body. *)
Fixpoint translate_value (value : value) (state : Translator.t St * nat)
  : result BatchTranslator.value * (Translator.t St * nat) :=
  match value with
  | VStr s =>
      match translate_text state s with
      | (Ok t, state1) => (Ok (VStr t), state1)
      | (Fail e, state1) => (Fail e, state1)
      end
  | VDict data =>
      match translate_entries translate_value data [] state with
      | (Ok result, state1) => (Ok (VDict result), state1)
      | (Fail e, state1) => (Fail e, state1)
      end
  | VList items =>
      match translate_items items state with
      | (Ok items1, state1) => (Ok (VList items1), state1)
      | (Fail e, state1) => (Fail e, state1)
      end
  | VOther _ => (Ok value, state)
  end.

Definition translate_dict (data : list (string * value))
    (state : Translator.t St * nat)
  : result (PyDict.t value) * (Translator.t St * nat) :=
  translate_entries translate_value data [] state.

End TranslateDict.

End BatchTranslator.

(* ===================================================================== *)
(** * Vocabulary of the properties                                        *)
(* ===================================================================== *)

(** Two distinct texts with one MD5 digest. *)
Definition md5_collision (x y : string) : Prop :=
  x ≠ y ∧ Hashlib.md5_hexdigest x = Hashlib.md5_hexdigest y.

(** The three normalised fields of a request. *)
Definition normalized_fields (text source_lang target_lang : string)
  : string * string * string :=
  (preprocess_text text, normalize_language_code source_lang,
   normalize_language_code target_lang).

Definition pipe_free (s : string) : Prop := PyStr.has_char "|" s = false.

(** The body of [generate_cache_key] over the three functions that it
    calls on its arguments: [pre] for [preprocess_text], [norm] for
    [normalize_language_code] and [dumps] for
    [json.dumps(relevant_options, sort_keys=True)].  What is proved of
    it for every [pre], [norm] and [dumps] does not rest on the
    character tables of [PyStr]. *)
Definition key_parts_with (pre norm : string -> string)
    (dumps : PyDict.t pyval -> string)
    (text source_lang target_lang : string) (options : PyDict.t pyval)
  : list string :=
  let normalized_text := pre text in
  let normalized_source := norm source_lang in
  let normalized_target := norm target_lang in
  let parts := [normalized_text; normalized_source; normalized_target] in
  match options with
  | [] => parts
  | _ :: _ =>
      match relevant_options options with
      | [] => parts
      | r => parts ++ [dumps r]
      end
  end.

Definition key_string_with (pre norm : string -> string)
    (dumps : PyDict.t pyval -> string)
    (text source_lang target_lang : string) (options : PyDict.t pyval)
  : string :=
  PyStr.join "|" (key_parts_with pre norm dumps text source_lang target_lang options).

Definition generate_cache_key_with (pre norm : string -> string)
    (dumps : PyDict.t pyval -> string)
    (text source_lang target_lang : string) (options : PyDict.t pyval)
  : string :=
  Hashlib.md5_hexdigest
    (key_string_with pre norm dumps text source_lang target_lang options).

(** [s.isascii()]: every byte of the text is below 128.  On such a text
    [PyStr.strip], [PyStr.lower] and [PyStr.collapse_ws] are the
    operations of Python. *)
Definition isascii (s : string) : bool :=
  forallb (fun c => PyStr.code c <? 128) (list_ascii_of_string s).

(** The medium refuses the removal that [get] attempts on an expired
    entry of [key]: the directory takes no modification and the backing
    file is there, or the database takes no write. *)
Definition refuses_removal (b : backend) (key : string) : Prop :=
  match b with
  | Memory _ => False
  | File c =>
      writable (FileCache.dir c) = false ∧
      Fs.exists_ (FileCache.dir c) (FileCache._get_cache_file key) = true
  | SQLite c => db_writable (SQLiteCache.db c) = false
  end.

(** The exception of the refused removal. *)
Definition removal_error (b : backend) : exn :=
  match b with
  | SQLite _ => OperationalError
  | _ => OSError
  end.

(** The row that [set] writes. *)
Definition new_row (now : Z) (text sl tl v : string) (o : PyDict.t pyval) : row :=
  MkRow (generate_cache_key text sl tl o) text v sl tl now
        match o with [] => None | _ :: _ => Some (Json.dumps o) end.

(** The rows left by the eviction step of [set]. *)
Definition after_eviction (self : SQLiteCache.t) : list row :=
  if SQLiteCache.max_size self <=? Sql.count (SQLiteCache.db self)
  then filter (fun r => bool_decide (Some (cache_key r) =
                                     Sql.oldest_key (SQLiteCache.db self)) = false)
              (rows (SQLiteCache.db self))
  else rows (SQLiteCache.db self).

(** A translation of two lines that end in CR LF. *)
Definition two_lines : string :=
  "premiere ligne" +:+ String Fs.CR (String Fs.LF "seconde ligne").


(** The texts translated one after the other without the cache, up to
    the first failure: the reference for the batch functions. *)
Fixpoint translate_in_turn {St : Type} (self : Translator.t St)
    (texts : list string) (source target : string) (options : PyDict.t pyval)
  : result (list TranslationResult.t) * Translator.t St :=
  match texts with
  | [] => (Ok [], self)
  | text :: texts' =>
      match Translator.translate self 0 0 text (Some source) (Some target)
              false options with
      | (Fail e, self1) => (Fail e, self1)
      | (Ok r, self1) =>
          match translate_in_turn self1 texts' source target options with
          | (Fail e, self2) => (Fail e, self2)
          | (Ok rs, self2) => (Ok (r :: rs), self2)
          end
      end
  end.

(** A provider for the examples: it answers every request with the text
    in brackets and counts its calls. *)
Definition echo_provider : TranslationProvider.t nat :=
  TranslationProvider.Mk "echo"
    (fun calls text source target _ =>
       (Ok (TranslationResult.make ("[" +:+ text +:+ "]") source target false "echo"),
        S calls))
    (fun calls _ => (Ok (MkDetection (Some "en") None), S calls))
    (fun calls => (Ok ["en"; "fr"], calls)).

(** A string that does not start with white space. *)
Definition starts_clean (s : string) : Prop :=
  match s with
  | EmptyString => True
  | String c _ => PyStr.is_space c = false
  end.

(* ===================================================================== *)
(** * Test vectors of MD5 (RFC 1321, appendix A.5)                        *)
(* ===================================================================== *)

Example md5_empty : Hashlib.md5_hexdigest EmptyString = "d41d8cd98f00b204e9800998ecf8427e".
Proof. vm_compute. reflexivity. Qed.

Example md5_abc : Hashlib.md5_hexdigest "abc" = "900150983cd24fb0d6963f7d28e17f72".
Proof. vm_compute. reflexivity. Qed.

Example md5_long :
  Hashlib.md5_hexdigest
    "12345678901234567890123456789012345678901234567890123456789012345678901234567890"
  = "57edf4a22be3c955ac49da2e2107b67a".
Proof. vm_compute. reflexivity. Qed.

(* ===================================================================== *)
(** * Facts about strings                                                 *)
(* ===================================================================== *)

Section StringFacts.

Lemma append_nil (x : string) : EmptyString +:+ x = x.
Proof. reflexivity. Qed.

Lemma append_cons (c : ascii) (a x : string) :
  String c a +:+ x = String c (a +:+ x).
Proof. reflexivity. Qed.

Lemma length_append (a b : string) :
  String.length (a +:+ b) = (String.length a + String.length b)%nat.
Proof.
  induction a as [|c a IH]; [done|].
  rewrite append_cons. simpl. by rewrite IH.
Qed.

Lemma append_inv_tail (a b x : string) : a +:+ x = b +:+ x -> a = b.
Proof.
  revert b. induction a as [|c a IH]; intros [|c' b] H;
    rewrite ?append_nil, ?append_cons in H.
  - done.
  - apply (f_equal String.length) in H. simpl in H.
    rewrite length_append in H. lia.
  - apply (f_equal String.length) in H. simpl in H.
    rewrite length_append in H. lia.
  - injection H as -> H. f_equal. by apply IH.
Qed.

(** A field without the separator is recovered from the joined text. *)
Lemma split_at_separator (sep : ascii) (a a' r r' : string) :
  PyStr.has_char sep a = false ->
  PyStr.has_char sep a' = false ->
  a +:+ String sep r = a' +:+ String sep r' ->
  a = a' ∧ r = r'.
Proof.
  revert a'. induction a as [|c a IH]; intros [|c' a'] Ha Ha' H;
    rewrite ?append_nil, ?append_cons in H; simpl in Ha, Ha'.
  - by injection H.
  - injection H as <- _. by rewrite decide_True in Ha'.
  - injection H as -> _. by rewrite decide_True in Ha.
  - injection H as -> H.
    destruct (decide (c' = sep)); [done|].
    destruct (IH a' Ha Ha' H) as [-> ->]. done.
Qed.

Lemma append_empty (a : string) : a +:+ EmptyString = a.
Proof.
  induction a as [|c a IH]; [done|]. rewrite append_cons. by rewrite IH.
Qed.

Lemma append_assoc (a b c : string) : a +:+ (b +:+ c) = (a +:+ b) +:+ c.
Proof.
  induction a as [|x a IH]; [done|]. rewrite !append_cons. by rewrite IH.
Qed.

Lemma has_char_separator (sep : ascii) (a r : string) :
  PyStr.has_char sep (a +:+ String sep r) = true.
Proof.
  induction a as [|c a IH].
  - rewrite append_nil. cbn [PyStr.has_char]. by rewrite decide_True.
  - rewrite append_cons. cbn [PyStr.has_char]. by destruct (decide (c = sep)).
Qed.

(** A last field without the separator is recovered from the joined
    text, whatever stands before it. *)
Lemma split_at_last_separator (sep : ascii) (a a' r r' : string) :
  PyStr.has_char sep r = false ->
  PyStr.has_char sep r' = false ->
  a +:+ String sep r = a' +:+ String sep r' ->
  a = a' ∧ r = r'.
Proof.
  revert a'. induction a as [|c a IH]; intros [|c' a'] Hr Hr' H;
    rewrite ?append_nil, ?append_cons in H.
  - by injection H.
  - injection H as _ H. rewrite H, has_char_separator in Hr. done.
  - injection H as _ H. rewrite <- H, has_char_separator in Hr'. done.
  - injection H as -> H.
    destruct (IH a' Hr Hr' H) as [-> ->]. done.
Qed.

End StringFacts.

(* ===================================================================== *)
(** * Facts about dictionaries                                            *)
(* ===================================================================== *)

Section DictFacts.
Context {V : Type}.
Implicit Types (d : PyDict.t V) (k : string) (v : V).

Lemma get_set_eq d k v : PyDict.get (PyDict.set d k v) k = Some v.
Proof.
  induction d as [|[k' v'] d IH]; simpl.
  - by rewrite decide_True.
  - destruct (decide (k' = k)) as [->|Hne]; simpl.
    + by rewrite decide_True.
    + by rewrite decide_False.
Qed.

Lemma get_set_ne d k k' v :
  k ≠ k' -> PyDict.get (PyDict.set d k v) k' = PyDict.get d k'.
Proof.
  intros Hne. induction d as [|[k0 v0] d IH]; simpl.
  - by rewrite decide_False.
  - destruct (decide (k0 = k)) as [->|Hne0]; simpl.
    + by rewrite !decide_False.
    + by rewrite IH.
Qed.

Lemma get_del_eq d k : PyDict.get (PyDict.del d k) k = None.
Proof.
  induction d as [|[k' v'] d IH]; simpl; [done|].
  destruct (decide (k' = k)); simpl; [done|]. by rewrite decide_False.
Qed.

Lemma get_del_ne d k k' :
  k ≠ k' -> PyDict.get (PyDict.del d k) k' = PyDict.get d k'.
Proof.
  intros Hne. induction d as [|[k0 v0] d IH]; simpl; [done|].
  destruct (decide (k0 = k)) as [->|Hne0]; simpl.
  - by rewrite decide_False.
  - by rewrite IH.
Qed.

Lemma get_app d d' k :
  PyDict.get (d ++ d') k =
  match PyDict.get d k with Some v => Some v | None => PyDict.get d' k end.
Proof.
  induction d as [|[k0 v0] d IH]; simpl; [done|].
  by destruct (decide (k0 = k)).
Qed.

Lemma get_None_keys d k : PyDict.get d k = None <-> k ∉ PyDict.keys d.
Proof.
  induction d as [|[k0 v0] d IH]; simpl.
  - split; [intros _; apply not_elem_of_nil | done].
  - rewrite not_elem_of_cons. destruct (decide (k0 = k)) as [->|Hne].
    + split; [done | by intros [? _]].
    + rewrite IH. split; [by intros ?; split | by intros [_ ?]].
Qed.

Lemma mem_keys d k : PyDict.mem d k = true <-> k ∈ PyDict.keys d.
Proof.
  unfold PyDict.mem. destruct (PyDict.get d k) eqn:E.
  - split; [intros _ | done].
    destruct (decide (k ∈ PyDict.keys d)) as [|Hn]; [done|].
    apply get_None_keys in Hn. congruence.
  - split; [done|]. intros Hin. by apply get_None_keys in E.
Qed.

Lemma keys_del d k :
  PyDict.keys (PyDict.del d k) = filter (fun k' => k' ≠ k) (PyDict.keys d).
Proof.
  induction d as [|[k0 v0] d IH]; simpl; [done|].
  destruct (decide (k0 = k)) as [->|Hne]; simpl.
  - rewrite filter_cons_False; [done | by intros ?].
  - rewrite filter_cons_True; [|done]. by rewrite <- IH.
Qed.

Lemma keys_set_present d k v :
  k ∈ PyDict.keys d -> PyDict.keys (PyDict.set d k v) = PyDict.keys d.
Proof.
  induction d as [|[k0 v0] d IH]; simpl.
  - by intros ?%elem_of_nil.
  - intros Hin. destruct (decide (k0 = k)) as [->|Hne]; simpl; [done|].
    f_equal. apply IH. apply elem_of_cons in Hin as [?|?]; [congruence|done].
Qed.

Lemma keys_set_absent d k v :
  k ∉ PyDict.keys d -> PyDict.keys (PyDict.set d k v) = PyDict.keys d ++ [k].
Proof.
  induction d as [|[k0 v0] d IH]; simpl; [done|].
  intros [Hne Hnin]%not_elem_of_cons.
  rewrite decide_False; [|done]. simpl. f_equal. by apply IH.
Qed.

Lemma length_set_le d k v :
  (length (PyDict.set d k v) ≤ S (length d))%nat.
Proof.
  induction d as [|[k0 v0] d IH]; simpl; [lia|].
  destruct (decide (k0 = k)); simpl; lia.
Qed.

Lemma length_del_le d k : (length (PyDict.del d k) ≤ length d)%nat.
Proof.
  induction d as [|[k0 v0] d IH]; simpl; [lia|].
  destruct (decide (k0 = k)); simpl; lia.
Qed.

Lemma length_del_lt d k :
  k ∈ PyDict.keys d -> (length (PyDict.del d k) < length d)%nat.
Proof.
  induction d as [|[k0 v0] d IH]; simpl.
  - by intros ?%elem_of_nil.
  - intros Hin. destruct (decide (k0 = k)) as [->|Hne]; simpl.
    + pose proof (length_del_le d k). lia.
    + apply elem_of_cons in Hin as [?|Hin]; [congruence|].
      specialize (IH Hin). lia.
Qed.

Lemma del_absent d k : k ∉ PyDict.keys d -> PyDict.del d k = d.
Proof.
  induction d as [|[k0 v0] d IH]; simpl; [done|].
  intros [Hne Hnin]%not_elem_of_cons.
  rewrite decide_False; [|done]. by rewrite IH.
Qed.

Lemma length_del_NoDup d k :
  NoDup (PyDict.keys d) -> k ∈ PyDict.keys d ->
  length d = S (length (PyDict.del d k)).
Proof.
  induction d as [|[k0 v0] d IH]; simpl.
  - by intros _ ?%elem_of_nil.
  - intros [Hnin Hnd]%NoDup_cons Hin.
    destruct (decide (k0 = k)) as [->|Hne]; simpl.
    + by rewrite del_absent.
    + apply elem_of_cons in Hin as [?|Hin]; [congruence|].
      by rewrite <- IH.
Qed.

Lemma NoDup_keys_del d k :
  NoDup (PyDict.keys d) -> NoDup (PyDict.keys (PyDict.del d k)).
Proof. intros H. rewrite keys_del. by apply NoDup_filter. Qed.

Lemma NoDup_keys_set d k v :
  NoDup (PyDict.keys d) -> NoDup (PyDict.keys (PyDict.set d k v)).
Proof.
  intros H. destruct (decide (k ∈ PyDict.keys d)) as [Hin|Hnin].
  - by rewrite keys_set_present.
  - rewrite keys_set_absent; [|done].
    apply NoDup_app. split; [done|]. split; [|apply NoDup_singleton].
    intros x Hx ->%list_elem_of_singleton. done.
Qed.

(** The head of a sorted list is an element of the list. *)
Lemma insert_by_elem {A} (f : A -> Z) (x y : A) (l : list A) :
  y ∈ insert_by f x l <-> y = x ∨ y ∈ l.
Proof.
  induction l as [|z l IH]; simpl.
  - rewrite list_elem_of_singleton. split; [by left | intros [?|?%elem_of_nil]; done].
  - destruct (f x <=? f z).
    + by rewrite elem_of_cons.
    + rewrite !elem_of_cons, IH. tauto.
Qed.

Lemma sorted_by_elem {A} (f : A -> Z) (y : A) (l : list A) :
  y ∈ sorted_by f l <-> y ∈ l.
Proof.
  induction l as [|z l IH]; simpl; [done|].
  rewrite insert_by_elem, elem_of_cons, IH. tauto.
Qed.

Lemma length_insert_by {A} (f : A -> Z) (x : A) (l : list A) :
  length (insert_by f x l) = S (length l).
Proof.
  induction l as [|z l IH]; simpl; [done|].
  destruct (f x <=? f z); simpl; [done | by rewrite IH].
Qed.

Lemma length_sorted_by {A} (f : A -> Z) (l : list A) :
  length (sorted_by f l) = length l.
Proof.
  induction l as [|z l IH]; simpl; [done|].
  by rewrite length_insert_by, IH.
Qed.

End DictFacts.

(* ===================================================================== *)
(** * Key derivation                                                      *)
(* ===================================================================== *)

Section KeyFacts.

Lemma relevant_options_lookups (o1 o2 : PyDict.t pyval) :
  map (PyDict.get o1) relevant_keys = map (PyDict.get o2) relevant_keys ->
  relevant_options o1 = relevant_options o2.
Proof.
  unfold relevant_options, relevant_keys. simpl.
  intros H. injection H as -> -> ->. done.
Qed.

(** Only [relevant_options] reaches the key. *)
Lemma key_parts_relevant (text source_lang target_lang : string)
    (options : PyDict.t pyval) :
  key_parts text source_lang target_lang options =
  [preprocess_text text; normalize_language_code source_lang;
   normalize_language_code target_lang] ++
  match relevant_options options with
  | [] => []
  | r => [Json.dumps_sorted r]
  end.
Proof.
  unfold key_parts. destruct options as [|kv options]; [done|].
  by destruct (relevant_options (kv :: options)).
Qed.

Lemma join_three (t s g : string) :
  PyStr.join "|" [t; s; g] = t +:+ String "|" (s +:+ String "|" g).
Proof. reflexivity. Qed.

Lemma join_four (t s g j : string) :
  PyStr.join "|" [t; s; g; j] =
  t +:+ String "|" (s +:+ String "|" (g +:+ String "|" j)).
Proof. reflexivity. Qed.

Lemma key_string_injective (t1 s1 g1 t2 s2 g2 : string)
    (o1 o2 : PyDict.t pyval) :
  relevant_options o1 = relevant_options o2 ->
  pipe_free (preprocess_text t1) -> pipe_free (normalize_language_code s1) ->
  pipe_free (preprocess_text t2) -> pipe_free (normalize_language_code s2) ->
  key_string t1 s1 g1 o1 = key_string t2 s2 g2 o2 ->
  normalized_fields t1 s1 g1 = normalized_fields t2 s2 g2.
Proof.
  unfold key_string, normalized_fields, pipe_free.
  rewrite !key_parts_relevant. intros -> Ht1 Hs1 Ht2 Hs2.
  destruct (relevant_options o2) as [|kv r]; simpl app.
  - rewrite !join_three. intros H.
    apply split_at_separator in H as [-> H]; [|done..].
    apply split_at_separator in H as [-> ->]; done.
  - rewrite !join_four. intros H.
    apply split_at_separator in H as [-> H]; [|done..].
    apply split_at_separator in H as [-> H]; [|done..].
    change (String "|" ?x) with ("|" +:+ x) in H.
    by apply append_inv_tail in H as ->.
Qed.

(** [generate_cache_key] is [generate_cache_key_with] at the functions
    that the module defines. *)
Lemma generate_cache_key_with_embedding (text source_lang target_lang : string)
    (options : PyDict.t pyval) :
  key_string text source_lang target_lang options =
  key_string_with preprocess_text normalize_language_code Json.dumps_sorted
    text source_lang target_lang options ∧
  generate_cache_key text source_lang target_lang options =
  generate_cache_key_with preprocess_text normalize_language_code Json.dumps_sorted
    text source_lang target_lang options.
Proof. split; reflexivity. Qed.

(** The text that is hashed: the three fields, then the options. *)
Lemma key_string_with_fields (pre norm : string -> string)
    (dumps : PyDict.t pyval -> string) (t s g : string) (o : PyDict.t pyval) :
  key_string_with pre norm dumps t s g o =
  (pre t +:+ String "|" (norm s +:+ String "|" (norm g))) +:+
  match relevant_options o with
  | [] => EmptyString
  | r => String "|" (dumps r)
  end.
Proof.
  unfold key_string_with, key_parts_with.
  assert (PyStr.join "|" [pre t; norm s; norm g] =
          (pre t +:+ String "|" (norm s +:+ String "|" (norm g))) +:+ EmptyString)
    as Hthree by (by rewrite append_empty).
  destruct o as [|kv o]; [exact Hthree|].
  destruct (relevant_options (kv :: o)) as [|kv' r]; [exact Hthree|].
  cbn [app]. rewrite join_four.
  change (String "|" (norm g +:+ String "|" ?j))
    with (String "|" (norm g) +:+ String "|" j).
  change (String "|" (norm s +:+ ?x)) with (String "|" (norm s) +:+ x).
  by rewrite !append_assoc.
Qed.

(** The three fields are recovered from the hashed text when the two
    language fields hold no separator (read from the right), or when the
    text and the source language hold none (read from the left). *)
Lemma key_string_with_injective (pre norm : string -> string)
    (dumps : PyDict.t pyval -> string) (t1 s1 g1 t2 s2 g2 : string)
    (o1 o2 : PyDict.t pyval) :
  relevant_options o1 = relevant_options o2 ->
  (pipe_free (norm s1) ∧ pipe_free (norm g1) ∧
   pipe_free (norm s2) ∧ pipe_free (norm g2)) ∨
  (pipe_free (pre t1) ∧ pipe_free (norm s1) ∧
   pipe_free (pre t2) ∧ pipe_free (norm s2)) ->
  key_string_with pre norm dumps t1 s1 g1 o1 =
  key_string_with pre norm dumps t2 s2 g2 o2 ->
  (pre t1, norm s1, norm g1) = (pre t2, norm s2, norm g2).
Proof.
  unfold pipe_free. intros Ho Hfree. rewrite !key_string_with_fields, Ho.
  intros H%append_inv_tail.
  destruct Hfree as [(Hs1 & Hg1 & Hs2 & Hg2)|(Ht1 & Hs1 & Ht2 & Hs2)].
  - change (String "|" (norm s1 +:+ ?x)) with (String "|" (norm s1) +:+ x) in H.
    change (String "|" (norm s2 +:+ ?x)) with (String "|" (norm s2) +:+ x) in H.
    rewrite !append_assoc in H.
    apply split_at_last_separator in H as [H ->]; [|done..].
    apply split_at_last_separator in H as [-> ->]; done.
  - apply split_at_separator in H as [-> H]; [|done..].
    apply split_at_separator in H as [-> ->]; done.
Qed.

End KeyFacts.

(** C7: two calls of [generate_cache_key] that agree on the text, the two
    languages and the options [formality], [domain] and
    [preserve_formatting] give the same key, whatever else their options
    hold. *)
Theorem cache_key_ignores_other_options
    (text source_lang target_lang : string) (o1 o2 : PyDict.t pyval) :
  map (PyDict.get o1) relevant_keys = map (PyDict.get o2) relevant_keys ->
  generate_cache_key text source_lang target_lang o1 =
  generate_cache_key text source_lang target_lang o2.
Proof.
  intros H. unfold generate_cache_key, key_string.
  by rewrite !key_parts_relevant, (relevant_options_lookups o1 o2 H).
Qed.

Lemma cache_key_ignores_other_options_witness :
  let o1 := [("formality", PStr "formal"); ("glossary", PStr "legal")] in
  let o2 := [("timeout", PInt 30); ("formality", PStr "formal"); ("retries", PNone)] in
  map (PyDict.get o1) relevant_keys = map (PyDict.get o2) relevant_keys ∧
  generate_cache_key "Hello" "en" "fr" o1 = generate_cache_key "Hello" "en" "fr" o2.
Proof.
  split; [reflexivity|].
  apply (cache_key_ignores_other_options "Hello" "en" "fr"). reflexivity.
Defined.

(** C8, as the specification states it, fails: the requests
    ("a|b", "c", "fr") and ("a", "b|c", "fr") differ in the normalised
    text and in the normalised source language, carry the same (empty)
    options, and are hashed from the same text "a|b|c|fr". *)
Lemma cache_key_separator_collision :
  preprocess_text "a|b" ≠ preprocess_text "a" ∧
  normalize_language_code "c" ≠ normalize_language_code "b|c" ∧
  relevant_options [] = relevant_options [] ∧
  generate_cache_key "a|b" "c" "fr" [] = generate_cache_key "a" "b|c" "fr" [].
Proof. repeat split; done. Qed.

(** C8, amended: two requests with the same allow-listed options that
    differ in the normalised text, source language or target language
    are hashed from different key strings, provided the normalised
    language codes of both hold no "|" (no code of [LANGUAGE_NAMES]
    does) or the normalised texts and source languages of both hold
    none; their keys can then be equal only if MD5 collides on these two
    strings.  The text is unrestricted in the first case.  The statement
    is about the body of [generate_cache_key] for every normalisation
    [pre] of the text, every normalisation [norm] of a language code and
    every serialisation [dumps] of the options, those of the module
    among them. *)
Theorem cache_key_sensitive_up_to_md5
    (pre norm : string -> string) (dumps : PyDict.t pyval -> string)
    (t1 s1 g1 t2 s2 g2 : string) (o1 o2 : PyDict.t pyval) :
  relevant_options o1 = relevant_options o2 ->
  (pipe_free (norm s1) ∧ pipe_free (norm g1) ∧
   pipe_free (norm s2) ∧ pipe_free (norm g2)) ∨
  (pipe_free (pre t1) ∧ pipe_free (norm s1) ∧
   pipe_free (pre t2) ∧ pipe_free (norm s2)) ->
  (pre t1, norm s1, norm g1) ≠ (pre t2, norm s2, norm g2) ->
  key_string_with pre norm dumps t1 s1 g1 o1 ≠
  key_string_with pre norm dumps t2 s2 g2 o2 ∧
  (generate_cache_key_with pre norm dumps t1 s1 g1 o1 =
   generate_cache_key_with pre norm dumps t2 s2 g2 o2 ->
   md5_collision (key_string_with pre norm dumps t1 s1 g1 o1)
                 (key_string_with pre norm dumps t2 s2 g2 o2)).
Proof.
  intros Ho Hfree Hne.
  assert (key_string_with pre norm dumps t1 s1 g1 o1 ≠
          key_string_with pre norm dumps t2 s2 g2 o2) as Hks.
  { intros Heq. apply Hne. by eapply key_string_with_injective. }
  split; [done|]. intros Hk. split; [done|]. exact Hk.
Qed.

(** At the functions of the module, on two texts that hold "|". *)
Lemma cache_key_sensitive_up_to_md5_witness :
  let o := [("domain", PStr "medical")] in
  (relevant_options o = relevant_options o ∧
   (pipe_free (normalize_language_code "en-US") ∧
    pipe_free (normalize_language_code "fr") ∧
    pipe_free (normalize_language_code "EN") ∧
    pipe_free (normalize_language_code "fr")) ∧
   normalized_fields "yes|no  |maybe" "en-US" "fr" ≠
   normalized_fields "yes|no" "EN" "fr") ∧
  key_string "yes|no  |maybe" "en-US" "fr" o ≠ key_string "yes|no" "EN" "fr" o ∧
  (generate_cache_key "yes|no  |maybe" "en-US" "fr" o =
   generate_cache_key "yes|no" "EN" "fr" o ->
   md5_collision (key_string "yes|no  |maybe" "en-US" "fr" o)
                 (key_string "yes|no" "EN" "fr" o)).
Proof.
  split.
  - repeat split; try reflexivity. vm_compute. discriminate.
  - apply (cache_key_sensitive_up_to_md5
             preprocess_text normalize_language_code Json.dumps_sorted
             "yes|no  |maybe" "en-US" "fr" "yes|no" "EN" "fr"
             [("domain", PStr "medical")] [("domain", PStr "medical")]
             eq_refl
             (or_introl (conj eq_refl (conj eq_refl (conj eq_refl eq_refl))))
             ltac:(vm_compute; discriminate)).
Defined.

(* ===================================================================== *)
(** * Method calls                                                        *)
(* ===================================================================== *)

Section CallFacts.

(** [get], [set] and [clear] are found in the class. *)
Lemma call_get {A} (b : backend) (body : outcome A * backend) :
  TranslationCache.call b "get" body = body.
Proof. by destruct b. Qed.

Lemma call_set {A} (b : backend) (body : outcome A * backend) :
  TranslationCache.call b "set" body = body.
Proof. by destruct b. Qed.

Lemma call_clear {A} (b : backend) (body : outcome A * backend) :
  TranslationCache.call b "clear" body = body.
Proof. by destruct b. Qed.

(** [stats] is found in the instance: [__init__] stored a [CacheStats]
    under that name. *)
Lemma getattr_stats (b : backend) :
  TranslationCache.getattr b "stats" = Returns TranslationCache.InstanceAttribute.
Proof. by destruct b. Qed.

(** Whatever [cache.stats()] does, it leaves the store as it is. *)
Lemma stats_keeps_store (b : backend) : snd (TranslationCache.stats b) = b.
Proof. by destruct b. Qed.

End CallFacts.

(* ===================================================================== *)
(** * MemoryCache                                                         *)
(* ===================================================================== *)

Section MemoryFacts.
Implicit Types (d : PyDict.t (string * Z)) (self : MemoryCache.t).

(** [evict] is the loop of [set]: while the condition holds, [popitem]. *)
Lemma evict_unfold (m : Z) d :
  MemoryCache.evict m d =
  if m <=? PyDict.len d then
    match PyDict.popitem_first d with
    | Raises e => Raises e
    | Returns (_, d') => MemoryCache.evict m d'
    end
  else Returns d.
Proof. by destruct d. Qed.

Lemma evict_nonpositive (m : Z) d :
  m ≤ 0 -> MemoryCache.evict m d = Raises KeyError.
Proof.
  intros Hm. induction d as [|kv d IH]; simpl.
  - rewrite (proj2 (Z.leb_le _ _)); [done|]. unfold PyDict.len. simpl. lia.
  - rewrite (proj2 (Z.leb_le _ _)); [done|]. unfold PyDict.len. lia.
Qed.

(** With room for one entry at least, the loop ends and leaves the
    newest [m - 1] items at most. *)
Lemma evict_positive (m : Z) d :
  1 ≤ m ->
  MemoryCache.evict m d = Returns (drop (length d - Z.to_nat (m - 1)) d).
Proof.
  intros Hm. induction d as [|kv d IH].
  - simpl. rewrite (proj2 (Z.leb_gt _ _)); [done|]. unfold PyDict.len. simpl. lia.
  - cbn [MemoryCache.evict]. unfold PyDict.len.
    destruct (Z.leb_spec m (Z.of_nat (length (kv :: d)))) as [Hle|Hgt].
    + rewrite IH. simpl length in *.
      replace (S (length d) - Z.to_nat (m - 1))%nat
        with (S (length d - Z.to_nat (m - 1)))%nat by lia.
      done.
    + simpl length in *.
      replace (S (length d) - Z.to_nat (m - 1))%nat with 0%nat by lia.
      done.
Qed.

Lemma evict_returns_room (m : Z) d d' :
  MemoryCache.evict m d = Returns d' -> PyDict.len d' < m.
Proof.
  intros H. destruct (Z.le_gt_cases m 0) as [Hm|Hm].
  - by rewrite evict_nonpositive in H.
  - rewrite evict_positive in H by lia. injection H as <-.
    unfold PyDict.len. rewrite length_drop. lia.
Qed.

End MemoryFacts.

(** C10: on a [MemoryCache] built with [max_size = 0] every [set] raises
    [KeyError] (the eviction loop pops from the empty dictionary); [set]
    returns exactly when [max_size >= 1]. *)
Theorem memory_set_needs_positive_capacity
    (self : MemoryCache.t) (now : Z)
    (text source_lang target_lang translated : string)
    (options : PyDict.t pyval) :
  (MemoryCache.max_size self = 0 ->
   fst (MemoryCache.set self now text source_lang target_lang translated options)
   = Raises KeyError) ∧
  (fst (MemoryCache.set self now text source_lang target_lang translated options)
   = Returns tt <-> 1 ≤ MemoryCache.max_size self).
Proof.
  unfold MemoryCache.set. split.
  - intros ->. by rewrite evict_nonpositive.
  - destruct (Z.le_gt_cases (MemoryCache.max_size self) 0) as [Hm|Hm].
    + rewrite evict_nonpositive by done. simpl. split; [done | lia].
    + rewrite evict_positive by lia. simpl. split; [lia | done].
Qed.

Lemma memory_set_needs_positive_capacity_witness :
  MemoryCache.max_size (MemoryCache.init 0 86400) = 0 ∧
  fst (MemoryCache.set (MemoryCache.init 0 86400) 1000 "hello" "en" "fr" "bonjour" [])
  = Raises KeyError.
Proof.
  split; [reflexivity|].
  apply (proj1 (memory_set_needs_positive_capacity
                  (MemoryCache.init 0 86400) 1000 "hello" "en" "fr" "bonjour" [])).
  reflexivity.
Defined.

(** The proofs below treat a key as a name: its digest is never computed. *)
Opaque generate_cache_key.

Section MemoryOps.
Implicit Types (d : PyDict.t (string * Z)) (self : MemoryCache.t).

Lemma drop_keeps_absent d (n : nat) (k : string) :
  k ∉ PyDict.keys d -> k ∉ PyDict.keys (drop n d).
Proof.
  intros Hnin Hin. apply Hnin. unfold PyDict.keys in *.
  rewrite <- (take_drop n d). rewrite map_app. apply elem_of_app. by right.
Qed.

Lemma set_fresh {V} (d : PyDict.t V) k (v : V) :
  k ∉ PyDict.keys d -> PyDict.set d k v = d ++ [(k, v)].
Proof.
  induction d as [|[k0 v0] d IH]; simpl; [done|].
  intros [Hne Hnin]%not_elem_of_cons.
  rewrite decide_False; [|done]. by rewrite IH.
Qed.

Lemma del_not_in_keys {V} (d : PyDict.t V) k : k ∉ PyDict.keys (PyDict.del d k).
Proof. apply get_None_keys, get_del_eq. Qed.

Lemma mem_del_if {V} (d : PyDict.t V) k :
  (if PyDict.mem d k then PyDict.del d k else d) = PyDict.del d k.
Proof.
  destruct (PyDict.mem d k) eqn:E; [done|].
  symmetry. apply del_absent. intros Hin%mem_keys. congruence.
Qed.

(** What [set] does when the cache has room for one entry at least. *)
Lemma memory_set_spec self now text sl tl v o :
  1 ≤ MemoryCache.max_size self ->
  let key := generate_cache_key text sl tl o in
  let d1 := PyDict.del (MemoryCache._cache self) key in
  let d3 := drop (length d1 - Z.to_nat (MemoryCache.max_size self - 1)) d1
            ++ [(key, (v, now))] in
  MemoryCache.set self now text sl tl v o =
  (Returns tt,
   MemoryCache.Mk (MemoryCache.max_size self) (MemoryCache.ttl self)
     (set_total (MemoryCache.stats_attr self) (PyDict.len d3)) d3).
Proof.
  intros Hm. unfold MemoryCache.set.
  generalize (generate_cache_key text sl tl o). intros key. cbv zeta.
  rewrite mem_del_if, evict_positive by done.
  rewrite set_fresh; [done|]. apply drop_keeps_absent, del_not_in_keys.
Qed.

Lemma memory_get_hit self now text sl tl o v ts :
  let key := generate_cache_key text sl tl o in
  PyDict.get (MemoryCache._cache self) key = Some (v, ts) ->
  _is_expired (MemoryCache.ttl self) now ts = false ->
  MemoryCache.get self now text sl tl o =
  (Returns (Some v),
   MemoryCache.Mk (MemoryCache.max_size self) (MemoryCache.ttl self)
     (count_hit (MemoryCache.stats_attr self))
     (PyDict.del (MemoryCache._cache self) key ++ [(key, (v, ts))])).
Proof.
  unfold MemoryCache.get. cbv zeta. intros Hget Hexp.
  unfold PyDict.move_to_end. by rewrite Hget, Hexp.
Qed.

Lemma memory_get_expired self now text sl tl o v ts :
  let key := generate_cache_key text sl tl o in
  PyDict.get (MemoryCache._cache self) key = Some (v, ts) ->
  _is_expired (MemoryCache.ttl self) now ts = true ->
  MemoryCache.get self now text sl tl o =
  (Returns None,
   MemoryCache.Mk (MemoryCache.max_size self) (MemoryCache.ttl self)
     (count_miss (MemoryCache.stats_attr self))
     (PyDict.del (MemoryCache._cache self) key)).
Proof.
  unfold MemoryCache.get. cbv zeta. intros Hget Hexp. by rewrite Hget, Hexp.
Qed.

End MemoryOps.

(** Settles every comparison of two keys that the hypotheses decide. *)
Ltac decide_keys :=
  repeat (simpl; first [rewrite decide_True by congruence
                       | rewrite decide_False by congruence]);
  simpl.

(** The scenario of the specification: capacity 2, three entries set. *)
Example memory_scenario :
  let c := TranslationCache.set_all (Memory (MemoryCache.init 2 3600))
             [MkRequest 100 "hello" "en" "fr" "bonjour" [];
              MkRequest 101 "bye" "en" "fr" "au revoir" [];
              MkRequest 102 "yes" "en" "fr" "oui" []] in
  let r := TranslationCache.get c 103 "hello" "en" "fr" [] in
  match c with
  | Memory m => map (fun kv => fst (snd kv)) (MemoryCache._cache m) = ["au revoir"; "oui"]
  | _ => False
  end ∧
  fst r = Returns None ∧ misses (TranslationCache.counters (snd r)) = 1.
Proof. by vm_compute. Qed.

(** C9: a [MemoryCache] with [max_size = 2] that was set for A then B,
    with distinct keys, and then read for A while A is not expired,
    evicts B when a third key C is set: A and C are present, B is not. *)
Theorem memory_lru_keeps_recently_read (ttl : Z) (a b c : request) (t_get : Z) :
  key_of a ≠ key_of b -> key_of a ≠ key_of c -> key_of b ≠ key_of c ->
  _is_expired ttl t_get (q_now a) = false ->
  let s2 := TranslationCache.set_all (Memory (MemoryCache.init 2 ttl)) [a; b] in
  let r := TranslationCache.get s2 t_get (q_text a) (q_source a) (q_target a) (q_options a) in
  let s4 := TranslationCache.set_request (snd r) c in
  fst r = Returns (Some (q_translated a)) ∧
  TranslationCache.keys s4 = [key_of a; key_of c] ∧
  TranslationCache.holds s4 (key_of a) = true ∧
  TranslationCache.holds s4 (key_of c) = true ∧
  TranslationCache.holds s4 (key_of b) = false.
Proof.
  intros Hab Hac Hbc Hexp.
  unfold TranslationCache.set_all, TranslationCache.set_request, TranslationCache.get,
    TranslationCache.set, key_of in *.
  cbn [fold_left]. rewrite !call_set, !call_get.
  unfold TranslationCache.lift.
  rewrite memory_set_spec by (simpl; lia). cbn [snd fst].
  rewrite memory_set_spec by (simpl; lia). cbn [snd fst].
  simpl. rewrite (decide_False _ _ Hab). simpl.
  erewrite memory_get_hit; [|simpl; rewrite decide_True by done; reflexivity|exact Hexp].
  cbn [snd fst].
  rewrite memory_set_spec by (simpl; lia).
  unfold PyDict.mem. decide_keys. done.
Qed.

Lemma memory_lru_keeps_recently_read_witness :
  let a := MkRequest 100 "hello" "en" "fr" "bonjour" [] in
  let b := MkRequest 101 "bye" "en" "fr" "au revoir" [] in
  let c := MkRequest 103 "yes" "en" "fr" "oui" [] in
  (key_of a ≠ key_of b ∧ key_of a ≠ key_of c ∧ key_of b ≠ key_of c ∧
   _is_expired 3600 102 (q_now a) = false) ∧
  TranslationCache.keys
    (TranslationCache.set_request
       (snd (TranslationCache.get
               (TranslationCache.set_all (Memory (MemoryCache.init 2 3600)) [a; b])
               102 "hello" "en" "fr" []))
       c)
  = [key_of a; key_of c].
Proof.
  split.
  - repeat split; vm_compute; discriminate.
  - apply (memory_lru_keeps_recently_read 3600
             (MkRequest 100 "hello" "en" "fr" "bonjour" [])
             (MkRequest 101 "bye" "en" "fr" "au revoir" [])
             (MkRequest 103 "yes" "en" "fr" "oui" []) 102);
      vm_compute; (discriminate || reflexivity).
Defined.
Section FileOps.
Implicit Types (idx : PyDict.t metadata) (d : disk) (self : FileCache.t).

(** Removing a backing file on a medium that takes modifications. *)
Lemma remove_file_writable d key :
  writable d = true ->
  FileCache.remove_file d key =
  Returns (MkDisk (delete (FileCache._get_cache_file key) (files d))
                  (index_json d) (writable d) (readable d)).
Proof.
  destruct d as [fs ij w r]. simpl. intros ->.
  unfold FileCache.remove_file, Fs.exists_, Fs.unlink. simpl.
  case_bool_decide as Hex; [done|].
  rewrite delete_id; [done|]. by apply eq_None_not_Some.
Qed.

Lemma sorted_head_in_keys idx kv rest :
  sorted_by (fun kv => FileCache.timestamp_of (snd kv)) idx = kv :: rest ->
  fst kv ∈ PyDict.keys idx.
Proof.
  intros H. unfold PyDict.keys. apply list_elem_of_fmap. exists kv. split; [done|].
  apply (sorted_by_elem (fun kv => FileCache.timestamp_of (snd kv))).
  rewrite H. apply list_elem_of_here.
Qed.

(** The eviction step on a medium that takes modifications: one key of
    the index goes, with its file. *)
Lemma evict_oldest_writable idx d :
  writable d = true -> idx ≠ [] ->
  ∃ k0, k0 ∈ PyDict.keys idx ∧
    FileCache.evict_oldest idx d =
    (Returns tt,
     (PyDict.del idx k0,
      MkDisk (delete (FileCache._get_cache_file k0) (files d))
             (index_json d) (writable d) (readable d))).
Proof.
  intros Hw Hne. unfold FileCache.evict_oldest.
  destruct (sorted_by _ idx) as [|[k0 m0] rest] eqn:Hs.
  - apply (f_equal length) in Hs. rewrite length_sorted_by in Hs.
    by destruct idx.
  - exists k0. split; [by apply (sorted_head_in_keys idx (k0, m0) rest)|].
    by rewrite remove_file_writable.
Qed.

Lemma evict_oldest_empty d :
  FileCache.evict_oldest [] d = (Raises IndexError, ([], d)).
Proof. reflexivity. Qed.
End FileOps.

Section FileOps2.
Implicit Types (idx : PyDict.t metadata) (d : disk) (self : FileCache.t).

(** What [set] does on a medium that takes modifications, when the
    eviction step (if any) finds an entry: [evicted] is the index after
    that step. *)
Lemma file_set_writable self now text sl tl v o :
  writable (FileCache.dir self) = true ->
  (FileCache.max_size self ≤ PyDict.len (FileCache._index self) ->
   FileCache._index self ≠ []) ->
  let key := generate_cache_key text sl tl o in
  ∃ idx1 fs1,
    (if FileCache.max_size self <=? PyDict.len (FileCache._index self)
     then ∃ k0, k0 ∈ PyDict.keys (FileCache._index self) ∧
                idx1 = PyDict.del (FileCache._index self) k0
     else idx1 = FileCache._index self) ∧
    let idx2 := PyDict.set idx1 key (MkMeta (Some now) (Some sl) (Some tl)) in
    FileCache.set self now text sl tl v o =
    (Returns tt,
     FileCache.Mk (FileCache.max_size self) (FileCache.ttl self)
       (set_total (FileCache.stats_attr self) (PyDict.len idx2))
       (FileCache.cache_dir self) idx2
       (MkDisk (<[FileCache._get_cache_file key := v]> fs1) (IndexSaved idx2)
               true (readable (FileCache.dir self)))).
Proof.
  intros Hw Hne. unfold FileCache.set.
  generalize (generate_cache_key text sl tl o). intros key. cbv zeta.
  destruct (Z.leb_spec (FileCache.max_size self) (PyDict.len (FileCache._index self)))
    as [Hfull|Hroom].
  - destruct (evict_oldest_writable (FileCache._index self) (FileCache.dir self) Hw
                (Hne Hfull)) as (k0 & Hk0 & ->).
    eexists _, _. split; [by exists k0|].
    unfold Fs.write_text, FileCache._save_index. simpl. by rewrite !Hw.
  - eexists _, _. split; [done|].
    unfold Fs.write_text, FileCache._save_index. rewrite Hw. simpl.
    by rewrite ?Hw.
Qed.

(** [get] on an entry that is not expired and whose file is there. *)
Lemma file_get_hit self now text sl tl o m bytes :
  let key := generate_cache_key text sl tl o in
  PyDict.get (FileCache._index self) key = Some m ->
  _is_expired (FileCache.ttl self) now (FileCache.timestamp_of m) = false ->
  files (FileCache.dir self) !! FileCache._get_cache_file key = Some bytes ->
  readable (FileCache.dir self) = true ->
  FileCache.get self now text sl tl o =
  (Returns (Some (Fs.universal_newlines false bytes)),
   FileCache.Mk (FileCache.max_size self) (FileCache.ttl self)
     (count_hit (FileCache.stats_attr self)) (FileCache.cache_dir self)
     (FileCache._index self) (FileCache.dir self)).
Proof.
  unfold FileCache.get. cbv zeta. intros -> -> Hf Hr.
  unfold Fs.exists_, Fs.read_text. rewrite Hf, Hr.
  by rewrite bool_decide_true.
Qed.

(** [get] on an expired entry, on a medium that takes modifications. *)
Lemma file_get_expired self now text sl tl o m :
  let key := generate_cache_key text sl tl o in
  PyDict.get (FileCache._index self) key = Some m ->
  _is_expired (FileCache.ttl self) now (FileCache.timestamp_of m) = true ->
  writable (FileCache.dir self) = true ->
  let idx := PyDict.del (FileCache._index self) key in
  FileCache.get self now text sl tl o =
  (Returns None,
   FileCache.Mk (FileCache.max_size self) (FileCache.ttl self)
     (count_miss (FileCache.stats_attr self)) (FileCache.cache_dir self) idx
     (MkDisk (delete (FileCache._get_cache_file key) (files (FileCache.dir self)))
             (IndexSaved idx) true (readable (FileCache.dir self)))).
Proof.
  unfold FileCache.get. cbv zeta. intros -> -> Hw.
  rewrite remove_file_writable by done.
  unfold FileCache._save_index. simpl. by rewrite Hw.
Qed.
End FileOps2.

(* ===================================================================== *)
(** * SQLiteCache                                                         *)
(* ===================================================================== *)

Section SqlOps.
Implicit Types (rs : list row) (self : SQLiteCache.t).


Lemma filter_key_absent rs key :
  key ∉ map cache_key rs -> filter (fun r => cache_key r <> key) rs = rs.
Proof.
  induction rs as [|r rs IH]; [done|]. simpl.
  intros [Hne Hnin]%not_elem_of_cons.
  rewrite filter_cons_True by done. by rewrite IH.
Qed.

Lemma keys_filter_key rs key :
  map cache_key (filter (fun r => cache_key r <> key) rs) =
  filter (fun k => k ≠ key) (map cache_key rs).
Proof.
  induction rs as [|r rs IH]; [done|]. simpl.
  destruct (decide (cache_key r = key)) as [He|Hne].
  - rewrite !filter_cons_False; [done | by intros ? | by intros ?].
  - rewrite !filter_cons_True by done. simpl. by rewrite IH.
Qed.

Lemma length_filter_key_NoDup rs key :
  NoDup (map cache_key rs) -> key ∈ map cache_key rs ->
  length rs = S (length (filter (fun r => cache_key r <> key) rs)).
Proof.
  induction rs as [|r rs IH]; simpl.
  - by intros _ ?%elem_of_nil.
  - intros [Hnin Hnd]%NoDup_cons Hin.
    destruct (decide (cache_key r = key)) as [He|Hne].
    + rewrite filter_cons_False by (by intros ?). subst key.
      by rewrite filter_key_absent.
    + rewrite filter_cons_True by done. simpl.
      apply elem_of_cons in Hin as [?|Hin]; [congruence|].
      by rewrite <- IH.
Qed.

(** What [set] does on a database that takes writes. *)
Lemma sqlite_set_writable self now text sl tl v o :
  db_writable (SQLiteCache.db self) = true ->
  let key := generate_cache_key text sl tl o in
  SQLiteCache.set self now text sl tl v o =
  (Returns tt,
   SQLiteCache.Mk (SQLiteCache.max_size self) (SQLiteCache.ttl self)
     (set_total (SQLiteCache.stats_attr self) (Sql.count (SQLiteCache.db self) + 1))
     (SQLiteCache.db_path self)
     (MkDb (filter (fun r => cache_key r <> key) (after_eviction self)
            ++ [new_row now text sl tl v o]) true)).
Proof.
  intros Hw. unfold SQLiteCache.set, after_eviction, new_row.
  generalize (generate_cache_key text sl tl o). intros key. cbv zeta.
  unfold Sql.delete_where, Sql.insert_or_replace. rewrite Hw.
  destruct (SQLiteCache.max_size self <=? Sql.count (SQLiteCache.db self));
    simpl; by rewrite ?Hw.
Qed.

(** On a database that refuses writes, [set] raises. *)
Lemma sqlite_set_unwritable self now text sl tl v o :
  db_writable (SQLiteCache.db self) = false ->
  SQLiteCache.set self now text sl tl v o = (Raises OperationalError, self).
Proof.
  intros Hw. unfold SQLiteCache.set. cbv zeta.
  unfold Sql.delete_where, Sql.insert_or_replace. rewrite Hw.
  destruct (SQLiteCache.max_size self <=? Sql.count (SQLiteCache.db self)).
  all: simpl; by rewrite ?Hw.
Qed.

Lemma sqlite_get_hit self now text sl tl o r :
  let key := generate_cache_key text sl tl o in
  Sql.select_by_key (SQLiteCache.db self) key = Some r ->
  _is_expired (SQLiteCache.ttl self) now (timestamp r) = false ->
  SQLiteCache.get self now text sl tl o =
  (Returns (Some (translated_text r)),
   SQLiteCache.Mk (SQLiteCache.max_size self) (SQLiteCache.ttl self)
     (count_hit (SQLiteCache.stats_attr self)) (SQLiteCache.db_path self)
     (SQLiteCache.db self)).
Proof. unfold SQLiteCache.get. cbv zeta. by intros -> ->. Qed.

Lemma sqlite_get_expired self now text sl tl o r :
  let key := generate_cache_key text sl tl o in
  Sql.select_by_key (SQLiteCache.db self) key = Some r ->
  _is_expired (SQLiteCache.ttl self) now (timestamp r) = true ->
  db_writable (SQLiteCache.db self) = true ->
  SQLiteCache.get self now text sl tl o =
  (Returns None,
   SQLiteCache.Mk (SQLiteCache.max_size self) (SQLiteCache.ttl self)
     (count_miss (SQLiteCache.stats_attr self)) (SQLiteCache.db_path self)
     (MkDb (filter (fun r => bool_decide (cache_key r = key) = false)
                   (rows (SQLiteCache.db self))) true)).
Proof.
  unfold SQLiteCache.get. cbv zeta. intros -> -> Hw.
  unfold Sql.delete_where. by rewrite Hw.
Qed.

End SqlOps.

(* ===================================================================== *)
(** * Round trip                                                          *)
(* ===================================================================== *)

Section RoundTrip.

Lemma universal_newlines_without_cr (s : string) :
  PyStr.has_char Fs.CR s = false -> Fs.universal_newlines false s = s.
Proof.
  induction s as [|c s IH]; [done|]. simpl.
  destruct (decide (c = Fs.CR)) as [->|Hc]; [done|]. intros Hcr.
  destruct (decide (c = Fs.LF)) as [->|Hl]; f_equal; by apply IH.
Qed.



(** FileCache: after a [set] that wrote its file, [get] returns what
    reading the file in text mode gives: the value with every CR LF and
    CR turned into LF. *)
Lemma file_roundtrip (self self' : FileCache.t) (now now' : Z)
    (text sl tl v : string) (o : PyDict.t pyval) :
  FileCache.set self now text sl tl v o = (Returns tt, self') ->
  writable (FileCache.dir self) = true ->
  readable (FileCache.dir self) = true ->
  _is_expired (FileCache.ttl self) now' now = false ->
  fst (FileCache.get self' now' text sl tl o)
  = Returns (Some (Fs.universal_newlines false v)).
Proof.
  intros Hset Hw Hr Hexp.
  assert (FileCache.max_size self ≤ PyDict.len (FileCache._index self) ->
          FileCache._index self ≠ []) as Hne.
  { intros Hfull Hnil. unfold FileCache.set in Hset.
    rewrite (proj2 (Z.leb_le _ _) Hfull), Hnil in Hset. done. }
  destruct (file_set_writable self now text sl tl v o Hw Hne)
    as (idx1 & fs1 & _ & Heq).
  cbv zeta in Heq. rewrite Heq in Hset. injection Hset as <-.
  erewrite file_get_hit; [done|..].
  - simpl. apply get_set_eq.
  - simpl. exact Hexp.
  - simpl. apply lookup_insert_eq.
  - exact Hr.
Qed.

(** A value without CR is read back as it is. *)
Lemma file_roundtrip_without_cr (self self' : FileCache.t) (now now' : Z)
    (text sl tl v : string) (o : PyDict.t pyval) :
  FileCache.set self now text sl tl v o = (Returns tt, self') ->
  writable (FileCache.dir self) = true ->
  readable (FileCache.dir self) = true ->
  _is_expired (FileCache.ttl self) now' now = false ->
  PyStr.has_char Fs.CR v = false ->
  fst (FileCache.get self' now' text sl tl o) = Returns (Some v).
Proof.
  intros Hset Hw Hr Hexp Hcr.
  rewrite (file_roundtrip self self' now now' text sl tl v o) by done.
  by rewrite universal_newlines_without_cr.
Qed.

End RoundTrip.

(** C1 fails on the file backend: a [set] that wrote its file, followed at
    the same instant by [get] for the same request, returns the value
    with its CR LF replaced by LF, not the value that was set.  (The
    memory and the SQLite backend return the value: [memory_roundtrip],
    [sqlite_roundtrip]; so does the file backend for a value without CR:
    [file_roundtrip_without_cr].) *)
Theorem file_roundtrip_changes_line_ends :
  let fresh := MkDisk ∅ IndexMissing true true in
  let c0 := File (snd (FileCache.init ".translation_cache" 10000 86400 1000 fresh)) in
  let r := TranslationCache.set c0 1000 "first line" "en" "fr" two_lines [] in
  fst r = Returns tt ∧
  TranslationCache.healthy (snd r) ∧
  _is_expired (TranslationCache.ttl (snd r)) 1000 1000 = false ∧
  fst (TranslationCache.get (snd r) 1000 "first line" "en" "fr" [])
  = Returns (Some ("premiere ligne" +:+ String Fs.LF "seconde ligne")) ∧
  fst (TranslationCache.get (snd r) 1000 "first line" "en" "fr" [])
  ≠ Returns (Some two_lines).
Proof. vm_compute. repeat split; discriminate. Qed.

(* ===================================================================== *)
(** * stats                                                               *)
(* ===================================================================== *)

(** The method bodies do build the record: entry count, hits, misses, hit
    rate, size estimate and backend kind.  They can only be reached
    through the class, as in [MemoryCache.stats(cache)]. *)
Lemma stats_body_report (b : backend) :
  let r := TranslationCache.stats_body b in
  r_hits r = hits (TranslationCache.counters b) ∧
  r_misses r = misses (TranslationCache.counters b) ∧
  r_hit_rate r = hit_rate (TranslationCache.counters b) ∧
  r_type r = match b with
             | Memory _ => "memory" | File _ => "file" | SQLite _ => "sqlite"
             end.
Proof. by destruct b. Qed.

(** C2 fails on the code: on every backend instance the call
    [cache.stats()] raises [TypeError].  [__init__] stores a [CacheStats]
    in the instance under the name [stats]; the lookup finds it before
    the method of that name, and it is not callable. *)
Theorem stats_call_raises_type_error (b : backend) :
  TranslationCache.stats b = (Raises TypeError, b).
Proof.
  unfold TranslationCache.stats, TranslationCache.call.
  by rewrite getattr_stats.
Qed.

(* ===================================================================== *)
(** * clear                                                               *)
(* ===================================================================== *)

Section ClearFacts.

Lemma filter_ext_in {A} (P1 P2 : A -> Prop)
    `{!∀ x, Decision (P1 x)} `{!∀ x, Decision (P2 x)} (l : list A) :
  (∀ x, x ∈ l -> (P1 x <-> P2 x)) -> filter P1 l = filter P2 l.
Proof.
  induction l as [|x l IH]; intros Hext; [done|].
  assert (filter P1 l = filter P2 l) as IH'.
  { apply IH. intros y Hy. apply Hext. by apply list_elem_of_further. }
  destruct (decide (P1 x)) as [Hx|Hx].
  - rewrite !filter_cons_True; [by rewrite IH' | | done].
    apply Hext; [apply list_elem_of_here | done].
  - rewrite !filter_cons_False; [done | | done].
    intros Hx2. apply Hx, Hext; [apply list_elem_of_here | done].
Qed.

Lemma filter_all {A} (P : A -> Prop) `{!∀ x, Decision (P x)} (l : list A) :
  (∀ x, x ∈ l -> P x) -> filter P l = l.
Proof.
  induction l as [|x l IH]; intros Hall; [done|].
  rewrite filter_cons_True by (apply Hall, list_elem_of_here).
  rewrite IH; [done|]. intros y Hy. by apply Hall, list_elem_of_further.
Qed.

Lemma fold_del_keys {V} (ks : list string) (d : PyDict.t V) :
  PyDict.keys (fold_left PyDict.del ks d) =
  filter (fun k => k ∉ ks) (PyDict.keys d).
Proof.
  revert d. induction ks as [|k ks IH]; intros d; simpl.
  - rewrite filter_all; [done|]. intros x _. apply not_elem_of_nil.
  - rewrite IH, keys_del, list_filter_filter.
    apply list_filter_iff. intros x. rewrite not_elem_of_cons. tauto.
Qed.

Lemma fold_del_filter {V} (ks : list string) (d : PyDict.t V) :
  fold_left PyDict.del ks d = filter (fun kv => fst kv ∉ ks) d.
Proof.
  revert d. induction ks as [|k ks IH]; intros d; simpl.
  - rewrite filter_all; [done|]. intros x _. apply not_elem_of_nil.
  - rewrite IH.
    assert (PyDict.del d k = filter (fun kv => fst kv ≠ k) d) as ->.
    { induction d as [|[k0 v0] d IHd]; [done|]. cbn [PyDict.del].
      destruct (decide (k0 = k)) as [->|Hne].
      - rewrite filter_cons_False; [done | by intros ?].
      - rewrite filter_cons_True by done. by rewrite IHd. }
    rewrite list_filter_filter.
    apply list_filter_iff. intros x. rewrite not_elem_of_cons. tauto.
Qed.

Lemma NoDup_keys_unique {V} (d : PyDict.t V) (kv kv' : string * V) :
  NoDup (PyDict.keys d) -> kv ∈ d -> kv' ∈ d -> fst kv = fst kv' -> kv = kv'.
Proof.
  induction d as [|x d IH]; simpl.
  - by intros _ ?%elem_of_nil.
  - intros [Hnin Hnd]%NoDup_cons Hin Hin' Heq.
    apply elem_of_cons in Hin as [->|Hin];
      apply elem_of_cons in Hin' as [->|Hin']; [done| | |by apply IH].
    + exfalso. apply Hnin. rewrite Heq. unfold PyDict.keys.
      apply list_elem_of_fmap. by exists kv'.
    + exfalso. apply Hnin. rewrite <- Heq. unfold PyDict.keys.
      apply list_elem_of_fmap. by exists kv.
Qed.

(** What [MemoryCache.clear(pattern)] does: it removes the entries whose
    key, an MD5 digest, contains the pattern.  The languages of the
    request are not stored and play no part. *)
Lemma memory_clear_matches_digest (self : MemoryCache.t) (pattern : string) :
  let r := MemoryCache.clear self (Some pattern) in
  PyDict.keys (MemoryCache._cache (snd r)) =
    filter (fun k => PyStr.contains pattern k = false)
           (PyDict.keys (MemoryCache._cache self)) ∧
  fst r = Returns (Z.of_nat (length
            (filter (fun k => PyStr.contains pattern k = true)
                    (PyDict.keys (MemoryCache._cache self))))).
Proof.
  simpl. split; [|done]. rewrite fold_del_keys.
  apply filter_ext_in. intros k Hk. rewrite list_elem_of_filter.
  destruct (PyStr.contains pattern k); intuition congruence.
Qed.

(** The loop of [FileCache.clear(pattern)] on a medium that takes
    modifications. *)
Lemma remove_entries_writable (ks : list string) (idx : PyDict.t metadata)
    (d : disk) :
  writable d = true ->
  ∃ d', FileCache.remove_entries ks idx d = (Returns tt, (fold_left PyDict.del ks idx, d'))
        ∧ writable d' = true ∧ readable d' = readable d
        ∧ (∀ name, files d' !! name =
                   if bool_decide (name ∈ map FileCache._get_cache_file ks)
                   then None else files d !! name).
Proof.
  revert idx d. induction ks as [|k ks IH]; intros idx d Hw.
  - exists d. by repeat split.
  - cbn [FileCache.remove_entries]. rewrite remove_file_writable by done.
    destruct (IH (PyDict.del idx k)
                (MkDisk (delete (FileCache._get_cache_file k) (files d))
                        (index_json d) (writable d) (readable d)) Hw)
      as (d' & -> & Hw' & Hr' & Hf).
    exists d'. repeat split; [done..|].
    intros name. rewrite Hf. simpl.
    destruct (decide (name = FileCache._get_cache_file k)) as [->|Hne].
    + rewrite lookup_delete_eq.
      rewrite (bool_decide_true (_ ∈ _ :: _)) by apply list_elem_of_here.
      by case_bool_decide.
    + rewrite lookup_delete_ne by done.
      erewrite bool_decide_ext; [done|]. rewrite elem_of_cons. tauto.
Qed.

(** [FileCache.clear(pattern)] removes the entries whose recorded source
    or target language contains the pattern, and returns their number. *)
Lemma file_clear_matches_languages (self : FileCache.t) (pattern : string) :
  writable (FileCache.dir self) = true ->
  NoDup (PyDict.keys (FileCache._index self)) ->
  let r := FileCache.clear self (Some pattern) in
  let hit kv := FileCache.matches pattern (snd kv) = true in
  FileCache._index (snd r) = filter (fun kv => ¬ hit kv) (FileCache._index self) ∧
  fst r = Returns (Z.of_nat (length (filter hit (FileCache._index self)))).
Proof.
  intros Hw Hnd. cbn [FileCache.clear]. cbv zeta.
  destruct (remove_entries_writable
              (PyDict.keys (filter (fun kv => FileCache.matches pattern (snd kv) = true)
                                   (FileCache._index self)))
              (FileCache._index self) (FileCache.dir self) Hw)
    as (d' & -> & _). simpl. split.
  - rewrite fold_del_filter. apply filter_ext_in. intros kv Hkv.
    unfold PyDict.keys. rewrite list_elem_of_fmap. split.
    + intros Hnot Hhit. apply Hnot. exists kv. split; [done|].
      by apply list_elem_of_filter.
    + intros Hnot (kv' & Heq & [Hhit Hin]%list_elem_of_filter).
      apply Hnot. by rewrite (NoDup_keys_unique _ kv kv' Hnd Hkv Hin Heq).
  - unfold PyDict.keys. by rewrite length_map.
Qed.

(** [SQLiteCache.clear(pattern)] removes the rows that the operator
    [LIKE] matches, and returns their number. *)
Lemma sqlite_clear_matches_like (self : SQLiteCache.t) (pattern : string) :
  db_writable (SQLiteCache.db self) = true ->
  let r := SQLiteCache.clear self (Some pattern) in
  rows (SQLiteCache.db (snd r)) =
    filter (fun r => SQLiteCache.matches pattern r = false)
           (rows (SQLiteCache.db self)) ∧
  fst r = Returns (Z.of_nat (length
            (filter (fun r => SQLiteCache.matches pattern r = true)
                    (rows (SQLiteCache.db self))))).
Proof.
  intros Hw. unfold SQLiteCache.clear, Sql.delete_where. by rewrite Hw.
Qed.

End ClearFacts.

(** [LIKE] is not the substring test: it ignores the case of letters and
    reads [_] and [%] in the pattern as wild cards. *)
Example like_is_not_substring :
  Sql.like "%ZH%" "zh-CN" = true ∧ PyStr.contains "ZH" "zh-CN" = false ∧
  Sql.like "%_%" "en" = true ∧ PyStr.contains "_" "en" = false.
Proof. by vm_compute. Qed.

(** C5 fails on the memory backend, which keeps no language next to an
    entry and tests the pattern against the key, an MD5 digest:
    [clear("zh")] removes nothing from a cache that holds a translation
    into "zh", and [clear("a")] removes two entries neither of whose
    languages contains "a". *)
Theorem memory_clear_ignores_languages :
  let c := TranslationCache.set_all (Memory (MemoryCache.init 10000 86400))
             [MkRequest 1000 "hello" "en" "zh" "ni hao" [];
              MkRequest 1001 "hello" "en" "fr" "bonjour" []] in
  TranslationCache.keys c =
    ["6b84761022d76c9e67a5c84b2650984b"; "8e83d175357bd254a38deea970c15411"] ∧
  fst (TranslationCache.clear c (Some "zh")) = Returns 0 ∧
  TranslationCache.keys (snd (TranslationCache.clear c (Some "zh"))) =
    TranslationCache.keys c ∧
  fst (TranslationCache.clear c (Some "a")) = Returns 2 ∧
  TranslationCache.keys (snd (TranslationCache.clear c (Some "a"))) = [].
Proof. by vm_compute. Qed.

(* ===================================================================== *)
(** * A medium that refuses writes                                        *)
(* ===================================================================== *)

Section Unwritable.

(** FileCache below its capacity: the write is dropped, nothing
    changes. *)
Lemma file_set_unwritable_dropped (self : FileCache.t) (now : Z)
    (text sl tl v : string) (o : PyDict.t pyval) :
  writable (FileCache.dir self) = false ->
  PyDict.len (FileCache._index self) < FileCache.max_size self ->
  FileCache.set self now text sl tl v o = (Returns tt, self).
Proof.
  intros Hw Hroom. unfold FileCache.set. cbv zeta.
  rewrite (proj2 (Z.leb_gt _ _)) by done.
  unfold Fs.write_text. rewrite Hw. by destruct self.
Qed.

(** FileCache at its capacity: removing the file of the oldest entry is
    not guarded, and raises. *)
Lemma file_set_unwritable_raises (self : FileCache.t) (now : Z)
    (text sl tl v : string) (o : PyDict.t pyval) (k0 : string) (m0 : metadata)
    (rest : PyDict.t metadata) :
  writable (FileCache.dir self) = false ->
  FileCache.max_size self ≤ PyDict.len (FileCache._index self) ->
  sorted_by (fun kv => FileCache.timestamp_of (snd kv)) (FileCache._index self)
    = (k0, m0) :: rest ->
  is_Some (files (FileCache.dir self) !! FileCache._get_cache_file k0) ->
  FileCache.set self now text sl tl v o = (Raises OSError, self).
Proof.
  intros Hw Hfull Hs Hex. unfold FileCache.set. cbv zeta.
  rewrite (proj2 (Z.leb_le _ _)) by done.
  unfold FileCache.evict_oldest. rewrite Hs.
  unfold FileCache.remove_file, Fs.exists_, Fs.unlink.
  rewrite bool_decide_true by done. rewrite Hw. by destruct self.
Qed.

End Unwritable.

(** C6 fails on the SQLite backend: [SQLiteCache.set] has no handler, so
    on a database that refuses writes the error of the first write
    statement reaches the caller.  (FileCache swallows the failure of its
    own write, [file_set_unwritable_dropped], but not that of the unlink
    of its eviction step, [file_set_unwritable_raises].) *)
Theorem sqlite_set_raises_when_unwritable (self : SQLiteCache.t) (now : Z)
    (text source_lang target_lang translated : string)
    (options : PyDict.t pyval) :
  db_writable (SQLiteCache.db self) = false ->
  TranslationCache.set (SQLite self) now text source_lang target_lang
    translated options
  = (Raises OperationalError, SQLite self).
Proof.
  intros Hw. unfold TranslationCache.set. rewrite call_set.
  unfold TranslationCache.lift. by rewrite sqlite_set_unwritable.
Qed.

Lemma sqlite_set_raises_when_unwritable_witness :
  let self := SQLiteCache.Mk 100000 86400 CacheStats_init
                ".translation_cache/cache.db" (MkDb [] false) in
  db_writable (SQLiteCache.db self) = false ∧
  TranslationCache.set (SQLite self) 1000 "hello" "en" "fr" "bonjour" []
  = (Raises OperationalError, SQLite self).
Proof.
  split; [reflexivity|].
  apply (sqlite_set_raises_when_unwritable
           (SQLiteCache.Mk 100000 86400 CacheStats_init
              ".translation_cache/cache.db" (MkDb [] false))).
  reflexivity.
Defined.

(* ===================================================================== *)
(** * Expiry                                                              *)
(* ===================================================================== *)

Section Expiry.

Lemma is_expired_false (ttl now ts : Z) :
  _is_expired ttl now ts = false <-> now - ts ≤ ttl.
Proof. unfold _is_expired. by rewrite Z.ltb_ge. Qed.

Lemma is_expired_true (ttl now ts : Z) :
  _is_expired ttl now ts = true <-> ttl < now - ts.
Proof. unfold _is_expired. by rewrite Z.ltb_lt. Qed.

Lemma select_by_key_deleted (rs : list row) (key : string) :
  key ∉ map cache_key
          (filter (fun r => bool_decide (cache_key r = key) = false) rs).
Proof.
  rewrite list_elem_of_fmap. intros (r & -> & [Hr _]%list_elem_of_filter).
  by rewrite bool_decide_true in Hr.
Qed.

(** A value that [get] returns belongs to an entry that is not older
    than [ttl]. *)
Lemma get_returns_fresh (b : backend) (now : Z) (text sl tl : string)
    (o : PyDict.t pyval) (v : string) :
  fst (TranslationCache.get b now text sl tl o) = Returns (Some v) ->
  ∃ ts, TranslationCache.entry_timestamp b (generate_cache_key text sl tl o) = Some ts
        ∧ now - ts ≤ TranslationCache.ttl b.
Proof.
  unfold TranslationCache.get. rewrite call_get.
  destruct b as [c|c|c]; unfold TranslationCache.lift; cbn [fst snd].
  - unfold MemoryCache.get, TranslationCache.entry_timestamp, TranslationCache.ttl.
    destruct (PyDict.get _ _) as [[tr ts]|]; [|done].
    destruct (_is_expired _ _ _) eqn:E; [done|]. intros _.
    exists ts. split; [done|]. by apply is_expired_false.
  - unfold FileCache.get, TranslationCache.entry_timestamp, TranslationCache.ttl.
    destruct (PyDict.get _ _) as [m|]; [|done].
    destruct (_is_expired _ _ _) eqn:E.
    { by destruct (FileCache.remove_file _ _). }
    intros _. exists (FileCache.timestamp_of m). split; [done|].
    by apply is_expired_false.
  - unfold SQLiteCache.get, TranslationCache.entry_timestamp, TranslationCache.ttl.
    destruct (Sql.select_by_key _ _) as [r|]; [|done].
    destruct (_is_expired _ _ _) eqn:E.
    { by destruct (Sql.delete_where _ _) as [[]|]. }
    intros _. exists (timestamp r). split; [done|].
    by apply is_expired_false.
Qed.

(** [get] on an expired entry, when the medium takes the removal. *)
Lemma get_purges_expired (b : backend) (now : Z) (text sl tl : string)
    (o : PyDict.t pyval) (ts : Z) :
  TranslationCache.takes_writes b ->
  TranslationCache.entry_timestamp b (generate_cache_key text sl tl o) = Some ts ->
  TranslationCache.ttl b < now - ts ->
  let r := TranslationCache.get b now text sl tl o in
  fst r = Returns None ∧
  misses (TranslationCache.counters (snd r)) = misses (TranslationCache.counters b) + 1 ∧
  hits (TranslationCache.counters (snd r)) = hits (TranslationCache.counters b) ∧
  TranslationCache.holds (snd r) (generate_cache_key text sl tl o) = false.
Proof.
  intros Hh Hts Hexp%is_expired_true. cbv zeta.
  unfold TranslationCache.get. rewrite call_get.
  destruct b as [c|c|c]; unfold TranslationCache.lift; cbn [fst snd];
    cbn [TranslationCache.entry_timestamp TranslationCache.ttl
         TranslationCache.takes_writes] in *.
  - destruct (PyDict.get _ _) as [[tr ts']|] eqn:Hg; [|done].
    injection Hts as ->.
    rewrite (memory_get_expired c now text sl tl o tr ts Hg Hexp). simpl.
    repeat split. unfold PyDict.mem. by rewrite get_del_eq.
  - destruct (PyDict.get _ _) as [m|] eqn:Hg; [|done].
    injection Hts as <-.
    rewrite (file_get_expired c now text sl tl o m Hg Hexp Hh). simpl.
    repeat split. unfold PyDict.mem, Fs.exists_. simpl.
    by rewrite get_del_eq, lookup_delete_eq.
  - destruct (Sql.select_by_key _ _) as [r|] eqn:Hg; [|done].
    injection Hts as <-.
    rewrite (sqlite_get_expired c now text sl tl o r Hg Hexp Hh). simpl.
    repeat split. apply bool_decide_false. by apply select_by_key_deleted.
Qed.

End Expiry.

(** What holds of expiry on every backend: a value that [get] returns
    belongs to an entry whose age is at most [ttl]; and on a medium that
    takes the removal, [get] on an entry older than [ttl] reports absent,
    counts one miss and no hit, and leaves nothing of the entry in the
    store.  Without that condition the second part fails, as shown
    next. *)
Theorem get_treats_expired_as_absent (b : backend) (now : Z)
    (text source_lang target_lang : string) (options : PyDict.t pyval) :
  let key := generate_cache_key text source_lang target_lang options in
  let r := TranslationCache.get b now text source_lang target_lang options in
  (∀ v, fst r = Returns (Some v) ->
        ∃ ts, TranslationCache.entry_timestamp b key = Some ts
              ∧ now - ts ≤ TranslationCache.ttl b) ∧
  (TranslationCache.takes_writes b ->
   ∀ ts, TranslationCache.entry_timestamp b key = Some ts ->
         TranslationCache.ttl b < now - ts ->
         fst r = Returns None ∧
         misses (TranslationCache.counters (snd r))
           = misses (TranslationCache.counters b) + 1 ∧
         hits (TranslationCache.counters (snd r))
           = hits (TranslationCache.counters b) ∧
         TranslationCache.holds (snd r) key = false).
Proof.
  cbv zeta. split.
  - intros v. apply get_returns_fresh.
  - intros Hh ts. by apply get_purges_expired.
Qed.

Lemma get_treats_expired_as_absent_witness :
  let b := TranslationCache.set_all
             (File (snd (FileCache.init ".translation_cache" 10000 3600 0
                           (MkDisk ∅ IndexMissing true true))))
             [MkRequest 1000 "hello" "en" "fr" "bonjour" []] in
  let key := generate_cache_key "hello" "en" "fr" [] in
  (TranslationCache.takes_writes b ∧
   TranslationCache.entry_timestamp b key = Some 1000 ∧
   TranslationCache.ttl b < 4601 - 1000) ∧
  fst (TranslationCache.get b 4601 "hello" "en" "fr" []) = Returns None ∧
  TranslationCache.holds (snd (TranslationCache.get b 4601 "hello" "en" "fr" [])) key
  = false.
Proof.
  cbv zeta. split.
  - vm_compute. repeat split; reflexivity.
  - pose proof (proj2 (get_treats_expired_as_absent
        (TranslationCache.set_all
             (File (snd (FileCache.init ".translation_cache" 10000 3600 0
                           (MkDisk ∅ IndexMissing true true))))
             [MkRequest 1000 "hello" "en" "fr" "bonjour" []])
        4601 "hello" "en" "fr" [])) as H.
    cbv zeta in H.
    destruct (H ltac:(vm_compute; reflexivity) 1000
                ltac:(vm_compute; reflexivity) ltac:(vm_compute; reflexivity))
      as (H1 & _ & _ & H4).
    split; [exact H1 | exact H4].
Defined.

(** C4 fails on the file and SQLite backends: the removal of an expired
    entry in [get] is not guarded ([cache_file.unlink()], [DELETE]).
    When the medium refuses it, [get] on an entry older than [ttl] does
    not report absent but raises, counts no miss, and leaves the store as
    it was, the expired entry still in it. *)
Theorem get_raises_on_expired_entry (b : backend) (now : Z)
    (text source_lang target_lang : string) (options : PyDict.t pyval) (ts : Z) :
  let key := generate_cache_key text source_lang target_lang options in
  let r := TranslationCache.get b now text source_lang target_lang options in
  refuses_removal b key ->
  TranslationCache.entry_timestamp b key = Some ts ->
  TranslationCache.ttl b < now - ts ->
  r = (Raises (removal_error b), b) ∧
  misses (TranslationCache.counters (snd r)) = misses (TranslationCache.counters b) ∧
  TranslationCache.holds (snd r) key = true ∧
  TranslationCache.entry_timestamp (snd r) key = Some ts.
Proof.
  cbv zeta. intros Hrefuse Hts Hexp%is_expired_true.
  assert (TranslationCache.get b now text source_lang target_lang options
          = (Raises (removal_error b), b)) as Hget.
  { unfold TranslationCache.get. rewrite call_get.
    destruct b as [c|c|c]; unfold TranslationCache.lift;
      cbn [refuses_removal removal_error TranslationCache.entry_timestamp
           TranslationCache.ttl] in *.
    - done.
    - destruct Hrefuse as [Hw Hfile].
      destruct (PyDict.get (FileCache._index c) _) as [m|] eqn:Hg; [|done].
      injection Hts as <-.
      unfold FileCache.get. cbv zeta. rewrite Hg, Hexp.
      unfold FileCache.remove_file. cbv zeta. rewrite Hfile.
      unfold Fs.unlink. by rewrite Hw.
    - destruct (Sql.select_by_key (SQLiteCache.db c) _) as [row0|] eqn:Hg; [|done].
      injection Hts as <-.
      unfold SQLiteCache.get. cbv zeta. rewrite Hg, Hexp.
      unfold Sql.delete_where. by rewrite Hrefuse. }
  rewrite Hget. cbn [fst snd]. repeat split; [|done].
  destruct b as [c|c|c]; cbn [TranslationCache.holds TranslationCache.entry_timestamp] in *.
  - done.
  - unfold PyDict.mem.
    by destruct (PyDict.get (FileCache._index c) _).
  - apply bool_decide_true.
    destruct (Sql.select_by_key (SQLiteCache.db c) _) as [row0|] eqn:Hg; [|done].
    unfold Sql.select_by_key in Hg.
    apply head_Some_elem_of, list_elem_of_filter in Hg as [<- Hin].
    by apply list_elem_of_fmap_2.
Qed.

Lemma get_raises_on_expired_entry_witness :
  let b := TranslationCache.set_medium
             (TranslationCache.set_all
                (File (snd (FileCache.init ".translation_cache" 10000 3600 0
                              (MkDisk ∅ IndexMissing true true))))
                [MkRequest 1000 "hello" "en" "fr" "bonjour" []])
             false true in
  let key := generate_cache_key "hello" "en" "fr" [] in
  (refuses_removal b key ∧
   TranslationCache.entry_timestamp b key = Some 1000 ∧
   TranslationCache.ttl b < 4601 - 1000) ∧
  TranslationCache.get b 4601 "hello" "en" "fr" [] = (Raises OSError, b) ∧
  TranslationCache.holds (snd (TranslationCache.get b 4601 "hello" "en" "fr" [])) key
  = true.
Proof.
  cbv zeta. split.
  - vm_compute. repeat split; reflexivity.
  - pose proof (get_raises_on_expired_entry
        (TranslationCache.set_medium
           (TranslationCache.set_all
              (File (snd (FileCache.init ".translation_cache" 10000 3600 0
                            (MkDisk ∅ IndexMissing true true))))
              [MkRequest 1000 "hello" "en" "fr" "bonjour" []])
           false true)
        4601 "hello" "en" "fr" [] 1000) as H.
    cbv zeta in H.
    destruct (H ltac:(vm_compute; repeat split; reflexivity)
                ltac:(vm_compute; reflexivity) ltac:(vm_compute; reflexivity))
      as (H1 & _ & H3 & _).
    split; [exact H1|exact H3].
Defined.

(* ===================================================================== *)
(** * Capacity                                                            *)
(* ===================================================================== *)

Section Capacity.

Lemma length_keys {V} (d : PyDict.t V) : length (PyDict.keys d) = length d.
Proof. apply length_map. Qed.

Lemma oldest_key_in (db : database) (k0 : string) :
  Sql.oldest_key db = Some k0 -> k0 ∈ map cache_key (rows db).
Proof.
  unfold Sql.oldest_key.
  destruct (sorted_by timestamp (rows db)) as [|r rest] eqn:Hs; [done|].
  intros [= <-]. apply list_elem_of_fmap. exists r. split; [done|].
  apply (sorted_by_elem timestamp). rewrite Hs. apply list_elem_of_here.
Qed.

Lemma oldest_key_nonempty (db : database) :
  rows db ≠ [] -> is_Some (Sql.oldest_key db).
Proof.
  intros Hne. unfold Sql.oldest_key.
  destruct (sorted_by timestamp (rows db)) as [|r rest] eqn:Hs; [|by eexists].
  apply (f_equal length) in Hs. rewrite length_sorted_by in Hs.
  by destruct (rows db).
Qed.

(** The eviction step of [SQLiteCache.set] removes the rows of one key
    that is present. *)
Lemma after_eviction_full (self : SQLiteCache.t) :
  SQLiteCache.max_size self ≤ Sql.count (SQLiteCache.db self) ->
  rows (SQLiteCache.db self) ≠ [] ->
  ∃ k0, k0 ∈ map cache_key (rows (SQLiteCache.db self)) ∧
        after_eviction self =
        filter (fun r => cache_key r <> k0) (rows (SQLiteCache.db self)).
Proof.
  intros Hfull Hne. unfold after_eviction.
  rewrite (proj2 (Z.leb_le _ _) Hfull).
  destruct (oldest_key_nonempty _ Hne) as [k0 Hk0].
  exists k0. split; [by apply oldest_key_in|].
  rewrite Hk0. apply list_filter_iff. intros r.
  rewrite bool_decide_eq_false. split; intros H1 H2; apply H1; congruence.
Qed.

Lemma after_eviction_room (self : SQLiteCache.t) :
  Sql.count (SQLiteCache.db self) < SQLiteCache.max_size self ->
  after_eviction self = rows (SQLiteCache.db self).
Proof.
  intros Hroom. unfold after_eviction. by rewrite (proj2 (Z.leb_gt _ _) Hroom).
Qed.

Lemma length_filter_key_lt (rs : list row) (k0 : string) :
  k0 ∈ map cache_key rs ->
  (length (filter (fun r => cache_key r <> k0) rs) < length rs)%nat.
Proof.
  intros (r & -> & Hin)%list_elem_of_fmap.
  apply (length_filter_lt _ _ r); [done|]. by intros H.
Qed.

(** [set] keeps a store within its capacity, whether it returns or
    raises. *)
Lemma set_within_capacity (b : backend) (q : request) :
  1 ≤ TranslationCache.max_size b ->
  TranslationCache.size b ≤ TranslationCache.max_size b ->
  TranslationCache.size (TranslationCache.set_request b q)
    ≤ TranslationCache.max_size b ∧
  TranslationCache.max_size (TranslationCache.set_request b q)
    = TranslationCache.max_size b.
Proof.
  unfold TranslationCache.set_request, TranslationCache.set, TranslationCache.size.
  rewrite call_set. intros Hm Hsize.
  destruct b as [c|c|c]; unfold TranslationCache.lift;
    cbn [fst snd TranslationCache.keys TranslationCache.max_size] in *;
    unfold PyDict.keys in *; rewrite length_map in Hsize.
  - rewrite memory_set_spec by done. cbn [snd MemoryCache._cache MemoryCache.max_size].
    split; [|done]. rewrite length_map, length_app, length_drop. simpl. lia.
  - unfold FileCache.set. cbv zeta.
    destruct (Z.leb_spec (FileCache.max_size c) (PyDict.len (FileCache._index c)))
      as [Hfull|Hroom].
    + unfold FileCache.evict_oldest.
      destruct (sorted_by _ (FileCache._index c)) as [|[k0 m0] rest] eqn:Hs.
      { simpl. by rewrite length_map. }
      pose proof (sorted_head_in_keys _ _ _ Hs) as Hin. simpl in Hin.
      pose proof (length_del_lt _ _ Hin) as Hlt.
      destruct (FileCache.remove_file _ k0) as [d'|e].
      * destruct (Fs.write_text d' _ _) as [d''|e]; simpl;
          rewrite length_map; (split; [|done]).
        -- pose proof (length_set_le (PyDict.del (FileCache._index c) k0)
                         (generate_cache_key (q_text q) (q_source q) (q_target q) (q_options q))
                         (MkMeta (Some (q_now q)) (Some (q_source q)) (Some (q_target q)))).
           lia.
        -- lia.
      * simpl. by rewrite length_map.
    + unfold PyDict.len in Hroom.
      destruct (Fs.write_text _ _ _) as [d''|e]; simpl;
        rewrite length_map; (split; [|done]); [|lia].
      pose proof (length_set_le (FileCache._index c)
                    (generate_cache_key (q_text q) (q_source q) (q_target q) (q_options q))
                    (MkMeta (Some (q_now q)) (Some (q_source q)) (Some (q_target q)))).
      lia.
  - destruct (db_writable (SQLiteCache.db c)) eqn:Hw.
    + rewrite sqlite_set_writable by done.
      cbn [snd SQLiteCache.db SQLiteCache.max_size rows]. split; [|done].
      rewrite length_map, length_app. simpl.
      pose proof (length_filter
                    (fun r => cache_key r <>
                              generate_cache_key (q_text q) (q_source q) (q_target q) (q_options q))
                    (after_eviction c)) as Hf.
      destruct (Z.le_gt_cases (SQLiteCache.max_size c) (Sql.count (SQLiteCache.db c)))
        as [Hfull|Hroom].
      * destruct (after_eviction_full c Hfull) as (k0 & Hk0 & Heq).
        { unfold Sql.count in Hfull. destruct (rows (SQLiteCache.db c)); [simpl in *; lia|done]. }
        rewrite Heq in *. pose proof (length_filter_key_lt _ _ Hk0). lia.
      * rewrite after_eviction_room in * by lia. unfold Sql.count in Hroom. lia.
    + rewrite sqlite_set_unwritable by done. simpl. by rewrite length_map.
Qed.


Lemma length_fold_del {V} (ks : list string) (d : PyDict.t V) :
  (length (fold_left PyDict.del ks d) ≤ length d)%nat.
Proof. rewrite fold_del_filter. apply length_filter. Qed.

Lemma remove_entries_length (ks : list string) (idx : PyDict.t metadata) (d : disk) :
  (length (fst (snd (FileCache.remove_entries ks idx d))) ≤ length idx)%nat.
Proof.
  revert idx d. induction ks as [|k ks IH]; intros idx d; simpl; [lia|].
  destruct (FileCache.remove_file d k) as [d'|e]; simpl; [|lia].
  pose proof (IH (PyDict.del idx k) d'). pose proof (length_del_le idx k). lia.
Qed.

(** [get] never adds an entry. *)
Lemma get_within_capacity (b : backend) (now : Z) (text sl tl : string)
    (o : PyDict.t pyval) :
  let b' := snd (TranslationCache.get b now text sl tl o) in
  TranslationCache.size b' ≤ TranslationCache.size b ∧
  TranslationCache.max_size b' = TranslationCache.max_size b.
Proof.
  cbv zeta. unfold TranslationCache.get, TranslationCache.size.
  rewrite call_get.
  destruct b as [c|c|c]; unfold TranslationCache.lift;
    cbn [fst snd TranslationCache.keys TranslationCache.max_size];
    unfold PyDict.keys; rewrite ?length_map.
  - unfold MemoryCache.get. cbv zeta.
    destruct (PyDict.get _ _) as [[tr ts]|] eqn:Hg; [|by simpl].
    destruct (_is_expired _ _ _).
    + simpl. split; [|done]. pose proof (length_del_le (MemoryCache._cache c)
        (generate_cache_key text sl tl o)). lia.
    + unfold PyDict.move_to_end. rewrite Hg. simpl. split; [|done].
      rewrite length_app. simpl.
      assert (generate_cache_key text sl tl o ∈ PyDict.keys (MemoryCache._cache c)) as Hin.
      { destruct (decide (generate_cache_key text sl tl o
                          ∈ PyDict.keys (MemoryCache._cache c))) as [|Hn]; [done|].
        apply get_None_keys in Hn. congruence. }
      pose proof (length_del_lt _ _ Hin). lia.
  - unfold FileCache.get. cbv zeta.
    pose proof (length_del_le (FileCache._index c) (generate_cache_key text sl tl o)).
    destruct (PyDict.get _ _) as [m|]; [|by simpl].
    destruct (_is_expired _ _ _).
    + destruct (FileCache.remove_file _ _); simpl; (split; [lia|done]).
    + destruct (negb _); [simpl; split; [lia|done]|].
      destruct (Fs.read_text _ _); by simpl.
  - unfold SQLiteCache.get. cbv zeta.
    destruct (Sql.select_by_key _ _) as [r|]; [|by simpl].
    destruct (_is_expired _ _ _); [|by simpl].
    unfold Sql.delete_where. destruct (db_writable _); [|by simpl].
    simpl. split; [|done]. rewrite ?length_map.
    pose proof (length_filter
      (fun r0 => bool_decide (cache_key r0 = generate_cache_key text sl tl o) = false)
      (rows (SQLiteCache.db c))). lia.
Qed.

(** [clear] never adds an entry. *)
Lemma clear_within_capacity (b : backend) (pattern : option string) :
  let b' := snd (TranslationCache.clear b pattern) in
  TranslationCache.size b' ≤ TranslationCache.size b ∧
  TranslationCache.max_size b' = TranslationCache.max_size b.
Proof.
  cbv zeta. unfold TranslationCache.clear, TranslationCache.size.
  rewrite call_clear.
  destruct b as [c|c|c]; unfold TranslationCache.lift;
    cbn [fst snd TranslationCache.keys TranslationCache.max_size];
    unfold PyDict.keys; rewrite ?length_map.
  - destruct pattern as [p|]; simpl; (split; [|done]); [|lia].
    rewrite ?length_map. apply inj_le, length_fold_del.
  - destruct pattern as [p|]; cbn [FileCache.clear].
    + match goal with
      | |- context [FileCache.remove_entries ?ks ?idx ?d] =>
          pose proof (remove_entries_length ks idx d) as Hlen;
          destruct (FileCache.remove_entries ks idx d) as [[u|e] [idx' d']]
      end; simpl in *; rewrite ?length_map; (split; [lia|done]).
    + destruct (FileCache.remove_files _ _) as [[u|e] d']; simpl;
        rewrite ?length_map; (split; [lia|done]).
  - unfold SQLiteCache.clear, Sql.delete_where.
    destruct (db_writable (SQLiteCache.db c)).
    + destruct pattern as [p|]; simpl; rewrite ?length_map;
        (split; [apply inj_le, length_filter|done]).
    + destruct pattern as [p|]; simpl; by rewrite ?length_map.
Qed.

Lemma step_within_capacity (b : backend) (o : TranslationCache.operation) :
  1 ≤ TranslationCache.max_size b ->
  TranslationCache.size b ≤ TranslationCache.max_size b ->
  TranslationCache.size (TranslationCache.step b o) ≤ TranslationCache.max_size b ∧
  TranslationCache.max_size (TranslationCache.step b o) = TranslationCache.max_size b.
Proof.
  intros Hm Hs. destruct o as [now text sl tl o|q|p| |w r]; cbn [TranslationCache.step].
  - destruct (get_within_capacity b now text sl tl o). split; [lia|done].
  - by apply set_within_capacity.
  - destruct (clear_within_capacity b p). split; [lia|done].
  - by rewrite stats_keeps_store.
  - by destruct b.
Qed.

(** Whatever is called, in whatever order, a store that starts within
    its capacity stays within it. *)
Lemma run_within_capacity (os : list TranslationCache.operation) (b : backend) :
  1 ≤ TranslationCache.max_size b ->
  TranslationCache.size b ≤ TranslationCache.max_size b ->
  TranslationCache.size (TranslationCache.run b os) ≤ TranslationCache.max_size b.
Proof.
  revert b. induction os as [|o os IH]; intros b Hm Hs; [done|].
  cbn [TranslationCache.run fold_left].
  destruct (step_within_capacity b o Hm Hs) as [Hs' Hm'].
  rewrite <- Hm'. apply IH; lia.
Qed.


Lemma elem_of_drop_inv {A} (x : A) (n : nat) (l : list A) :
  x ∈ drop n l -> x ∈ l.
Proof. intros H. rewrite <- (take_drop n l). apply elem_of_app. by right. Qed.

Lemma NoDup_drop {A} (n : nat) (l : list A) : NoDup l -> NoDup (drop n l).
Proof. intros H. eapply sublist_NoDup; [exact H | apply sublist_drop]. Qed.

Lemma NoDup_snoc {A} (l : list A) (x : A) :
  NoDup l -> x ∉ l -> NoDup (l ++ [x]).
Proof.
  intros Hnd Hx. apply NoDup_app. split; [done|]. split; [|apply NoDup_singleton].
  intros y Hy ->%list_elem_of_singleton. done.
Qed.

Lemma elem_of_keys_del {V} (d : PyDict.t V) (k k' : string) :
  k' ∈ PyDict.keys (PyDict.del d k) -> k' ∈ PyDict.keys d.
Proof. rewrite keys_del. by intros [_ ?]%list_elem_of_filter. Qed.

(** A [set] for a key that is not stored, on a healthy medium: one
    entry more, unless the store was full, in which case one entry was
    evicted first. *)
Lemma set_fresh_key (b : backend) (q : request) :
  TranslationCache.takes_writes b ->
  1 ≤ TranslationCache.max_size b ->
  TranslationCache.size b ≤ TranslationCache.max_size b ->
  NoDup (TranslationCache.keys b) ->
  key_of q ∉ TranslationCache.keys b ->
  let b' := TranslationCache.set_request b q in
  TranslationCache.takes_writes b' ∧
  TranslationCache.max_size b' = TranslationCache.max_size b ∧
  TranslationCache.size b' =
    Z.min (TranslationCache.size b + 1) (TranslationCache.max_size b) ∧
  NoDup (TranslationCache.keys b') ∧
  (∀ k, k ∈ TranslationCache.keys b' -> k = key_of q ∨ k ∈ TranslationCache.keys b).
Proof.
  unfold TranslationCache.set_request, TranslationCache.set, TranslationCache.size, key_of.
  rewrite call_set. intros Hh Hm Hsize Hnd Hfresh.
  destruct b as [c|c|c]; unfold TranslationCache.lift;
    cbn [fst snd TranslationCache.keys TranslationCache.max_size
         TranslationCache.takes_writes] in *.
  - rewrite memory_set_spec by done.
    cbn [snd MemoryCache._cache MemoryCache.max_size].
    rewrite (del_absent (MemoryCache._cache c)) by done.
    unfold PyDict.keys in *. rewrite length_map in Hsize.
    rewrite map_app, length_app, length_map, length_drop. simpl.
    split; [done|]. split; [done|]. split; [rewrite !length_map; lia|]. split.
    + apply NoDup_snoc.
      * change (NoDup (fst <$> drop (length (MemoryCache._cache c)
                  - Z.to_nat (MemoryCache.max_size c - 1)) (MemoryCache._cache c))).
        rewrite fmap_drop. by apply NoDup_drop.
      * intros Hin. apply Hfresh.
        change (generate_cache_key (q_text q) (q_source q) (q_target q) (q_options q)
                ∈ fst <$> drop (length (MemoryCache._cache c)
                  - Z.to_nat (MemoryCache.max_size c - 1)) (MemoryCache._cache c)) in Hin.
        rewrite fmap_drop in Hin. by apply elem_of_drop_inv in Hin.
    + intros k [Hk|Hk]%elem_of_app.
      * right.
        change (k ∈ fst <$> drop (length (MemoryCache._cache c)
                  - Z.to_nat (MemoryCache.max_size c - 1)) (MemoryCache._cache c)) in Hk.
        rewrite fmap_drop in Hk. by apply elem_of_drop_inv in Hk.
      * left. by apply list_elem_of_singleton in Hk.
  - pose proof Hh as Hw.
    rewrite length_keys in Hsize.
    destruct (file_set_writable c (q_now q) (q_text q) (q_source q) (q_target q)
                (q_translated q) (q_options q) Hw) as (idx1 & fs1 & Hidx & Heq).
    { intros Hfull Hnil. rewrite Hnil in Hfull. unfold PyDict.len in Hfull.
      simpl in Hfull. lia. }
    cbv zeta in Heq. rewrite Heq. clear Heq.
    cbn [snd FileCache._index FileCache.max_size FileCache.dir writable readable].
    assert ((generate_cache_key (q_text q) (q_source q) (q_target q) (q_options q)
             ∉ PyDict.keys idx1) ∧ NoDup (PyDict.keys idx1) ∧
            (∀ k, k ∈ PyDict.keys idx1 -> k ∈ PyDict.keys (FileCache._index c)) ∧
            Z.of_nat (length idx1) + 1 =
              Z.min (Z.of_nat (length (FileCache._index c)) + 1) (FileCache.max_size c))
      as (Hf1 & Hnd1 & Hsub & Hlen).
    { destruct (Z.leb_spec (FileCache.max_size c) (PyDict.len (FileCache._index c)))
        as [Hfull|Hroom]; unfold PyDict.len in *.
      - destruct Hidx as (k0 & Hk0 & ->). split_and!.
        + intros Hin. apply Hfresh. by apply elem_of_keys_del in Hin.
        + by apply NoDup_keys_del.
        + intros k. apply elem_of_keys_del.
        + pose proof (length_del_NoDup _ _ Hnd Hk0). lia.
      - subst idx1. split_and!; [done..|lia]. }
    rewrite keys_set_absent by done. rewrite length_app, length_keys. simpl.
    split; [done|]. split; [done|]. split; [rewrite !length_keys; lia|].
    split; [by apply NoDup_snoc|].
    intros k [Hk|Hk]%elem_of_app; [right; by apply Hsub|left].
    by apply list_elem_of_singleton in Hk.
  - rewrite length_map in Hsize.
    rewrite sqlite_set_writable by done.
    cbn [snd SQLiteCache.db SQLiteCache.max_size rows db_writable].
    assert ((generate_cache_key (q_text q) (q_source q) (q_target q) (q_options q)
             ∉ map cache_key (after_eviction c)) ∧
            NoDup (map cache_key (after_eviction c)) ∧
            (∀ k, k ∈ map cache_key (after_eviction c) ->
                  k ∈ map cache_key (rows (SQLiteCache.db c))) ∧
            Z.of_nat (length (after_eviction c)) + 1 =
              Z.min (Z.of_nat (length (rows (SQLiteCache.db c))) + 1)
                    (SQLiteCache.max_size c))
      as (Hf1 & Hnd1 & Hsub & Hlen).
    { destruct (Z.le_gt_cases (SQLiteCache.max_size c) (Sql.count (SQLiteCache.db c)))
        as [Hfull|Hroom].
      - destruct (after_eviction_full c Hfull) as (k0 & Hk0 & ->).
        { unfold Sql.count in Hfull.
          destruct (rows (SQLiteCache.db c)); [simpl in *; lia|done]. }
        rewrite keys_filter_key. unfold Sql.count in Hfull. split_and!.
        + by intros [_ Hin]%list_elem_of_filter.
        + by apply NoDup_filter.
        + by intros k [_ Hin]%list_elem_of_filter.
        + pose proof (length_filter_key_NoDup _ _ Hnd Hk0). lia.
      - rewrite after_eviction_room by done. unfold Sql.count in Hroom.
        split_and!; [done..|lia]. }
    rewrite filter_key_absent by done.
    rewrite map_app, length_app, !length_map. simpl.
    split; [done|]. split; [done|]. split; [lia|]. split; [by apply NoDup_snoc|].
    intros k [Hk|Hk]%elem_of_app; [right; by apply Hsub|left].
    by apply list_elem_of_singleton in Hk.
Qed.

(** Distinct keys set one after the other into a healthy store. *)
Lemma set_all_fresh_keys (qs : list request) (b : backend) :
  TranslationCache.takes_writes b ->
  1 ≤ TranslationCache.max_size b ->
  TranslationCache.size b ≤ TranslationCache.max_size b ->
  NoDup (TranslationCache.keys b) ->
  NoDup (map key_of qs) ->
  (∀ k, k ∈ map key_of qs -> k ∉ TranslationCache.keys b) ->
  TranslationCache.size (TranslationCache.set_all b qs) =
  Z.min (TranslationCache.size b + Z.of_nat (length qs)) (TranslationCache.max_size b).
Proof.
  revert b. induction qs as [|q qs IH]; intros b Hh Hm Hs Hnd Hqs Hfresh.
  - simpl. lia.
  - cbn [TranslationCache.set_all fold_left].
    simpl in Hqs. apply NoDup_cons in Hqs as [Hq Hqs].
    destruct (set_fresh_key b q Hh Hm Hs Hnd) as (Hh' & Hm' & Hs' & Hnd' & Hsub).
    { apply Hfresh. simpl. apply list_elem_of_here. }
    cbv zeta in *.
    fold (TranslationCache.set_all (TranslationCache.set_request b q) qs).
    rewrite IH; [|done|lia|lia|done|done|].
    + rewrite Hm', Hs'. simpl length. lia.
    + intros k Hk Hin. destruct (Hsub k Hin) as [->|Hin']; [done|].
      apply (Hfresh k); [|done]. simpl. by apply list_elem_of_further.
Qed.

End Capacity.

(** C3, as the specification states it, fails.  A [SQLiteCache] built with
    [max_size = 0] holds one entry after its first [set]; and a
    [FileCache] opened with [max_size = 1] on a directory in which an
    earlier instance left two entries still holds two after a [set],
    which evicts a single entry. *)
Lemma capacity_exceeded :
  (let b := SQLite (snd (SQLiteCache.init ".translation_cache/cache.db" 0 86400 1000
                           (MkDb [] true))) in
   let r := TranslationCache.set b 1000 "hello" "en" "fr" "bonjour" [] in
   fst r = Returns tt ∧
   TranslationCache.size (snd r) = 1 ∧ TranslationCache.max_size (snd r) = 0) ∧
  (let fresh := MkDisk ∅ IndexMissing true true in
   let earlier :=
     FileCache.set
       (snd (FileCache.set
               (snd (FileCache.init ".translation_cache" 10000 86400 1000 fresh))
               1000 "hello" "en" "fr" "bonjour" []))
       1001 "bye" "en" "fr" "au revoir" [] in
   let b := File (snd (FileCache.init ".translation_cache" 1 86400 1002
                         (FileCache.dir (snd earlier)))) in
   let r := TranslationCache.set b 1002 "yes" "en" "fr" "oui" [] in
   fst r = Returns tt ∧
   TranslationCache.size (snd r) = 2 ∧ TranslationCache.max_size (snd r) = 1).
Proof. by vm_compute. Qed.

(** C3, amended: for every backend with [max_size >= 1], a store that
    holds at most [max_size] entries (as a store that starts empty does)
    holds at most [max_size] entries after any sequence of calls; and
    setting [max_size + k] distinct keys into an empty store whose medium
    takes the writes leaves exactly [max_size] entries. *)
Theorem capacity_kept_from_within (b : backend) :
  1 ≤ TranslationCache.max_size b ->
  TranslationCache.size b ≤ TranslationCache.max_size b ->
  (∀ os, TranslationCache.size (TranslationCache.run b os)
         ≤ TranslationCache.max_size b) ∧
  (∀ qs, TranslationCache.takes_writes b ->
         TranslationCache.keys b = [] ->
         NoDup (map key_of qs) ->
         TranslationCache.max_size b ≤ Z.of_nat (length qs) ->
         TranslationCache.size (TranslationCache.set_all b qs)
         = TranslationCache.max_size b).
Proof.
  intros Hm Hs. split.
  - intros os. by apply run_within_capacity.
  - intros qs Hh Hk Hnd Hlen.
    rewrite set_all_fresh_keys; [|done|done|done| |done|].
    + unfold TranslationCache.size. rewrite Hk. simpl. lia.
    + rewrite Hk. apply NoDup_nil_2.
    + intros k _. rewrite Hk. apply not_elem_of_nil.
Qed.

Lemma capacity_kept_from_within_witness :
  let b := Memory (MemoryCache.init 2 3600) in
  let qs := [MkRequest 100 "hello" "en" "fr" "bonjour" [];
             MkRequest 101 "bye" "en" "fr" "au revoir" [];
             MkRequest 102 "yes" "en" "fr" "oui" []] in
  (1 ≤ TranslationCache.max_size b ∧
   TranslationCache.size b ≤ TranslationCache.max_size b) ∧
  TranslationCache.size (TranslationCache.set_all b qs) = TranslationCache.max_size b.
Proof.
  cbv zeta. split; [by vm_compute|].
  apply (proj2 (capacity_kept_from_within (Memory (MemoryCache.init 2 3600))
                  ltac:(by vm_compute) ltac:(by vm_compute))).
  - exact I.
  - reflexivity.
  - apply (bool_decide_unpack _). by vm_compute.
  - by vm_compute.
Defined.

(* ===================================================================== *)
(** * Counters                                                            *)
(* ===================================================================== *)

Lemma get_counts (b : backend) (now : Z)
    (text source_lang target_lang : string) (options : PyDict.t pyval) :
  let r := TranslationCache.get b now text source_lang target_lang options in
  let c := TranslationCache.counters b in
  let c' := TranslationCache.counters (snd r) in
  match fst r with
  | Returns (Some _) => hits c' = hits c + 1 ∧ misses c' = misses c
  | Returns None => hits c' = hits c ∧ misses c' = misses c + 1
  | Raises _ => hits c' = hits c ∧ misses c' = misses c
  end.
Proof.
  cbv zeta. unfold TranslationCache.get. rewrite call_get.
  destruct b as [c|c|c]; unfold TranslationCache.lift;
    cbn [fst snd TranslationCache.counters].
  - unfold MemoryCache.get. cbv zeta.
    destruct (PyDict.get _ _) as [[tr ts]|] eqn:Hg; [|by simpl].
    destruct (_is_expired _ _ _); [by simpl|].
    unfold PyDict.move_to_end. rewrite Hg. by simpl.
  - unfold FileCache.get. cbv zeta.
    destruct (PyDict.get _ _) as [m|]; [|by simpl].
    destruct (_is_expired _ _ _).
    { by destruct (FileCache.remove_file _ _). }
    destruct (negb _); [by simpl|].
    by destruct (Fs.read_text _ _).
  - unfold SQLiteCache.get. cbv zeta.
    destruct (Sql.select_by_key _ _) as [r|]; [|by simpl].
    destruct (_is_expired _ _ _); [|by simpl].
    by destruct (Sql.delete_where _ _) as [[]|].
Qed.

Section CounterFacts.

Lemma set_keeps_lookups (b : backend) (q : request) :
  hits (TranslationCache.counters (TranslationCache.set_request b q))
    = hits (TranslationCache.counters b) ∧
  misses (TranslationCache.counters (TranslationCache.set_request b q))
    = misses (TranslationCache.counters b).
Proof.
  unfold TranslationCache.set_request, TranslationCache.set. rewrite call_set.
  destruct b as [c|c|c]; unfold TranslationCache.lift;
    cbn [fst snd TranslationCache.counters].
  - unfold MemoryCache.set. cbv zeta. by destruct (MemoryCache.evict _ _).
  - unfold FileCache.set. cbv zeta.
    destruct (FileCache.max_size c <=? PyDict.len (FileCache._index c)).
    + destruct (FileCache.evict_oldest _ _) as [[u|e] [idx d]]; [|by simpl].
      by destruct (Fs.write_text _ _ _).
    + by destruct (Fs.write_text _ _ _).
  - destruct (db_writable (SQLiteCache.db c)) eqn:Hw.
    + by rewrite sqlite_set_writable.
    + by rewrite sqlite_set_unwritable.
Qed.

Lemma clear_keeps_lookups (b : backend) (pattern : option string) :
  hits (TranslationCache.counters (snd (TranslationCache.clear b pattern)))
    = hits (TranslationCache.counters b) ∧
  misses (TranslationCache.counters (snd (TranslationCache.clear b pattern)))
    = misses (TranslationCache.counters b).
Proof.
  unfold TranslationCache.clear. rewrite call_clear.
  destruct b as [c|c|c]; unfold TranslationCache.lift;
    cbn [fst snd TranslationCache.counters].
  - by destruct pattern.
  - destruct pattern as [p|]; cbn [FileCache.clear].
    + by destruct (FileCache.remove_entries _ _ _) as [[u|e] [idx d]].
    + by destruct (FileCache.remove_files _ _) as [[u|e] d].
  - unfold SQLiteCache.clear, Sql.delete_where.
    by destruct (db_writable _), pattern.
Qed.

Lemma step_counters_grow (b : backend) (o : TranslationCache.operation) :
  hits (TranslationCache.counters b)
    ≤ hits (TranslationCache.counters (TranslationCache.step b o)) ∧
  misses (TranslationCache.counters b)
    ≤ misses (TranslationCache.counters (TranslationCache.step b o)).
Proof.
  destruct o as [now text sl tl o|q|p| |w r]; cbn [TranslationCache.step].
  - pose proof (get_counts b now text sl tl o) as H.
    cbv zeta in H.
    destruct (fst (TranslationCache.get b now text sl tl o)) as [[v|]|e]; lia.
  - destruct (set_keeps_lookups b q). lia.
  - destruct (clear_keeps_lookups b p). lia.
  - rewrite stats_keeps_store. lia.
  - destruct b; simpl; lia.
Qed.

Lemma run_counters_grow (os : list TranslationCache.operation) (b : backend) :
  hits (TranslationCache.counters b)
    ≤ hits (TranslationCache.counters (TranslationCache.run b os)) ∧
  misses (TranslationCache.counters b)
    ≤ misses (TranslationCache.counters (TranslationCache.run b os)).
Proof.
  revert b. induction os as [|o os IH]; intros b; [simpl; lia|].
  cbn [TranslationCache.run fold_left].
  destruct (step_counters_grow b o).
  destruct (IH (TranslationCache.step b o)) as [H1 H2].
  unfold TranslationCache.run in *. lia.
Qed.

Lemma hit_rate_bounds (c : CacheStats) :
  0 ≤ hits c -> 0 ≤ misses c -> (0 <= hit_rate c)%Q ∧ (hit_rate c <= 1)%Q.
Proof.
  intros Hh Hm. unfold hit_rate.
  destruct (Z.ltb_spec 0 (hits c + misses c)) as [Hpos|Hzero].
  - unfold Qle. simpl. rewrite Z2Pos.id by done. lia.
  - by split.
Qed.

End CounterFacts.

(** X1: [get] adds one to [hits] when it returns a value, one to [misses]
    when it returns [None], and nothing when it raises; [set] and [clear]
    never change [hits] or [misses]. *)
Theorem lookups_are_counted_once (b : backend) (now : Z)
    (text source_lang target_lang : string) (options : PyDict.t pyval)
    (q : request) (pattern : option string) :
  let r := TranslationCache.get b now text source_lang target_lang options in
  let c := TranslationCache.counters b in
  let c' := TranslationCache.counters (snd r) in
  match fst r with
  | Returns (Some _) => hits c' = hits c + 1 ∧ misses c' = misses c
  | Returns None => hits c' = hits c ∧ misses c' = misses c + 1
  | Raises _ => hits c' = hits c ∧ misses c' = misses c
  end ∧
  (hits (TranslationCache.counters (TranslationCache.set_request b q)) = hits c ∧
   misses (TranslationCache.counters (TranslationCache.set_request b q)) = misses c) ∧
  (hits (TranslationCache.counters (snd (TranslationCache.clear b pattern))) = hits c ∧
   misses (TranslationCache.counters (snd (TranslationCache.clear b pattern))) = misses c).
Proof.
  cbv zeta. split; [apply get_counts|].
  split; [apply set_keeps_lookups | apply clear_keeps_lookups].
Qed.

(** X2: after any sequence of calls on a store whose counters are not
    negative (as those of a new store), the hit rate lies between 0 and
    1. *)
Theorem hit_rate_stays_in_unit_interval (b : backend)
    (os : list TranslationCache.operation) :
  0 ≤ hits (TranslationCache.counters b) ->
  0 ≤ misses (TranslationCache.counters b) ->
  let c := TranslationCache.counters (TranslationCache.run b os) in
  (0 <= hit_rate c)%Q ∧ (hit_rate c <= 1)%Q.
Proof.
  intros Hh Hm. cbv zeta. destruct (run_counters_grow os b).
  apply hit_rate_bounds; lia.
Qed.

Lemma hit_rate_stays_in_unit_interval_witness :
  let b := Memory (MemoryCache.init 2 3600) in
  let os := [TranslationCache.OpGet 100 "hello" "en" "fr" [];
             TranslationCache.OpSet (MkRequest 101 "hello" "en" "fr" "bonjour" []);
             TranslationCache.OpGet 102 "hello" "en" "fr" [];
             TranslationCache.OpGet 103 "hello" "en" "fr" []] in
  (0 ≤ hits (TranslationCache.counters b) ∧ 0 ≤ misses (TranslationCache.counters b)) ∧
  (hit_rate (TranslationCache.counters (TranslationCache.run b os)) <= 1)%Q.
Proof.
  cbv zeta. split; [by vm_compute|].
  apply (hit_rate_stays_in_unit_interval (Memory (MemoryCache.init 2 3600))
           [TranslationCache.OpGet 100 "hello" "en" "fr" [];
            TranslationCache.OpSet (MkRequest 101 "hello" "en" "fr" "bonjour" []);
            TranslationCache.OpGet 102 "hello" "en" "fr" [];
            TranslationCache.OpGet 103 "hello" "en" "fr" []]); by vm_compute.
Defined.

(* ===================================================================== *)
(** * clear() and the self-healing read                                   *)
(* ===================================================================== *)

Section ClearAll.

Lemma remove_files_writable (ks : list string) (d : disk) :
  writable d = true ->
  ∃ d', FileCache.remove_files ks d = (Returns tt, d')
        ∧ writable d' = true ∧ readable d' = readable d
        ∧ index_json d' = index_json d
        ∧ (∀ name, files d' !! name =
                   if bool_decide (name ∈ map FileCache._get_cache_file ks)
                   then None else files d !! name).
Proof.
  revert d. induction ks as [|k ks IH]; intros d Hw.
  - exists d. by split_and!.
  - cbn [FileCache.remove_files]. rewrite remove_file_writable by done.
    destruct (IH (MkDisk (delete (FileCache._get_cache_file k) (files d))
                         (index_json d) (writable d) (readable d)) Hw)
      as (d' & -> & Hw' & Hr' & Hi' & Hf).
    exists d'. split_and!; [done..|].
    intros name. rewrite Hf. simpl.
    destruct (decide (name = FileCache._get_cache_file k)) as [->|Hne].
    + rewrite lookup_delete_eq.
      rewrite (bool_decide_true (_ ∈ _ :: _)) by apply list_elem_of_here.
      by case_bool_decide.
    + rewrite lookup_delete_ne by done.
      erewrite bool_decide_ext; [done|]. rewrite elem_of_cons. tauto.
Qed.

End ClearAll.

(** X3: on a medium that takes the removal, [clear()] without a pattern
    returns the number of entries that were stored and leaves the store
    empty: no key, the entry counter at 0, and nothing left of any entry
    that was stored (for the file backend, its backing file included). *)
Theorem clear_without_pattern_empties (b : backend) :
  TranslationCache.takes_writes b ->
  let r := TranslationCache.clear b None in
  fst r = Returns (TranslationCache.size b) ∧
  TranslationCache.keys (snd r) = [] ∧
  total_entries (TranslationCache.counters (snd r)) = 0 ∧
  ∀ key, key ∈ TranslationCache.keys b ->
         TranslationCache.holds (snd r) key = false.
Proof.
  intros Hw. cbv zeta. unfold TranslationCache.clear, TranslationCache.size.
  rewrite call_clear.
  destruct b as [c|c|c]; unfold TranslationCache.lift;
    cbn [fst snd TranslationCache.keys TranslationCache.counters
         TranslationCache.holds TranslationCache.takes_writes] in *.
  - simpl. unfold PyDict.len, PyDict.keys. by rewrite length_map.
  - cbn [FileCache.clear].
    destruct (remove_files_writable (PyDict.keys (FileCache._index c))
                (FileCache.dir c) Hw) as (d' & -> & Hw' & _ & _ & Hf).
    simpl. unfold PyDict.len, PyDict.keys. rewrite length_map.
    split_and!; [done..|]. intros key Hin.
    unfold Fs.exists_, FileCache._save_index. rewrite Hw'. simpl.
    rewrite Hf. rewrite (bool_decide_true (_ ∈ _)).
    + done.
    + apply list_elem_of_fmap. by exists key.
  - unfold SQLiteCache.clear, Sql.delete_where, Sql.count. rewrite Hw. simpl.
    rewrite length_map.
    assert (filter (fun r : row => true = false) (rows (SQLiteCache.db c)) = []) as ->.
    { induction (rows (SQLiteCache.db c)) as [|r rs IH]; [done|].
      by rewrite filter_cons_False. }
    by split_and!.
Qed.

Lemma clear_without_pattern_empties_witness :
  let b := TranslationCache.set_all
             (File (snd (FileCache.init ".translation_cache" 10000 3600 0
                           (MkDisk ∅ IndexMissing true true))))
             [MkRequest 100 "hello" "en" "fr" "bonjour" [];
              MkRequest 101 "bye" "en" "fr" "au revoir" []] in
  TranslationCache.takes_writes b ∧
  fst (TranslationCache.clear b None) = Returns 2 ∧
  TranslationCache.keys (snd (TranslationCache.clear b None)) = [].
Proof.
  cbv zeta. split; [by vm_compute|].
  pose proof (clear_without_pattern_empties
    (TranslationCache.set_all
             (File (snd (FileCache.init ".translation_cache" 10000 3600 0
                           (MkDisk ∅ IndexMissing true true))))
             [MkRequest 100 "hello" "en" "fr" "bonjour" [];
              MkRequest 101 "bye" "en" "fr" "au revoir" []])
    ltac:(by vm_compute)) as (H1 & H2 & _).
  split; [|exact H2]. rewrite H1. by vm_compute.
Defined.



(* ===================================================================== *)
(** * Opening a store over persisted entries                              *)
(* ===================================================================== *)

Section Opening.


(** Deleting the keys of the entries that satisfy [P] leaves the entries
    that do not, when every key occurs once. *)
Lemma fold_del_selected {V} (P : string * V -> Prop)
    `{!∀ x, Decision (P x)} (d : PyDict.t V) :
  NoDup (PyDict.keys d) ->
  fold_left PyDict.del (PyDict.keys (filter P d)) d = filter (fun kv => ¬ P kv) d.
Proof.
  intros Hnd. rewrite fold_del_filter. apply filter_ext_in. intros kv Hkv.
  unfold PyDict.keys. rewrite list_elem_of_fmap. split.
  - intros Hnot HP. apply Hnot. exists kv. split; [done|].
    by apply list_elem_of_filter.
  - intros Hnot (kv' & Heq & [HP Hin]%list_elem_of_filter).
    apply Hnot. by rewrite (NoDup_keys_unique _ kv kv' Hnd Hkv Hin Heq).
Qed.


Lemma file_cleanup_writable (self : FileCache.t) (now : Z) :
  writable (FileCache.dir self) = true ->
  NoDup (PyDict.keys (FileCache._index self)) ->
  let expired kv :=
    _is_expired (FileCache.ttl self) now (FileCache.timestamp_of (snd kv)) = true in
  let idx := filter (fun kv => ¬ expired kv) (FileCache._index self) in
  ∃ d', FileCache._cleanup_expired self now =
        (Returns tt,
         FileCache.Mk (FileCache.max_size self) (FileCache.ttl self)
           (FileCache.stats_attr self) (FileCache.cache_dir self) idx d')
      ∧ writable d' = true ∧ readable d' = readable (FileCache.dir self)
      ∧ index_json d' =
          (if decide (filter expired (FileCache._index self) = [])
           then index_json (FileCache.dir self) else IndexSaved idx)
      ∧ (∀ name, files d' !! name =
           if bool_decide (name ∈ map FileCache._get_cache_file
                                     (PyDict.keys (filter expired (FileCache._index self))))
           then None else files (FileCache.dir self) !! name).
Proof.
  intros Hw Hnd. cbv zeta. unfold FileCache._cleanup_expired. cbv zeta.
  pose proof (fold_del_selected
                (fun kv => _is_expired (FileCache.ttl self) now
                             (FileCache.timestamp_of (snd kv)) = true)
                (FileCache._index self) Hnd) as Hfold.
  destruct (filter _ (FileCache._index self)) as [|kv rest] eqn:Hexp.
  - exists (FileCache.dir self). simpl in *. rewrite <- Hfold.
    by split_and!.
  - destruct (remove_entries_writable (PyDict.keys (kv :: rest))
                (FileCache._index self) (FileCache.dir self) Hw)
      as (d' & -> & Hw' & Hr' & Hf).
    rewrite Hfold. eexists. split; [done|].
    unfold FileCache._save_index. rewrite Hw'. simpl. by split_and!.
Qed.

End Opening.



(** X6: [SQLiteCache(db_path, max_size, ttl)] on a database that takes
    writes returns a store that holds the rows that are not expired, in
    their order: the comparison of its DELETE statement selects the rows
    for which [_is_expired] holds.  The counters start at zero. *)
Theorem sqlite_init_purges_expired (db_path : string) (max_size ttl now : Z)
    (d : database) :
  db_writable d = true ->
  let r := SQLiteCache.init db_path max_size ttl now d in
  fst r = Returns tt ∧
  rows (SQLiteCache.db (snd r)) =
    filter (fun r => _is_expired ttl now (timestamp r) = false) (rows d) ∧
  db_writable (SQLiteCache.db (snd r)) = true ∧
  SQLiteCache.stats_attr (snd r) = CacheStats_init.
Proof.
  intros Hw. cbv zeta.
  unfold SQLiteCache.init, SQLiteCache._cleanup_expired, Sql.delete_where.
  simpl. rewrite Hw. simpl. split_and!; [done| |done..].
  apply list_filter_iff. intros r. unfold _is_expired.
  destruct (Z.ltb_spec (timestamp r) (now - ttl)), (Z.ltb_spec ttl (now - timestamp r));
    intuition (congruence || lia).
Qed.

Lemma sqlite_init_purges_expired_witness :
  let d := MkDb [MkRow "k1" "hello" "bonjour" "en" "fr" 100 None;
                 MkRow "k2" "hello" "hallo" "en" "de" 5000 None] true in
  db_writable d = true ∧
  map cache_key (rows (SQLiteCache.db
                         (snd (SQLiteCache.init "cache.db" 10000 3600 6000 d))))
  = ["k2"].
Proof.
  cbv zeta. split; [done|].
  rewrite (proj1 (proj2 (sqlite_init_purges_expired "cache.db" 10000 3600 6000
             (MkDb [MkRow "k1" "hello" "bonjour" "en" "fr" 100 None;
                    MkRow "k2" "hello" "hallo" "en" "de" 5000 None] true)
             eq_refl))).
  by vm_compute.
Defined.

(* ===================================================================== *)
(** * Entries survive a restart                                           *)
(* ===================================================================== *)

Section Restart.

Lemma get_elem_of {V} (d : PyDict.t V) (k : string) (v : V) :
  PyDict.get d k = Some v -> (k, v) ∈ d.
Proof.
  induction d as [|[k0 v0] d IH]; [done|]. simpl.
  destruct (decide (k0 = k)) as [->|Hne].
  - intros [= ->]. apply list_elem_of_here.
  - intros Hget. by apply list_elem_of_further, IH.
Qed.

Lemma get_filter {V} (P : string * V -> Prop) `{!∀ x, Decision (P x)}
    (d : PyDict.t V) (k : string) (v : V) :
  PyDict.get d k = Some v -> P (k, v) -> PyDict.get (filter P d) k = Some v.
Proof.
  induction d as [|[k0 v0] d IH]; [done|]. simpl.
  destruct (decide (k0 = k)) as [->|Hne].
  - intros [= ->] HP. rewrite filter_cons_True by done. simpl.
    by rewrite decide_True.
  - intros Hget HP. destruct (decide (P (k0, v0))).
    + rewrite filter_cons_True by done. simpl. rewrite decide_False by done.
      by apply IH.
    + rewrite filter_cons_False by done. by apply IH.
Qed.

Lemma filter_nothing {A} (P : A -> Prop) `{!∀ x, Decision (P x)} (l : list A) :
  (∀ x, x ∈ l -> ¬ P x) -> filter P l = [].
Proof.
  induction l as [|x l IH]; intros Hall; [done|].
  rewrite filter_cons_False by (apply Hall, list_elem_of_here).
  apply IH. intros y Hy. by apply Hall, list_elem_of_further.
Qed.

Lemma cache_file_inj (k k' : string) :
  FileCache._get_cache_file k = FileCache._get_cache_file k' -> k = k'.
Proof. apply append_inv_tail. Qed.

End Restart.

(** X7: an entry written by [FileCache.set] is found by a store opened
    later on the same directory, as long as it is not expired for that
    store: [get] returns the text of the backing file (the value, with
    its line ends read in text mode). *)
Theorem file_entry_survives_restart (self : FileCache.t) (now now1 now2 : Z)
    (text sl tl v : string) (o : PyDict.t pyval)
    (cache_dir' : string) (max_size' ttl' : Z) :
  writable (FileCache.dir self) = true ->
  readable (FileCache.dir self) = true ->
  NoDup (PyDict.keys (FileCache._index self)) ->
  (FileCache.max_size self ≤ PyDict.len (FileCache._index self) ->
   FileCache._index self ≠ []) ->
  _is_expired ttl' now1 now = false ->
  _is_expired ttl' now2 now = false ->
  let stored := snd (FileCache.set self now text sl tl v o) in
  let reopened :=
    snd (FileCache.init cache_dir' max_size' ttl' now1 (FileCache.dir stored)) in
  fst (FileCache.get reopened now2 text sl tl o)
  = Returns (Some (Fs.universal_newlines false v)).
Proof.
  intros Hw Hr Hnd Hne Hexp1 Hexp2. cbv zeta.
  destruct (file_set_writable self now text sl tl v o Hw Hne)
    as (idx1 & fs1 & Hidx1 & Heq).
  cbv zeta in Heq. rewrite Heq. clear Heq. cbn [snd FileCache.dir].
  set (m := MkMeta (Some now) (Some sl) (Some tl)).
  set (idx2 := PyDict.set idx1 (generate_cache_key text sl tl o) m).
  assert (NoDup (PyDict.keys idx2)) as Hnd2.
  { apply NoDup_keys_set.
    destruct (FileCache.max_size self <=? PyDict.len (FileCache._index self)).
    - destruct Hidx1 as (k0 & _ & ->). by apply NoDup_keys_del.
    - by subst idx1. }
  assert (PyDict.get idx2 (generate_cache_key text sl tl o) = Some m) as Hget
    by apply get_set_eq.
  clearbody idx2. clear Hidx1.
  unfold FileCache.init.
  set (d := MkDisk _ _ _ _).
  assert (FileCache._load_index d = idx2) as Hload.
  { unfold FileCache._load_index, d. simpl. by rewrite Hr. }
  rewrite Hload.
  destruct (file_cleanup_writable
              (FileCache.Mk max_size' ttl' CacheStats_init cache_dir' idx2 d)
              now1 eq_refl Hnd2)
    as (d' & -> & Hw' & Hr' & _ & Hf).
  cbn [snd FileCache._index FileCache.dir FileCache.ttl] in *.
  erewrite file_get_hit; [done|..].
  - cbn [FileCache._index]. apply get_filter; [exact Hget|].
    unfold m, FileCache.timestamp_of. cbn. by rewrite Hexp1.
  - unfold m, FileCache.timestamp_of. cbn. exact Hexp2.
  - cbn [FileCache.dir]. rewrite Hf. rewrite (bool_decide_false (_ ∈ _)).
    + unfold d. simpl. apply lookup_insert_eq.
    + intros (k' & Hk' & Hin)%list_elem_of_fmap.
      apply cache_file_inj in Hk'. subst k'.
      unfold PyDict.keys in Hin.
      apply list_elem_of_fmap in Hin as ([k' m'] & Hk' & [Hexp Hin]%list_elem_of_filter).
      simpl in Hk'. subst k'.
      assert ((generate_cache_key text sl tl o, m') = (generate_cache_key text sl tl o, m)) as Hm.
      { apply (NoDup_keys_unique idx2); [done|done|by apply get_elem_of|done]. }
      injection Hm as ->. unfold m, FileCache.timestamp_of in Hexp. cbn in Hexp. congruence.
  - cbn [FileCache.dir]. by rewrite Hr'.
Qed.

Lemma file_entry_survives_restart_witness :
  let self := snd (FileCache.init ".translation_cache" 10000 3600 0
                     (MkDisk ∅ IndexMissing true true)) in
  let stored := snd (FileCache.set self 100 "hello" "en" "fr" "bonjour" []) in
  let reopened :=
    snd (FileCache.init ".translation_cache" 500 7200 200 (FileCache.dir stored)) in
  (writable (FileCache.dir self) = true ∧
   readable (FileCache.dir self) = true ∧
   NoDup (PyDict.keys (FileCache._index self)) ∧
   (FileCache.max_size self ≤ PyDict.len (FileCache._index self) ->
    FileCache._index self ≠ []) ∧
   _is_expired 7200 200 100 = false ∧ _is_expired 7200 300 100 = false) ∧
  fst (FileCache.get reopened 300 "hello" "en" "fr" []) = Returns (Some "bonjour").
Proof.
  cbv zeta.
  assert (NoDup (PyDict.keys (FileCache._index
            (snd (FileCache.init ".translation_cache" 10000 3600 0
                    (MkDisk ∅ IndexMissing true true)))))) as Hnd
    by (apply (bool_decide_unpack _); by vm_compute).
  assert (FileCache.max_size (snd (FileCache.init ".translation_cache" 10000 3600 0
                    (MkDisk ∅ IndexMissing true true)))
          ≤ PyDict.len (FileCache._index (snd (FileCache.init ".translation_cache" 10000 3600 0
                    (MkDisk ∅ IndexMissing true true)))) ->
          FileCache._index (snd (FileCache.init ".translation_cache" 10000 3600 0
                    (MkDisk ∅ IndexMissing true true))) ≠ []) as Hne
    by (by vm_compute).
  split; [by split_and!|].
  apply (file_entry_survives_restart
           (snd (FileCache.init ".translation_cache" 10000 3600 0
                   (MkDisk ∅ IndexMissing true true)))
           100 200 300 "hello" "en" "fr" "bonjour" [] ".translation_cache" 500 7200
           eq_refl eq_refl Hnd Hne eq_refl eq_refl).
Defined.

(** X8: a row written by [SQLiteCache.set] is found by a store opened
    later on the same database, as long as it is not expired for that
    store: [get] returns the value that was set. *)
Theorem sqlite_entry_survives_restart (self : SQLiteCache.t) (now now1 now2 : Z)
    (text sl tl v : string) (o : PyDict.t pyval)
    (db_path' : string) (max_size' ttl' : Z) :
  db_writable (SQLiteCache.db self) = true ->
  _is_expired ttl' now1 now = false ->
  _is_expired ttl' now2 now = false ->
  let stored := snd (SQLiteCache.set self now text sl tl v o) in
  let reopened :=
    snd (SQLiteCache.init db_path' max_size' ttl' now1 (SQLiteCache.db stored)) in
  fst (SQLiteCache.get reopened now2 text sl tl o) = Returns (Some v).
Proof.
  intros Hw Hexp1 Hexp2. cbv zeta.
  rewrite sqlite_set_writable by done. cbn [snd SQLiteCache.db].
  unfold SQLiteCache.init, SQLiteCache._cleanup_expired, Sql.delete_where.
  cbn [db_writable SQLiteCache.db rows snd SQLiteCache.ttl SQLiteCache.max_size
       SQLiteCache.stats_attr SQLiteCache.db_path].
  rewrite (sqlite_get_hit _ _ _ _ _ _ (new_row now text sl tl v o)); [done| |].
  - unfold Sql.select_by_key.
    cbn [SQLiteCache.db rows].
    assert ((timestamp (new_row now text sl tl v o) <? now1 - ttl') = false) as Hts.
    { unfold new_row. cbn [timestamp]. unfold _is_expired in Hexp1.
      destruct (Z.ltb_spec now (now1 - ttl')); [|done].
      destruct (Z.ltb_spec ttl' (now1 - now)); [done|lia]. }
    rewrite !filter_app.
    rewrite (filter_nothing (fun r => cache_key r = _) (filter _ (filter _ _))).
    + rewrite (filter_cons_True _ (new_row now text sl tl v o)) by done.
      by rewrite (filter_cons_True _ (new_row now text sl tl v o)).
    + intros r [_ [Hr _]%list_elem_of_filter]%list_elem_of_filter. done.
  - unfold new_row. cbn [timestamp SQLiteCache.ttl]. exact Hexp2.
Qed.

Lemma sqlite_entry_survives_restart_witness :
  let self := SQLiteCache.Mk 10000 3600 CacheStats_init "cache.db" (MkDb [] true) in
  let stored := snd (SQLiteCache.set self 100 "hello" "en" "fr" "bonjour" []) in
  let reopened :=
    snd (SQLiteCache.init "cache.db" 500 7200 200 (SQLiteCache.db stored)) in
  (db_writable (SQLiteCache.db self) = true ∧
   _is_expired 7200 200 100 = false ∧ _is_expired 7200 300 100 = false) ∧
  fst (SQLiteCache.get reopened 300 "hello" "en" "fr" []) = Returns (Some "bonjour").
Proof.
  cbv zeta. split; [by split_and!|].
  apply (sqlite_entry_survives_restart
           (SQLiteCache.Mk 10000 3600 CacheStats_init "cache.db" (MkDb [] true))
           100 200 300 "hello" "en" "fr" "bonjour" [] "cache.db" 500 7200
           eq_refl eq_refl eq_refl).
Defined.

(* ===================================================================== *)
(** * Which entry a full store evicts                                     *)
(* ===================================================================== *)

Section Eviction.

(** The head of [sorted_by f l] is the first element of [l] with the
    smallest key: the sort is stable. *)
Lemma sorted_by_head {A} (f : A -> Z) (l : list A) (x : A) (rest : list A) :
  sorted_by f l = x :: rest ->
  ∃ l1 l2, l = l1 ++ x :: l2 ∧
           (∀ y, y ∈ l1 -> f x < f y) ∧ (∀ y, y ∈ l2 -> f x ≤ f y).
Proof.
  revert x rest. induction l as [|a l IH]; intros x rest; [done|].
  simpl. destruct (sorted_by f l) as [|x' rest'] eqn:Hs.
  - apply (f_equal length) in Hs. rewrite length_sorted_by in Hs.
    destruct l; [|done]. simpl. intros [= <- <-].
    exists [], []. split_and!; [done|..]; by intros y ?%elem_of_nil.
  - destruct (IH x' rest' eq_refl) as (l1 & l2 & -> & H1 & H2).
    simpl. destruct (Z.leb_spec (f a) (f x')) as [Hle|Hgt].
    + intros [= <- <-]. exists [], (l1 ++ x' :: l2).
      split_and!; [done|by intros y ?%elem_of_nil|].
      intros y [Hy|[->|Hy]%elem_of_cons]%elem_of_app.
      * specialize (H1 y Hy). lia.
      * done.
      * specialize (H2 y Hy). lia.
    + intros [= <- <-]. exists (a :: l1), l2.
      split_and!; [done| |done].
      intros y [->|Hy]%elem_of_cons; [lia|by apply H1].
Qed.

Lemma sorted_by_head_min {A} (f : A -> Z) (l : list A) (x : A) (rest : list A) :
  sorted_by f l = x :: rest -> x ∈ l ∧ ∀ y, y ∈ l -> f x ≤ f y.
Proof.
  intros (l1 & l2 & -> & H1 & H2)%sorted_by_head. split.
  - apply elem_of_app. right. apply list_elem_of_here.
  - intros y [Hy|[->|Hy]%elem_of_cons]%elem_of_app.
    + specialize (H1 y Hy). lia.
    + done.
    + by apply H2.
Qed.

Lemma elem_of_get {V} (d : PyDict.t V) (k : string) (v : V) :
  NoDup (PyDict.keys d) -> (k, v) ∈ d -> PyDict.get d k = Some v.
Proof.
  induction d as [|[k0 v0] d IH]; simpl.
  - by intros _ ?%elem_of_nil.
  - intros [Hnin Hnd]%NoDup_cons [[= -> ->]|Hin]%elem_of_cons.
    + by rewrite decide_True.
    + rewrite decide_False; [by apply IH|].
      intros ->. apply Hnin. unfold PyDict.keys.
      apply list_elem_of_fmap. by exists (k, v).
Qed.

End Eviction.

(** X9: [MemoryCache.set] on a store within its capacity.  Writing a key
    that is stored replaces its entry and evicts nothing; writing a new
    key into a full store evicts the first entry of the dictionary, the
    least recently used one, and no other; with room left nothing is
    evicted.  In every case the written entry becomes the last one. *)
Theorem memory_set_evicts_least_recent (self : MemoryCache.t) (now : Z)
    (text sl tl v : string) (o : PyDict.t pyval) :
  1 ≤ MemoryCache.max_size self ->
  PyDict.len (MemoryCache._cache self) ≤ MemoryCache.max_size self ->
  NoDup (PyDict.keys (MemoryCache._cache self)) ->
  let key := generate_cache_key text sl tl o in
  let d := MemoryCache._cache self in
  MemoryCache._cache (snd (MemoryCache.set self now text sl tl v o)) =
  (if bool_decide (key ∈ PyDict.keys d) then PyDict.del d key
   else if bool_decide (PyDict.len d = MemoryCache.max_size self) then tail d
   else d) ++ [(key, (v, now))].
Proof.
  intros Hm Hcap Hnd. cbv zeta. rewrite memory_set_spec by done.
  cbv zeta. cbn [snd MemoryCache._cache].
  generalize (generate_cache_key text sl tl o). intros key.
  unfold PyDict.len in *. f_equal.
  case_bool_decide as Hin.
  - pose proof (length_del_NoDup _ key Hnd Hin) as Hlen.
    replace (_ - _)%nat with 0%nat by lia. done.
  - rewrite del_absent by done. case_bool_decide as Hfull.
    + replace (_ - _)%nat with 1%nat by lia.
      by destruct (MemoryCache._cache self).
    + replace (_ - _)%nat with 0%nat by lia. done.
Qed.

Lemma memory_set_evicts_least_recent_witness :
  let self :=
    MemoryCache.Mk 2 3600 CacheStats_init
      [("k1", ("un", 10)); ("k2", ("deux", 20))] in
  (1 ≤ MemoryCache.max_size self ∧
   PyDict.len (MemoryCache._cache self) ≤ MemoryCache.max_size self ∧
   NoDup (PyDict.keys (MemoryCache._cache self))) ∧
  PyDict.keys (MemoryCache._cache
                 (snd (MemoryCache.set self 30 "hello" "en" "fr" "bonjour" [])))
  = ["k2"; generate_cache_key "hello" "en" "fr" []].
Proof.
  cbv zeta.
  assert (NoDup (PyDict.keys (MemoryCache._cache
            (MemoryCache.Mk 2 3600 CacheStats_init
               [("k1", ("un", 10)); ("k2", ("deux", 20))])))) as Hnd
    by (apply (bool_decide_unpack _); by vm_compute).
  split; [split_and!; [by vm_compute|by vm_compute|exact Hnd]|].
  rewrite (memory_set_evicts_least_recent
             (MemoryCache.Mk 2 3600 CacheStats_init
                [("k1", ("un", 10)); ("k2", ("deux", 20))])
             30 "hello" "en" "fr" "bonjour" []
             ltac:(by vm_compute) ltac:(by vm_compute) Hnd).
  by vm_compute.
Defined.

Section Eviction2.

Lemma del_middle {V} (before after : PyDict.t V) (k : string) (v : V) :
  NoDup (PyDict.keys (before ++ (k, v) :: after)) ->
  PyDict.del (before ++ (k, v) :: after) k = before ++ after.
Proof.
  induction before as [|[k0 v0] before IH]; simpl.
  - intros [Hnin _]%NoDup_cons. rewrite decide_True by done.
    by apply del_absent.
  - intros [Hnin Hnd]%NoDup_cons. rewrite decide_False.
    + by rewrite IH.
    + intros ->. apply Hnin. unfold PyDict.keys. rewrite map_app.
      apply elem_of_app. right. apply list_elem_of_here.
Qed.

(** [FileCache.set] on a full store with an entry to evict. *)
Lemma file_set_evicts_nonempty (self : FileCache.t) (now : Z)
    (text sl tl v : string) (o : PyDict.t pyval) :
  writable (FileCache.dir self) = true ->
  FileCache.max_size self ≤ PyDict.len (FileCache._index self) ->
  FileCache._index self ≠ [] ->
  NoDup (PyDict.keys (FileCache._index self)) ->
  let key := generate_cache_key text sl tl o in
  let r := FileCache.set self now text sl tl v o in
  ∃ k0 m0 before after,
    FileCache._index self = before ++ (k0, m0) :: after ∧
    (∀ kv, kv ∈ before ->
           FileCache.timestamp_of m0 < FileCache.timestamp_of (snd kv)) ∧
    (∀ kv, kv ∈ after ->
           FileCache.timestamp_of m0 ≤ FileCache.timestamp_of (snd kv)) ∧
    fst r = Returns tt ∧
    FileCache._index (snd r) =
      PyDict.set (before ++ after) key (MkMeta (Some now) (Some sl) (Some tl)) ∧
    (k0 ≠ key -> TranslationCache.holds (File (snd r)) k0 = false) ∧
    (key ∈ PyDict.keys (before ++ after) ->
     PyDict.len (FileCache._index (snd r)) = PyDict.len (FileCache._index self) - 1).
Proof.
  intros Hw Hfull Hne Hnd. cbv zeta. unfold FileCache.set. cbv zeta.
  generalize (generate_cache_key text sl tl o). intros key.
  rewrite (proj2 (Z.leb_le _ _) Hfull). unfold FileCache.evict_oldest.
  destruct (sorted_by _ (FileCache._index self)) as [|[k0 m0] rest] eqn:Hs.
  { apply (f_equal length) in Hs. rewrite length_sorted_by in Hs.
    by destruct (FileCache._index self). }
  destruct (sorted_by_head _ _ _ _ Hs) as (before & after & Hidx & Hb & Ha).
  exists k0, m0, before, after.
  rewrite remove_file_writable by done.
  unfold Fs.write_text, FileCache._save_index. cbn [writable]. rewrite Hw.
  cbn [fst snd FileCache._index FileCache.dir writable files].
  assert (PyDict.del (FileCache._index self) k0 = before ++ after) as Hdel.
  { rewrite Hidx. apply del_middle. by rewrite <- Hidx. }
  rewrite Hdel. split_and!; [done..| |].
  - intros Hk0. cbn [TranslationCache.holds FileCache._index FileCache.dir].
    apply orb_false_intro.
    + unfold PyDict.mem. rewrite get_set_ne by done.
      rewrite <- Hdel. by rewrite get_del_eq.
    + unfold Fs.exists_. cbn [files].
      rewrite lookup_insert_ne.
      * rewrite lookup_delete_eq. apply bool_decide_false. by intros [? ?].
      * intros Heq. apply Hk0. symmetry. by apply append_inv_tail in Heq.
  - intros Hin. unfold PyDict.len.
    rewrite <- !length_keys, keys_set_present by done.
    rewrite Hidx. unfold PyDict.keys. rewrite !length_map, !length_app.
    simpl. lia.
Qed.

(** [SQLiteCache.set] on a full table with a row to delete. *)
Lemma sqlite_set_evicts_nonempty (self : SQLiteCache.t) (now : Z)
    (text sl tl v : string) (o : PyDict.t pyval) :
  db_writable (SQLiteCache.db self) = true ->
  SQLiteCache.max_size self ≤ Sql.count (SQLiteCache.db self) ->
  rows (SQLiteCache.db self) ≠ [] ->
  let key := generate_cache_key text sl tl o in
  let r := SQLiteCache.set self now text sl tl v o in
  ∃ r0, r0 ∈ rows (SQLiteCache.db self) ∧
    (∀ r', r' ∈ rows (SQLiteCache.db self) -> timestamp r0 ≤ timestamp r') ∧
    fst r = Returns tt ∧
    rows (SQLiteCache.db (snd r)) =
      filter (fun r' => cache_key r' ≠ key)
             (filter (fun r' => cache_key r' ≠ cache_key r0)
                     (rows (SQLiteCache.db self)))
      ++ [new_row now text sl tl v o] ∧
    (cache_key r0 ≠ key ->
     TranslationCache.holds (SQLite (snd r)) (cache_key r0) = false) ∧
    Sql.count (SQLiteCache.db (snd r)) ≤ Sql.count (SQLiteCache.db self) ∧
    total_entries (SQLiteCache.stats_attr (snd r))
      = Sql.count (SQLiteCache.db self) + 1.
Proof.
  intros Hw Hfull Hne. cbv zeta. rewrite sqlite_set_writable by done.
  cbn [fst snd SQLiteCache.db SQLiteCache.stats_attr rows total_entries set_total].
  unfold after_eviction. rewrite (proj2 (Z.leb_le _ _) Hfull).
  unfold Sql.oldest_key.
  destruct (sorted_by timestamp (rows (SQLiteCache.db self))) as [|r0 rest] eqn:Hs.
  { apply (f_equal length) in Hs. rewrite length_sorted_by in Hs.
    by destruct (rows (SQLiteCache.db self)). }
  destruct (sorted_by_head_min _ _ _ _ Hs) as [Hin Hmin].
  exists r0. cbn [fmap option_fmap option_map head].
  assert (filter (fun r : row =>
                    bool_decide (Some (cache_key r) = Some (cache_key r0)) = false)
                 (rows (SQLiteCache.db self))
          = filter (fun r' => cache_key r' ≠ cache_key r0)
                   (rows (SQLiteCache.db self))) as ->.
  { apply list_filter_iff. intros r. rewrite bool_decide_eq_false.
    split; intros H1 H2; apply H1; congruence. }
  split_and!; [done..| | |done].
  - intros Hk0. cbn [TranslationCache.holds SQLiteCache.db rows].
    apply bool_decide_false. rewrite map_app.
    intros [Hin'|Hin']%elem_of_app.
    + apply list_elem_of_fmap in Hin'
        as (r' & Heq & [_ [Hr' _]%list_elem_of_filter]%list_elem_of_filter).
      congruence.
    + simpl in Hin'. apply list_elem_of_singleton in Hin'. done.
  - unfold Sql.count. cbn [rows]. rewrite length_app. simpl.
    pose proof (length_filter_key_lt (rows (SQLiteCache.db self)) (cache_key r0)
                  ltac:(apply list_elem_of_fmap; by exists r0)) as Hlt.
    pose proof (length_filter (fun r' => cache_key r' ≠ generate_cache_key text sl tl o)
                  (filter (fun r' => cache_key r' ≠ cache_key r0)
                          (rows (SQLiteCache.db self)))) as Hle.
    lia.
Qed.

End Eviction2.

(** X10: [FileCache.set] on a full store ([len(self._index) >= max_size])
    that takes modifications.  When the index is empty (so [max_size] is
    zero or negative) there is no oldest item: [set] raises [IndexError]
    and changes nothing.  Otherwise it evicts the entry with the smallest
    time stamp, the first one of the index among equals, before it
    writes, also when the key that is written is already stored:
    overwriting an entry other than the evicted one leaves the store one
    entry smaller. *)
Theorem file_set_evicts_oldest (self : FileCache.t) (now : Z)
    (text sl tl v : string) (o : PyDict.t pyval) :
  writable (FileCache.dir self) = true ->
  FileCache.max_size self ≤ PyDict.len (FileCache._index self) ->
  NoDup (PyDict.keys (FileCache._index self)) ->
  let key := generate_cache_key text sl tl o in
  let r := FileCache.set self now text sl tl v o in
  match FileCache._index self with
  | [] => r = (Raises IndexError, self)
  | _ :: _ =>
    ∃ k0 m0 before after,
      FileCache._index self = before ++ (k0, m0) :: after ∧
      (∀ kv, kv ∈ before ->
             FileCache.timestamp_of m0 < FileCache.timestamp_of (snd kv)) ∧
      (∀ kv, kv ∈ after ->
             FileCache.timestamp_of m0 ≤ FileCache.timestamp_of (snd kv)) ∧
      fst r = Returns tt ∧
      FileCache._index (snd r) =
        PyDict.set (before ++ after) key (MkMeta (Some now) (Some sl) (Some tl)) ∧
      (k0 ≠ key -> TranslationCache.holds (File (snd r)) k0 = false) ∧
      (key ∈ PyDict.keys (before ++ after) ->
       PyDict.len (FileCache._index (snd r))
       = PyDict.len (FileCache._index self) - 1)
  end.
Proof.
  intros Hw Hfull Hnd. cbv zeta.
  pose proof (file_set_evicts_nonempty self now text sl tl v o Hw Hfull) as Hgen.
  cbv zeta in Hgen.
  destruct (FileCache._index self) as [|kv idx] eqn:Hidx.
  - clear Hgen. unfold FileCache.set. cbv zeta.
    rewrite Hidx, (proj2 (Z.leb_le _ _) Hfull), evict_oldest_empty.
    destruct self. simpl in Hidx. by rewrite Hidx.
  - by apply Hgen.
Qed.

Lemma file_set_evicts_oldest_witness :
  let idx := [("k1", MkMeta (Some 30) (Some "en") (Some "fr"));
              ("k2", MkMeta (Some 10) (Some "en") (Some "de"));
              ("k3", MkMeta (Some 10) (Some "en") (Some "es"))] in
  let self :=
    FileCache.Mk 3 3600 CacheStats_init ".translation_cache" idx
      (MkDisk {[ "k1.txt" := "un"; "k2.txt" := "zwei"; "k3.txt" := "tres" ]}
              (IndexSaved idx) true true) in
  (writable (FileCache.dir self) = true ∧
   FileCache.max_size self ≤ PyDict.len (FileCache._index self) ∧
   NoDup (PyDict.keys (FileCache._index self))) ∧
  ∃ k0 m0 before after,
    idx = before ++ (k0, m0) :: after ∧
    PyDict.keys (FileCache._index
                   (snd (FileCache.set self 40 "hello" "en" "fr" "bonjour" [])))
    = PyDict.keys (before ++ after) ++ [generate_cache_key "hello" "en" "fr" []].
Proof.
  intros idx self.
  assert (NoDup (PyDict.keys (FileCache._index self))) as Hnd
    by (apply (bool_decide_unpack _); by vm_compute).
  assert (FileCache.max_size self ≤ PyDict.len (FileCache._index self)) as Hfull
    by (by vm_compute).
  split; [by split_and!|].
  pose proof (file_set_evicts_oldest self 40 "hello" "en" "fr" "bonjour" []
                eq_refl Hfull Hnd) as H.
  cbv zeta in H. change (FileCache._index self) with idx in H at 1.
  unfold idx at 1 in H. cbv iota in H.
  destruct H as (k0 & m0 & before & after & Hidx & _ & _ & _ & Hset & _).
  exists k0, m0, before, after. split; [exact Hidx|].
  rewrite Hset. apply keys_set_absent.
  intros Hin.
  assert (generate_cache_key "hello" "en" "fr" [] ∈ PyDict.keys idx) as Hin'.
  { change idx with (FileCache._index self). rewrite Hidx.
    unfold PyDict.keys in *. rewrite map_app in *.
    apply elem_of_app in Hin as [Hin|Hin]; apply elem_of_app; [by left|right].
    by apply list_elem_of_further. }
  revert Hin'. apply (bool_decide_unpack _). by vm_compute.
Defined.

(** The store of [FileCache.set] that has nothing to evict: full and
    empty. *)
Example file_set_full_and_empty :
  let self :=
    FileCache.Mk 0 3600 CacheStats_init ".translation_cache" []
      (MkDisk ∅ IndexMissing true true) in
  FileCache.set self 40 "hello" "en" "fr" "bonjour" [] = (Raises IndexError, self).
Proof. by vm_compute. Qed.

(** X11: [SQLiteCache.set] on a full database ([count >= max_size]) that
    takes writes.  When the table has a row, it deletes a row with the
    smallest time stamp before it inserts, also when the key that is
    written is already stored, and it records the number of rows counted
    before the deletion plus one as [total_entries], which is more than
    the number of rows it leaves.  When the table is empty (so [max_size]
    is zero or negative) nothing is deleted, the row is inserted, and
    [total_entries] is 1, the number of rows. *)
Theorem sqlite_set_evicts_oldest (self : SQLiteCache.t) (now : Z)
    (text sl tl v : string) (o : PyDict.t pyval) :
  db_writable (SQLiteCache.db self) = true ->
  SQLiteCache.max_size self ≤ Sql.count (SQLiteCache.db self) ->
  let key := generate_cache_key text sl tl o in
  let r := SQLiteCache.set self now text sl tl v o in
  match rows (SQLiteCache.db self) with
  | [] =>
    fst r = Returns tt ∧
    rows (SQLiteCache.db (snd r)) = [new_row now text sl tl v o] ∧
    total_entries (SQLiteCache.stats_attr (snd r)) = 1 ∧
    Sql.count (SQLiteCache.db (snd r)) = 1
  | _ :: _ =>
    ∃ r0, r0 ∈ rows (SQLiteCache.db self) ∧
      (∀ r', r' ∈ rows (SQLiteCache.db self) -> timestamp r0 ≤ timestamp r') ∧
      fst r = Returns tt ∧
      rows (SQLiteCache.db (snd r)) =
        filter (fun r' => cache_key r' ≠ key)
               (filter (fun r' => cache_key r' ≠ cache_key r0)
                       (rows (SQLiteCache.db self)))
        ++ [new_row now text sl tl v o] ∧
      (cache_key r0 ≠ key ->
       TranslationCache.holds (SQLite (snd r)) (cache_key r0) = false) ∧
      Sql.count (SQLiteCache.db (snd r)) ≤ Sql.count (SQLiteCache.db self) ∧
      total_entries (SQLiteCache.stats_attr (snd r))
        = Sql.count (SQLiteCache.db self) + 1
  end.
Proof.
  intros Hw Hfull. cbv zeta.
  pose proof (sqlite_set_evicts_nonempty self now text sl tl v o Hw Hfull) as Hgen.
  cbv zeta in Hgen.
  destruct (rows (SQLiteCache.db self)) as [|r1 rs] eqn:Hrows.
  - clear Hgen. rewrite sqlite_set_writable by done.
    cbn [fst snd SQLiteCache.db SQLiteCache.stats_attr rows total_entries set_total].
    unfold after_eviction, Sql.count. rewrite Hrows.
    by destruct (SQLiteCache.max_size self <=? _).
  - by apply Hgen.
Qed.

Lemma sqlite_set_evicts_oldest_witness :
  let self :=
    SQLiteCache.Mk 2 3600 CacheStats_init "cache.db"
      (MkDb [MkRow "k1" "one" "un" "en" "fr" 30 None;
             MkRow "k2" "two" "zwei" "en" "de" 10 None] true) in
  (db_writable (SQLiteCache.db self) = true ∧
   SQLiteCache.max_size self ≤ Sql.count (SQLiteCache.db self)) ∧
  total_entries (SQLiteCache.stats_attr
                   (snd (SQLiteCache.set self 40 "hello" "en" "fr" "bonjour" [])))
  = 3 ∧
  Sql.count (SQLiteCache.db
               (snd (SQLiteCache.set self 40 "hello" "en" "fr" "bonjour" []))) ≤ 2.
Proof.
  intros self.
  assert (SQLiteCache.max_size self ≤ Sql.count (SQLiteCache.db self)) as Hfull
    by (by vm_compute).
  split; [by split_and!|].
  pose proof (sqlite_set_evicts_oldest self 40 "hello" "en" "fr" "bonjour" []
                eq_refl Hfull) as H.
  cbv zeta in H.
  destruct H as (r0 & _ & _ & _ & _ & _ & Hcount & Htotal).
  split; [exact Htotal|exact Hcount].
Defined.

(** The table of [SQLiteCache.set] that has nothing to delete: full and
    empty. *)
Example sqlite_set_full_and_empty :
  let self := SQLiteCache.Mk 0 3600 CacheStats_init "cache.db" (MkDb [] true) in
  let r := SQLiteCache.set self 40 "hello" "en" "fr" "bonjour" [] in
  fst r = Returns tt ∧
  total_entries (SQLiteCache.stats_attr (snd r)) = 1 ∧
  Sql.count (SQLiteCache.db (snd r)) = 1.
Proof. by vm_compute. Qed.

(* ===================================================================== *)
(** * The index file follows the index                                    *)
(* ===================================================================== *)

Section Persisted.






End Persisted.



(* ===================================================================== *)
(** * utils.py: chunk_texts                                               *)
(* ===================================================================== *)

Section Chunks.
Context {A : Type}.

(** The chunks of [c] items, as the loop of [chunk_texts] cuts them. *)
Lemma concat_chunks (c k : nat) (l : list A) :
  concat (map (fun i => take c (drop (i * c) l)) (seq 0 k)) = take (k * c) l.
Proof.
  induction k as [|k IH]; [done|].
  rewrite seq_S, map_app, concat_app, IH. simpl. rewrite app_nil_r.
  rewrite take_take_drop. f_equal. lia.
Qed.

Lemma slice_chunk (l : list A) (c i : Z) :
  1 ≤ c -> 0 ≤ i -> i < Z.of_nat (length l) ->
  slice l i (i + c) = take (Z.to_nat c) (drop (Z.to_nat i) l).
Proof.
  intros Hc Hi Hlt. unfold slice, adjust_index. cbv zeta.
  rewrite !(proj2 (Z.ltb_ge _ _)) by lia.
  rewrite (Z.min_l i) by lia.
  destruct (Z.le_gt_cases (i + c) (Z.of_nat (length l))) as [Hle|Hgt].
  - rewrite Z.min_l by lia. f_equal. lia.
  - rewrite Z.min_r by lia.
    rewrite !take_ge; [done|rewrite length_drop; lia..].
Qed.

End Chunks.

(** X13: for a chunk size of one at least, [chunk_texts] returns chunks
    whose concatenation is the list of texts: no text is lost, repeated
    or moved.  No chunk is empty or longer than the chunk size, and there
    are as many chunks as the size requires. *)
Theorem chunk_texts_partitions (texts : list string) (chunk_size : Z) :
  1 ≤ chunk_size ->
  ∃ chunks,
    chunk_texts texts chunk_size = Ok chunks ∧
    concat chunks = texts ∧
    Forall (fun chunk => chunk ≠ [] ∧ Z.of_nat (length chunk) ≤ chunk_size) chunks ∧
    Z.of_nat (length chunks) = (Z.of_nat (length texts) + chunk_size - 1) / chunk_size.
Proof.
  intros Hc. destruct texts as [|t texts'] eqn:Ht.
  { exists []. split_and!; [done..|]. simpl.
    symmetry. apply Z.div_small. lia. }
  rewrite <- Ht. assert (0 < Z.of_nat (length texts)) as Hn by (subst; simpl; lia).
  clear Ht. unfold chunk_texts.
  destruct texts as [|t0 ts] eqn:Ht; [simpl in Hn; lia|]. rewrite <- Ht in *. clear Ht.
  unfold range, range_len.
  rewrite (proj2 (Z.eqb_neq _ _)) by lia.
  rewrite (proj2 (Z.ltb_lt 0 chunk_size)) by lia.
  rewrite (proj2 (Z.ltb_lt 0 _) Hn).
  set (n := Z.of_nat (length texts)) in *.
  set (k := Z.to_nat ((n - 0 - 1) / chunk_size + 1)).
  assert (0 ≤ (n - 0 - 1) / chunk_size) as Hq by (apply Z.div_pos; lia).
  pose proof (Z.div_mod (n - 0 - 1) chunk_size ltac:(lia)) as Hdm.
  pose proof (Z.mod_pos_bound (n - 0 - 1) chunk_size ltac:(lia)) as Hmod.
  assert (map (fun i => slice texts i (i + chunk_size))
              (map (fun i : nat => 0 + Z.of_nat i * chunk_size) (seq 0 k))
          = map (fun i : nat => take (Z.to_nat chunk_size)
                                     (drop (i * Z.to_nat chunk_size) texts))
                (seq 0 k)) as Hchunks.
  { rewrite map_map. apply map_ext_in. intros i Hi%in_seq.
    assert (Z.of_nat i ≤ (n - 0 - 1) / chunk_size) as Hi' by lia.
    rewrite slice_chunk; [|lia|nia|fold n; nia].
    do 2 f_equal. nia. }
  eexists. split; [reflexivity|]. rewrite Hchunks. split_and!.
  - rewrite concat_chunks. apply take_ge. fold n in Hn |- *. nia.
  - apply Forall_forall. intros chunk (i & -> & Hi%elem_of_seq)%list_elem_of_fmap.
    assert (Z.of_nat i ≤ (n - 0 - 1) / chunk_size) as Hi' by lia.
    split.
    + intros Hnil. apply (f_equal length) in Hnil.
      rewrite length_take, length_drop in Hnil. simpl in Hnil.
      fold n in Hn. assert (Z.of_nat (length texts) = n) as Hlen by done. nia.
    + rewrite length_take. lia.
  - rewrite length_map, length_seq. unfold k.
    rewrite Z2Nat.id by lia.
    replace (n + chunk_size - 1) with ((n - 0 - 1) + 1 * chunk_size) by lia.
    rewrite Z.div_add by lia. done.
Qed.

Lemma chunk_texts_partitions_witness :
  1 ≤ 2 ∧
  ∃ chunks, chunk_texts ["a"; "b"; "c"; "d"; "e"] 2 = Ok chunks ∧
            concat chunks = ["a"; "b"; "c"; "d"; "e"].
Proof.
  split; [lia|].
  destruct (chunk_texts_partitions ["a"; "b"; "c"; "d"; "e"] 2 ltac:(lia))
    as (chunks & H1 & H2 & _).
  by exists chunks.
Defined.

(** X14: a chunk size that is not positive.  On a list that is not
    empty, [chunk_texts] raises [ValueError] for the size 0 (the step of
    its [range]) and returns no chunk at all for a negative size: every
    text is dropped without an error. *)
Theorem chunk_texts_nonpositive_size (texts : list string) (chunk_size : Z) :
  texts ≠ [] -> chunk_size ≤ 0 ->
  chunk_texts texts chunk_size =
  if chunk_size =? 0 then Fail ValueError else Ok [].
Proof.
  intros Hne Hc. destruct texts as [|t ts]; [done|].
  unfold chunk_texts, range, range_len.
  destruct (Z.eqb_spec chunk_size 0) as [->|Hnz]; [done|].
  rewrite (proj2 (Z.ltb_ge 0 chunk_size)) by lia.
  rewrite (proj2 (Z.ltb_ge _ 0)) by lia. done.
Qed.

Lemma chunk_texts_nonpositive_size_witness :
  (["a"; "b"; "c"] ≠ [] ∧ -1 ≤ 0) ∧
  chunk_texts ["a"; "b"; "c"] (-1) = Ok [].
Proof.
  split; [split; [done|lia]|].
  exact (chunk_texts_nonpositive_size ["a"; "b"; "c"] (-1) ltac:(done) ltac:(lia)).
Defined.

(* ===================================================================== *)
(** * The cache as the translator uses it                                 *)
(* ===================================================================== *)

Section CacheUse.





End CacheUse.

(* ===================================================================== *)
(** * Translator.translate                                                *)
(* ===================================================================== *)

Section Translate.
Context {St : Type}.
Implicit Types (self : Translator.t St).

Lemma with_state_same self :
  Translator.with_state self (Translator.service self) (Translator.cache self) = self.
Proof. by destruct self. Qed.


(** [translate] on a text that is not blank, with codes that pass the
    validation. *)
Lemma translate_valid self (t_get t_set : Z) (text source target : string)
    (use_cache : bool) (o : PyDict.t pyval) :
  Translator.blank text = false ->
  source = "auto" ∨ validate_language_code source = true ->
  validate_language_code target = true ->
  Translator.translate self t_get t_set text (Some source) (Some target) use_cache o =
  let name := TranslationProvider.name (Translator.provider self) in
  let processed_text := preprocess_text text in
  match (if use_cache
         then TranslationCache.get (Translator.cache self) t_get processed_text
                source target o
         else (Returns None, Translator.cache self)) with
  | (Raises e, cache1) =>
      (Fail (Builtin e), Translator.with_state self (Translator.service self) cache1)
  | (Returns (Some cached_result), cache1) =>
      (Ok (TranslationResult.make cached_result source target true name),
       Translator.with_state self (Translator.service self) cache1)
  | (Returns None, cache1) =>
      match (if bool_decide (source = "auto") then
               match TranslationProvider.detect_language (Translator.provider self)
                       (Translator.service self) processed_text with
               | (Ok detection, service1) =>
                   (Ok (default "en" (language detection)), service1)
               | (Fail e, service1) => (Fail e, service1)
               end
             else (Ok source, Translator.service self)) with
      | (Fail e, service1) => (Fail e, Translator.with_state self service1 cache1)
      | (Ok source, service1) =>
          match TranslationProvider.translate (Translator.provider self) service1
                  processed_text source target o with
          | (Fail e, service2) => (Fail e, Translator.with_state self service2 cache1)
          | (Ok result, service2) =>
              (Ok result,
               Translator.with_state self service2
                 (if use_cache
                  then snd (TranslationCache.set cache1 t_set processed_text
                              source target (TranslationResult.text result) o)
                  else cache1))
          end
      end
  end.
Proof.
  intros Hb Hs Ht. unfold Translator.translate. rewrite Hb.
  cbn [default from_option id]. rewrite Ht. cbn [negb].
  assert (negb (bool_decide (source = "auto")) && negb (validate_language_code source)
          = false) as ->.
  { destruct Hs as [Hs|Hs]; rewrite Hs; [done|]. apply andb_false_r. }
  reflexivity.
Qed.


End Translate.





(** X17: a failing cache read aborts the translation.  When the cache
    holds an expired entry for the request and its medium refuses the
    removal (for the file backend: of the backing file, which exists),
    [translate] raises the exception of [cache.get] and never reaches
    the provider, although a failing [cache.set] is ignored. *)
Theorem translate_raises_on_cache_read_failure {St : Type}
    (self : Translator.t St) (t_get t_set : Z) (text source target : string)
    (o : PyDict.t pyval) (ts : Z) :
  Translator.blank text = false ->
  source = "auto" ∨ validate_language_code source = true ->
  validate_language_code target = true ->
  let key := generate_cache_key (preprocess_text text) source target o in
  TranslationCache.entry_timestamp (Translator.cache self) key = Some ts ->
  _is_expired (TranslationCache.ttl (Translator.cache self)) t_get ts = true ->
  match Translator.cache self with
  | Memory _ => False
  | File c => writable (FileCache.dir c) = false ∧
              Fs.exists_ (FileCache.dir c) (FileCache._get_cache_file key) = true
  | SQLite c => db_writable (SQLiteCache.db c) = false
  end ->
  Translator.translate self t_get t_set text (Some source) (Some target) true o =
  (Fail (Builtin match Translator.cache self with
                 | File _ => OSError
                 | _ => OperationalError
                 end),
   self).
Proof.
  intros Hb Hvs Hvt. cbv zeta. intros Hts Hexp Hmedium.
  rewrite translate_valid by done. cbv zeta.
  unfold TranslationCache.get. rewrite call_get.
  destruct self as [p s b ds dt].
  cbn [Translator.cache Translator.service Translator.with_state
       Translator.provider Translator.default_source_lang
       Translator.default_target_lang] in *.
  destruct b as [c|c|c]; [done|..]; unfold TranslationCache.lift;
    cbn [TranslationCache.entry_timestamp TranslationCache.ttl] in *.
  - destruct Hmedium as [Hw Hex].
    unfold FileCache.get. cbv zeta.
    destruct (PyDict.get (FileCache._index c) _) as [m|]; [|done].
    injection Hts as <-. rewrite Hexp.
    unfold FileCache.remove_file. rewrite Hex. unfold Fs.unlink. rewrite Hw.
    done.
  - unfold SQLiteCache.get. cbv zeta.
    destruct (Sql.select_by_key (SQLiteCache.db c) _) as [r|]; [|done].
    injection Hts as <-. rewrite Hexp.
    unfold Sql.delete_where. rewrite Hmedium. done.
Qed.

Lemma translate_raises_on_cache_read_failure_witness :
  let key := generate_cache_key (preprocess_text "hello") "en" "fr" [] in
  let self :=
    Translator.init echo_provider 0%nat
      (Some (SQLite (SQLiteCache.Mk 10000 3600 CacheStats_init "cache.db"
                       (MkDb [MkRow key "hello" "bonjour" "en" "fr" 100 None] false))))
      "auto" "en" in
  (Translator.blank "hello" = false ∧
   ("en" = "auto" ∨ validate_language_code "en" = true) ∧
   validate_language_code "fr" = true ∧
   TranslationCache.entry_timestamp (Translator.cache self) key = Some 100 ∧
   _is_expired (TranslationCache.ttl (Translator.cache self)) 5000 100 = true ∧
   db_writable (MkDb [MkRow key "hello" "bonjour" "en" "fr" 100 None] false) = false) ∧
  Translator.translate self 5000 5001 "hello" (Some "en") (Some "fr") true [] =
  (Fail (Builtin OperationalError), self).
Proof.
  intros key self.
  assert (Translator.blank "hello" = false) as H1 by (by vm_compute).
  assert ("en" = "auto" ∨ validate_language_code "en" = true) as H2
    by (right; by vm_compute).
  assert (validate_language_code "fr" = true) as H3 by (by vm_compute).
  assert (TranslationCache.entry_timestamp (Translator.cache self) key = Some 100) as H4
    by (by vm_compute).
  assert (_is_expired (TranslationCache.ttl (Translator.cache self)) 5000 100 = true)
    as H5 by (by vm_compute).
  split; [by split_and!|].
  exact (translate_raises_on_cache_read_failure self 5000 5001 "hello" "en" "fr" [] 100
           H1 H2 H3 H4 H5 eq_refl).
Defined.

(* ===================================================================== *)
(** * Translator.translate_batch                                          *)
(* ===================================================================== *)

Section Batch.
Context {St : Type}.
Implicit Types (self : Translator.t St).

(** The first loop appends one result for every blank text. *)
Lemma check_cache_results (name source target : string) (o : PyDict.t pyval)
    (t_get : nat -> Z) (texts : list string) :
  ∀ (i : nat) (acc : Translator.lookups) (b : backend) found b',
    Translator.check_cache name source target o t_get i texts acc b = (Ok found, b') ->
    length (Translator.results found) =
    (length (Translator.results acc)
     + length (filter (fun text => Translator.blank text = true) texts))%nat.
Proof.
  induction texts as [|text texts IH]; intros i acc b found b'.
  - simpl. intros [= <- _]. lia.
  - cbn [Translator.check_cache].
    destruct (Translator.blank text) eqn:Hb.
    + rewrite filter_cons_True by done. intros H%IH. rewrite H.
      cbn [Translator.results]. rewrite length_app. simpl. lia.
    + rewrite filter_cons_False by (by rewrite Hb).
      destruct (TranslationCache.get b _ _ _ _ _) as [[[v|]|e] b1]; [| |done].
      * intros H%IH. by rewrite H.
      * intros H%IH. by rewrite H.
Qed.

(** The serial loop fills places of the list; it never grows it. *)
Lemma translate_each_length (texts : list string) (source target : string)
    (o : PyDict.t pyval) (indices : list nat) :
  ∀ self (rs0 rs : list (option TranslationResult.t)) self1,
    Translator.translate_each self texts source target o indices rs0 = (Ok rs, self1) ->
    length rs = length rs0.
Proof.
  induction indices as [|idx indices IH]; intros self rs0 rs self1.
  - simpl. by intros [= <- _].
  - cbn [Translator.translate_each].
    destruct (texts !! idx) as [text|]; [|done].
    destruct (Translator.translate _ _ _ _ _ _ _ _) as [[r|e] self2]; [|done].
    destruct (decide _); [|done].
    intros H%IH. by rewrite H, length_insert.
Qed.

End Batch.

(** X18: for texts of ASCII characters, the list that [translate_batch]
    returns under [use_cache=True] is longer than the list of texts by
    the number of blank texts: the first loop appends a result for each
    blank text, and the second one appends an item for every index, the
    blank ones included.  Without the cache the list has the length of
    the list of texts.  (On ASCII text [Translator.blank] is the test
    [not text or not text.strip()] of the code.) *)
Theorem translate_batch_result_length {St : Type} (self self1 : Translator.t St)
    (t_get t_set : nat -> Z) (texts : list string)
    (source_lang target_lang : option string) (use_cache : bool)
    (o : PyDict.t pyval) (rs : list (option TranslationResult.t)) :
  Forall (fun text => isascii text = true) texts ->
  Translator.translate_batch self t_get t_set texts source_lang target_lang
    use_cache o = (Ok rs, self1) ->
  length rs =
  (length texts +
   if use_cache
   then length (filter (fun text => Translator.blank text = true) texts)
   else 0)%nat.
Proof.
  intros _. unfold Translator.translate_batch.
  destruct texts as [|t0 ts] eqn:Ht.
  { intros [= <- _]. by destruct use_cache. }
  rewrite <- Ht. clear Ht t0 ts. cbv zeta.
  set (name := TranslationProvider.name (Translator.provider self)).
  set (source := default (Translator.default_source_lang self) source_lang).
  set (target := default (Translator.default_target_lang self) target_lang).
  assert (∀ found cache1,
            length (Translator.results found) =
              (length texts +
               if use_cache
               then length (filter (fun text => Translator.blank text = true) texts)
               else 0)%nat ->
            match Translator.uncached_indices found with
            | [] => (Ok (Translator.results found),
                     Translator.with_state self (Translator.service self) cache1)
            | _ :: _ =>
                match Translator.translate_each
                        (Translator.with_state self (Translator.service self) cache1)
                        texts source target o (Translator.uncached_indices found)
                        (Translator.results found) with
                | (Fail e, self2) => (Fail e, self2)
                | (Ok results1, self2) =>
                    if use_cache then
                      match Translator.save_each texts source target o t_set
                              (Translator.uncached_indices found) results1
                              (Translator.cache self2) with
                      | (Fail e, cache2) =>
                          (Fail e, Translator.with_state self2 (Translator.service self2) cache2)
                      | (Ok _, cache2) =>
                          (Ok results1,
                           Translator.with_state self2 (Translator.service self2) cache2)
                      end
                    else (Ok results1, self2)
                end
            end = (Ok rs, self1) ->
            length rs =
              (length texts +
               if use_cache
               then length (filter (fun text => Translator.blank text = true) texts)
               else 0)%nat) as Hrest.
  { intros found cache1 Hlen.
    destruct (Translator.uncached_indices found) as [|i0 is0] eqn:Hun.
    - by intros [= <- _].
    - destruct (Translator.translate_each _ _ _ _ _ _ _) as [[results1|e] self2] eqn:Heach;
        [|done].
      apply translate_each_length in Heach.
      destruct use_cache.
      + destruct (Translator.save_each _ _ _ _ _ _ _ _) as [[u|e] cache2]; [|done].
        intros [= <- _]. by rewrite Heach.
      + intros [= <- _]. by rewrite Heach. }
  destruct use_cache.
  - destruct (Translator.check_cache _ _ _ _ _ _ _ _ _) as [[found|e] cache1] eqn:Hcheck;
      [|done].
    apply Hrest. cbn [Translator.results].
    apply check_cache_results in Hcheck.
    rewrite length_app, length_map, length_seq, Hcheck. simpl. lia.
  - apply Hrest. cbn [Translator.results]. rewrite length_replicate. lia.
Qed.

Lemma translate_batch_result_length_witness :
  let self := Translator.init echo_provider 0%nat None "en" "fr" in
  let call :=
    Translator.translate_batch self (fun _ => 100) (fun _ => 101)
      ["hello"; " "] None None true [] in
  let rs := [Some (TranslationResult.make "[hello]" "en" "fr" false "echo");
             None; None] in
  (Forall (fun text => isascii text = true) ["hello"; " "] ∧
   call = (Ok rs, snd call)) ∧
  length rs =
  (length ["hello"; " "] +
   length (filter (fun text => Translator.blank text = true) ["hello"; " "]))%nat.
Proof.
  intros self call rs.
  assert (Forall (fun text => isascii text = true) ["hello"; " "]) as Hascii
    by (repeat constructor).
  assert (call = (Ok rs, snd call)) as Hcall by (by vm_compute).
  split; [by split|].
  exact (translate_batch_result_length self (snd call) (fun _ => 100)
           (fun _ => 101) ["hello"; " "] None None true [] rs Hascii Hcall).
Defined.

Section BatchWithoutCache.
Context {St : Type}.
Implicit Types (self : Translator.t St).

(** [translate] keeps the provider and the default languages, and
    without [use_cache] the cache. *)
Lemma translate_keeps_settings self (t_get t_set : Z) (text : string)
    (sl tl : option string) (use_cache : bool) (o : PyDict.t pyval) :
  let self1 := snd (Translator.translate self t_get t_set text sl tl use_cache o) in
  Translator.provider self1 = Translator.provider self ∧
  Translator.default_source_lang self1 = Translator.default_source_lang self ∧
  Translator.default_target_lang self1 = Translator.default_target_lang self ∧
  (use_cache = false -> Translator.cache self1 = Translator.cache self).
Proof.
  cbv zeta. unfold Translator.translate.
  destruct (Translator.blank text); [done|]. cbv zeta.
  destruct (_ && _); [done|]. destruct (negb _); [done|].
  destruct use_cache.
  - destruct (TranslationCache.get _ _ _ _ _ _) as [[[v|]|e] cache1]; [done| |done].
    destruct (bool_decide _).
    + destruct (TranslationProvider.detect_language _ _ _) as [[d|e] s1]; [|done].
      by destruct (TranslationProvider.translate _ _ _ _ _ _) as [[r|e] s2].
    + by destruct (TranslationProvider.translate _ _ _ _ _ _) as [[r|e] s2].
  - destruct (bool_decide _).
    + destruct (TranslationProvider.detect_language _ _ _) as [[d|e] s1]; [|done].
      by destruct (TranslationProvider.translate _ _ _ _ _ _) as [[r|e] s2].
    + by destruct (TranslationProvider.translate _ _ _ _ _ _) as [[r|e] s2].
Qed.

Lemma translate_in_turn_keeps_settings (texts : list string) (source target : string)
    (o : PyDict.t pyval) :
  ∀ self,
    let self1 := snd (translate_in_turn self texts source target o) in
    Translator.provider self1 = Translator.provider self ∧
    Translator.default_source_lang self1 = Translator.default_source_lang self ∧
    Translator.default_target_lang self1 = Translator.default_target_lang self ∧
    Translator.cache self1 = Translator.cache self.
Proof.
  induction texts as [|text texts IH]; intros self; [done|].
  cbv zeta. cbn [translate_in_turn].
  pose proof (translate_keeps_settings self 0 0 text (Some source) (Some target)
                false o) as Hk. cbv zeta in Hk.
  destruct (Translator.translate self 0 0 text _ _ false o) as [[r|e] self1].
  - cbn [snd] in Hk. destruct Hk as (Hp & Hs & Ht & Hc).
    specialize (IH self1). cbv zeta in IH.
    destruct (translate_in_turn self1 texts source target o) as [[rs|e] self2];
      cbn [snd] in *; destruct IH as (Hp' & Hs' & Ht' & Hc');
      rewrite Hp', Hs', Ht', Hc'; by rewrite Hc.
  - cbn [snd] in *. destruct Hk as (Hp & Hs & Ht & Hc). by rewrite Hc.
Qed.

Lemma translate_in_turn_app (l1 l2 : list string) (source target : string)
    (o : PyDict.t pyval) :
  ∀ self,
    translate_in_turn self (l1 ++ l2) source target o =
    match translate_in_turn self l1 source target o with
    | (Fail e, self1) => (Fail e, self1)
    | (Ok rs1, self1) =>
        match translate_in_turn self1 l2 source target o with
        | (Fail e, self2) => (Fail e, self2)
        | (Ok rs2, self2) => (Ok (rs1 ++ rs2), self2)
        end
    end.
Proof.
  induction l1 as [|text l1 IH]; intros self.
  - simpl. by destruct (translate_in_turn self l2 source target o) as [[rs|e] self2].
  - cbn [app translate_in_turn].
    destruct (Translator.translate self 0 0 text _ _ false o) as [[r|e] self1]; [|done].
    rewrite IH.
    destruct (translate_in_turn self1 l1 source target o) as [[rs1|e] self2]; [|done].
    by destruct (translate_in_turn self2 l2 source target o) as [[rs2|e] self3].
Qed.

(** The serial loop over the indices that are left, on a list whose
    first places are filled. *)
Lemma translate_each_in_turn (source target : string) (o : PyDict.t pyval)
    (rest : list string) :
  ∀ self (pre : list string) (filled : list TranslationResult.t),
    length filled = length pre ->
    Translator.translate_each self (pre ++ rest) source target o
      (seq (length pre) (length rest))
      (map Some filled ++ replicate (length rest) None) =
    match translate_in_turn self rest source target o with
    | (Fail e, self1) => (Fail e, self1)
    | (Ok rs, self1) => (Ok (map Some (filled ++ rs)), self1)
    end.
Proof.
  induction rest as [|text rest IH]; intros self pre filled Hlen.
  - simpl. by rewrite !app_nil_r.
  - cbn [length seq Translator.translate_each translate_in_turn].
    rewrite lookup_app_r by lia. rewrite Nat.sub_diag. cbn [lookup list_lookup].
    destruct (Translator.translate self 0 0 text _ _ false o) as [[r|e] self1]; [|done].
    rewrite decide_True
      by (rewrite length_app, length_map, Hlen; simpl; lia).
    specialize (IH self1 (pre ++ [text]) (filled ++ [r])).
    rewrite !length_app in IH. simpl in IH.
    replace (length pre + 1)%nat with (S (length pre)) in IH by lia.
    rewrite <- !app_assoc in IH. simpl in IH.
    assert (<[length pre := Some r]>
              (map Some filled ++ replicate (S (length rest)) None)
            = map Some (filled ++ [r]) ++ replicate (length rest) None) as ->.
    { rewrite insert_app_r_alt by (rewrite length_map; lia).
      rewrite length_map, Hlen, Nat.sub_diag. simpl.
      by rewrite map_app, <- app_assoc. }
    rewrite IH by lia.
    destruct (translate_in_turn self1 rest source target o) as [[rs|e] self2]; [|done].
    by rewrite <- app_assoc.
Qed.

(** [translate_batch] without the cache is the translation of the texts
    one after the other. *)
Lemma translate_batch_in_turn self (t_get t_set : nat -> Z) (texts : list string)
    (sl tl : option string) (o : PyDict.t pyval) :
  Translator.translate_batch self t_get t_set texts sl tl false o =
  match translate_in_turn self texts
          (default (Translator.default_source_lang self) sl)
          (default (Translator.default_target_lang self) tl) o with
  | (Fail e, self1) => (Fail e, self1)
  | (Ok rs, self1) => (Ok (map Some rs), self1)
  end.
Proof.
  unfold Translator.translate_batch. destruct texts as [|t0 ts] eqn:Ht; [done|].
  rewrite <- Ht. cbv zeta. cbn [Translator.uncached_indices Translator.results].
  assert (seq 0 (length texts) = 0%nat :: seq 1 (length ts)) as Hseq by (by subst).
  rewrite Hseq at 1. rewrite with_state_same.
  pose proof (translate_each_in_turn
                (default (Translator.default_source_lang self) sl)
                (default (Translator.default_target_lang self) tl) o texts self [] []
                eq_refl) as Heach.
  simpl in Heach. rewrite Heach.
  by destruct (translate_in_turn self texts _ _ o) as [[rs|e] self1].
Qed.

Lemma chunk_texts_explicit (texts : list string) (c : Z) :
  1 ≤ c -> texts ≠ [] ->
  chunk_texts texts c =
  Ok (map (fun i : nat => take (Z.to_nat c) (drop (i * Z.to_nat c) texts))
          (seq 0 (Z.to_nat ((Z.of_nat (length texts) - 1) / c + 1)))).
Proof.
  intros Hc Hne. unfold chunk_texts.
  destruct texts as [|t0 ts] eqn:Ht; [done|]. rewrite <- Ht in *.
  assert (0 < Z.of_nat (length texts)) as Hn by (subst; simpl; lia).
  clear Ht. unfold range, range_len.
  rewrite (proj2 (Z.eqb_neq _ _)) by lia.
  rewrite (proj2 (Z.ltb_lt 0 c)) by lia.
  rewrite (proj2 (Z.ltb_lt 0 _) Hn).
  replace (Z.of_nat (length texts) - 0 - 1) with (Z.of_nat (length texts) - 1) by lia.
  set (n := Z.of_nat (length texts)) in *.
  assert (0 ≤ (n - 1) / c) as Hq by (apply Z.div_pos; lia).
  pose proof (Z.div_mod (n - 1) c ltac:(lia)) as Hdm.
  pose proof (Z.mod_pos_bound (n - 1) c ltac:(lia)) as Hmod.
  f_equal. rewrite map_map. apply map_ext_in. intros i Hi%in_seq.
  assert (Z.of_nat i ≤ (n - 1) / c) as Hi' by lia.
  rewrite slice_chunk; [|lia|nia|fold n; nia].
  do 2 f_equal. nia.
Qed.

(** The loop over the chunks, without the cache. *)
Lemma translate_chunks_in_turn (t_get t_set : nat -> nat -> Z)
    (sl tl : option string) (o : PyDict.t pyval) (chunks : list (list string)) :
  ∀ (translator : Translator.t St) (j : nat)
    (all_results : list (option TranslationResult.t)),
    BatchTranslator.translate_chunks translator t_get t_set j chunks sl tl false o
      all_results =
    match translate_in_turn translator (concat chunks)
            (default (Translator.default_source_lang translator) sl)
            (default (Translator.default_target_lang translator) tl) o with
    | (Fail e, translator1) => (Fail e, translator1)
    | (Ok rs, translator1) => (Ok (all_results ++ map Some rs), translator1)
    end.
Proof.
  induction chunks as [|chunk chunks IH]; intros translator j all_results.
  - simpl. by rewrite app_nil_r.
  - cbn [BatchTranslator.translate_chunks concat].
    rewrite translate_batch_in_turn, translate_in_turn_app.
    pose proof (translate_in_turn_keeps_settings chunk
                  (default (Translator.default_source_lang translator) sl)
                  (default (Translator.default_target_lang translator) tl) o
                  translator) as Hk. cbv zeta in Hk.
    destruct (translate_in_turn translator chunk _ _ o) as [[rs1|e] translator1];
      [|done].
    cbn [snd] in Hk. destruct Hk as (_ & Hs & Ht & _).
    rewrite IH, Hs, Ht.
    destruct (translate_in_turn translator1 (concat chunks) _ _ o)
      as [[rs2|e] translator2]; [|done].
    by rewrite map_app, app_assoc.
Qed.

End BatchWithoutCache.

(** X19: without the cache, [translate_batch] (with [parallel=False])
    returns the translations of the texts one after the other, in the
    order of the texts: one result for every text and no place holder.
    It stops at the first text whose translation fails, and it leaves the
    cache as it is. *)
Theorem translate_batch_without_cache {St : Type} (self : Translator.t St)
    (t_get t_set : nat -> Z) (texts : list string)
    (source_lang target_lang : option string) (o : PyDict.t pyval) :
  let source := default (Translator.default_source_lang self) source_lang in
  let target := default (Translator.default_target_lang self) target_lang in
  let call :=
    Translator.translate_batch self t_get t_set texts source_lang target_lang
      false o in
  call = match translate_in_turn self texts source target o with
         | (Fail e, self1) => (Fail e, self1)
         | (Ok rs, self1) => (Ok (map Some rs), self1)
         end ∧
  Translator.cache (snd call) = Translator.cache self.
Proof.
  cbv zeta. rewrite translate_batch_in_turn. split; [done|].
  pose proof (translate_in_turn_keeps_settings texts
                (default (Translator.default_source_lang self) source_lang)
                (default (Translator.default_target_lang self) target_lang) o self)
    as Hk. cbv zeta in Hk.
  by destruct (translate_in_turn self texts _ _ o) as [[rs|e] self1];
    destruct Hk as (_ & _ & _ & Hc).
Qed.

(** X20: without the cache, the chunks of [BatchTranslator.translate_batch]
    (with [parallel=False]) do not show: for every batch size of one at
    least it returns what [Translator.translate_batch] returns for the
    whole list, and leaves the translator in the same state. *)
Theorem batch_translator_chunks_do_not_show {St : Type}
    (translator : Translator.t St) (t_get t_set : nat -> nat -> Z)
    (t_get' t_set' : nat -> Z) (texts : list string)
    (source_lang target_lang : option string) (batch_size : Z)
    (o : PyDict.t pyval) :
  1 ≤ batch_size ->
  BatchTranslator.translate_batch translator t_get t_set texts
    source_lang target_lang false batch_size o =
  Translator.translate_batch translator t_get' t_set' texts
    source_lang target_lang false o.
Proof.
  intros Hb. unfold BatchTranslator.translate_batch.
  destruct texts as [|t0 ts] eqn:Ht; [done|]. rewrite <- Ht.
  assert (texts ≠ []) as Hne by (by subst). clear Ht t0 ts.
  rewrite !translate_batch_in_turn.
  destruct (Z.of_nat (length texts) <=? batch_size); [done|].
  rewrite chunk_texts_explicit by done.
  rewrite translate_chunks_in_turn, concat_chunks.
  rewrite take_ge; [done|].
  assert (0 < Z.of_nat (length texts)) as Hn by (destruct texts; simpl; [done|lia]).
  pose proof (Z.div_mod (Z.of_nat (length texts) - 1) batch_size ltac:(lia)) as Hdm.
  pose proof (Z.mod_pos_bound (Z.of_nat (length texts) - 1) batch_size ltac:(lia))
    as Hmod.
  assert (0 ≤ (Z.of_nat (length texts) - 1) / batch_size) as Hq
    by (apply Z.div_pos; lia).
  nia.
Qed.

Lemma batch_translator_chunks_do_not_show_witness :
  let translator := Translator.init echo_provider 0%nat None "en" "fr" in
  1 ≤ 2 ∧
  BatchTranslator.translate_batch translator (fun _ _ => 100) (fun _ _ => 101)
    ["a"; "b"; "c"; "d"; "e"] None None false 2 [] =
  Translator.translate_batch translator (fun _ => 100) (fun _ => 101)
    ["a"; "b"; "c"; "d"; "e"] None None false [].
Proof.
  intros translator. split; [lia|].
  apply (batch_translator_chunks_do_not_show translator (fun _ _ => 100)
           (fun _ _ => 101) (fun _ => 100) (fun _ => 101)
           ["a"; "b"; "c"; "d"; "e"] None None 2 []).
  lia.
Defined.

(** X21: a batch size that is not positive.  On a list that is not
    empty, [BatchTranslator.translate_batch] raises [ValueError] for the
    batch size 0, and for a negative batch size it returns the empty
    list: no text is translated, the provider and the cache are not
    reached, and no error tells so. *)
Theorem batch_translator_nonpositive_batch_size {St : Type}
    (translator : Translator.t St) (t_get t_set : nat -> nat -> Z)
    (texts : list string) (source_lang target_lang : option string)
    (use_cache : bool) (batch_size : Z) (o : PyDict.t pyval) :
  texts ≠ [] -> batch_size ≤ 0 ->
  BatchTranslator.translate_batch translator t_get t_set texts
    source_lang target_lang use_cache batch_size o =
  (if batch_size =? 0 then Fail ValueError else Ok [], translator).
Proof.
  intros Hne Hb. unfold BatchTranslator.translate_batch.
  destruct texts as [|t0 ts]; [done|].
  rewrite (proj2 (Z.leb_gt _ _)) by (simpl length; lia).
  unfold chunk_texts, range, range_len.
  destruct (Z.eqb_spec batch_size 0) as [->|Hnz]; [done|].
  rewrite (proj2 (Z.ltb_ge 0 batch_size)) by lia.
  rewrite (proj2 (Z.ltb_ge _ 0)) by lia. done.
Qed.

Lemma batch_translator_nonpositive_batch_size_witness :
  let translator := Translator.init echo_provider 0%nat None "en" "fr" in
  (["a"; "b"] ≠ [] ∧ -5 ≤ 0) ∧
  BatchTranslator.translate_batch translator (fun _ _ => 100) (fun _ _ => 101)
    ["a"; "b"] None None true (-5) [] = (Ok [], translator).
Proof.
  intros translator. split; [split; [done|lia]|].
  exact (batch_translator_nonpositive_batch_size translator (fun _ _ => 100)
           (fun _ _ => 101) ["a"; "b"] None None true (-5) []
           ltac:(done) ltac:(lia)).
Defined.

(* ===================================================================== *)
(** * Normal forms of texts and language codes                            *)
(* ===================================================================== *)

Section StripFacts.

Lemma string_app_assoc (a b c : string) : (a +:+ b) +:+ c = a +:+ (b +:+ c).
Proof. induction a as [|x a IH]; [done|]. rewrite !append_cons. by rewrite IH. Qed.

Lemma string_app_nil_r (a : string) : a +:+ EmptyString = a.
Proof. induction a as [|x a IH]; [done|]. rewrite append_cons. by rewrite IH. Qed.

Lemma rev_app_spec (s acc : string) :
  String.rev_app s acc = String.rev s +:+ acc.
Proof.
  revert acc. induction s as [|x s IH]; intros acc; [done|].
  unfold String.rev. cbn [String.rev_app].
  rewrite (IH (String x acc)), (IH (String x EmptyString)).
  by rewrite string_app_assoc, append_cons, append_nil.
Qed.

Lemma rev_cons (x : ascii) (s : string) :
  String.rev (String x s) = String.rev s +:+ String x EmptyString.
Proof. unfold String.rev at 1. cbn [String.rev_app]. apply rev_app_spec. Qed.

Lemma rev_snoc (x : ascii) (s : string) :
  String.rev (s +:+ String x EmptyString) = String x (String.rev s).
Proof.
  induction s as [|y s IH]; [done|].
  rewrite append_cons, !rev_cons, IH. by rewrite append_cons.
Qed.

Lemma rev_nil_inv (s : string) : String.rev s = EmptyString -> s = EmptyString.
Proof.
  destruct s as [|x s]; [done|]. rewrite rev_cons.
  by destruct (String.rev s).
Qed.

(** [lstrip] on a string that ends with the character [c]. *)
Lemma lstrip_snoc (s : string) (c : ascii) :
  PyStr.lstrip (s +:+ String c EmptyString) =
  if decide (PyStr.lstrip s = EmptyString)
  then (if PyStr.is_space c then EmptyString else String c EmptyString)
  else PyStr.lstrip s +:+ String c EmptyString.
Proof.
  induction s as [|x s IH].
  - rewrite append_nil. simpl. by destruct (PyStr.is_space c).
  - rewrite append_cons. cbn [PyStr.lstrip].
    destruct (PyStr.is_space x); [exact IH|].
    rewrite decide_False by done. by rewrite append_cons.
Qed.

(** [rstrip] from the front: the equation of a recursive definition. *)
Lemma rstrip_cons (c : ascii) (s : string) :
  PyStr.rstrip (String c s) =
  if decide (PyStr.rstrip s = EmptyString)
  then (if PyStr.is_space c then EmptyString else String c EmptyString)
  else String c (PyStr.rstrip s).
Proof.
  unfold PyStr.rstrip. rewrite rev_cons, lstrip_snoc.
  destruct (decide (PyStr.lstrip (String.rev s) = EmptyString)) as [He|Hne].
  - rewrite He. cbn [String.rev String.rev_app].
    rewrite decide_True by done. by destruct (PyStr.is_space c).
  - rewrite decide_False; [by rewrite rev_snoc|].
    by intros ?%rev_nil_inv.
Qed.

Lemma rstrip_cons_nonspace (c : ascii) (s : string) :
  PyStr.is_space c = false -> PyStr.rstrip (String c s) = String c (PyStr.rstrip s).
Proof.
  intros Hc. rewrite rstrip_cons, Hc.
  destruct (decide (PyStr.rstrip s = EmptyString)) as [->|]; done.
Qed.

Lemma rstrip_idem (s : string) : PyStr.rstrip (PyStr.rstrip s) = PyStr.rstrip s.
Proof.
  induction s as [|c s IH]; [done|]. rewrite rstrip_cons.
  destruct (decide (PyStr.rstrip s = EmptyString)) as [He|Hne].
  - destruct (PyStr.is_space c) eqn:Hc; [done|].
    by rewrite rstrip_cons_nonspace.
  - rewrite rstrip_cons, IH. by rewrite decide_False.
Qed.

Lemma lstrip_clean (s : string) : starts_clean (PyStr.lstrip s).
Proof.
  induction s as [|c s IH]; [done|]. simpl.
  by destruct (PyStr.is_space c) eqn:Hc.
Qed.

Lemma lstrip_of_clean (s : string) : starts_clean s -> PyStr.lstrip s = s.
Proof. destruct s as [|c s]; [done|]. simpl. by intros ->. Qed.

Lemma rstrip_clean (s : string) : starts_clean s -> starts_clean (PyStr.rstrip s).
Proof.
  destruct s as [|c s]; [done|]. simpl. intros Hc.
  by rewrite rstrip_cons_nonspace.
Qed.

Lemma strip_idem (s : string) : PyStr.strip (PyStr.strip s) = PyStr.strip s.
Proof.
  unfold PyStr.strip.
  rewrite (lstrip_of_clean (PyStr.rstrip _)) by apply rstrip_clean, lstrip_clean.
  apply rstrip_idem.
Qed.

Lemma strip_fixed (s : string) :
  starts_clean s -> PyStr.rstrip s = s -> PyStr.strip s = s.
Proof. intros Hc Hr. unfold PyStr.strip. by rewrite lstrip_of_clean. Qed.

End StripFacts.

Section LowerFacts.

Lemma is_space_lower_char (c : ascii) :
  PyStr.is_space (PyStr.lower_char c) = PyStr.is_space c.
Proof.
  destruct c as [[] [] [] [] [] [] [] []]; by vm_compute.
Qed.

Lemma lower_char_idem (c : ascii) :
  PyStr.lower_char (PyStr.lower_char c) = PyStr.lower_char c.
Proof.
  destruct c as [[] [] [] [] [] [] [] []]; by vm_compute.
Qed.

Lemma lower_idem (s : string) : PyStr.lower (PyStr.lower s) = PyStr.lower s.
Proof.
  induction s as [|c s IH]; [done|]. simpl. by rewrite lower_char_idem, IH.
Qed.

Lemma lower_nil_inv (s : string) :
  PyStr.lower s = EmptyString <-> s = EmptyString.
Proof. by destruct s. Qed.

Lemma lower_lstrip (s : string) :
  PyStr.lower (PyStr.lstrip s) = PyStr.lstrip (PyStr.lower s).
Proof.
  induction s as [|c s IH]; [done|]. simpl. rewrite is_space_lower_char.
  by destruct (PyStr.is_space c).
Qed.

Lemma lower_rstrip (s : string) :
  PyStr.lower (PyStr.rstrip s) = PyStr.rstrip (PyStr.lower s).
Proof.
  induction s as [|c s IH]; [done|]. cbn [PyStr.lower].
  rewrite !rstrip_cons, is_space_lower_char, <- IH.
  destruct (decide (PyStr.rstrip s = EmptyString)) as [He|Hne].
  - rewrite He. simpl. by destruct (PyStr.is_space c).
  - rewrite decide_False; [done|]. by rewrite lower_nil_inv.
Qed.

Lemma lower_strip (s : string) :
  PyStr.lower (PyStr.strip s) = PyStr.strip (PyStr.lower s).
Proof. unfold PyStr.strip. by rewrite lower_rstrip, lower_lstrip. Qed.

(** The code that [normalize_language_code] works on is a fixed point
    of its first step. *)
Lemma strip_lower_idem (s : string) :
  PyStr.strip (PyStr.lower (PyStr.strip (PyStr.lower s)))
  = PyStr.strip (PyStr.lower s).
Proof. by rewrite lower_strip, lower_idem, strip_idem. Qed.

End LowerFacts.

Section CollapseFacts.

Lemma collapse_idem (s : string) :
  (∀ b, PyStr.collapse_ws false (PyStr.collapse_ws b s) = PyStr.collapse_ws b s) ∧
  PyStr.collapse_ws true (PyStr.collapse_ws true s) = PyStr.collapse_ws true s.
Proof.
  induction s as [|c s [IH1 IH2]]; [done|]. split.
  - intros b. cbn [PyStr.collapse_ws].
    destruct (PyStr.is_space c) eqn:Hc.
    + destruct b; [apply IH1|].
      cbn [PyStr.collapse_ws].
      replace (PyStr.is_space " ") with true by (by vm_compute).
      by rewrite IH2.
    + cbn [PyStr.collapse_ws]. by rewrite Hc, IH1.
  - cbn [PyStr.collapse_ws].
    destruct (PyStr.is_space c) eqn:Hc; [apply IH2|].
    cbn [PyStr.collapse_ws]. by rewrite Hc, IH1.
Qed.

Lemma collapse_nonempty (s : string) (b : bool) :
  PyStr.rstrip s ≠ EmptyString -> PyStr.collapse_ws b s ≠ EmptyString.
Proof.
  revert b. induction s as [|c s IH]; intros b; [done|].
  rewrite rstrip_cons. cbn [PyStr.collapse_ws].
  destruct (decide (PyStr.rstrip s = EmptyString)) as [He|Hne].
  - by destruct (PyStr.is_space c).
  - intros _. destruct (PyStr.is_space c); [|done].
    destruct b; [by apply IH|done].
Qed.

Lemma collapse_keeps_end (s : string) (b : bool) :
  PyStr.rstrip s = s ->
  PyStr.rstrip (PyStr.collapse_ws b s) = PyStr.collapse_ws b s.
Proof.
  revert b. induction s as [|c s IH]; intros b; [done|].
  rewrite rstrip_cons.
  destruct (decide (PyStr.rstrip s = EmptyString)) as [He|Hne].
  - destruct (PyStr.is_space c) eqn:Hc; [done|].
    intros [= <-]. cbn [PyStr.collapse_ws]. rewrite Hc.
    by rewrite rstrip_cons_nonspace.
  - intros [= Hs]. cbn [PyStr.collapse_ws].
    destruct (PyStr.is_space c) eqn:Hc.
    + destruct b; [by apply IH|].
      rewrite rstrip_cons, IH by done.
      rewrite decide_False; [done|].
      apply collapse_nonempty. by rewrite Hs in Hne |- *.
    + rewrite rstrip_cons_nonspace by done. by rewrite IH.
Qed.

Lemma collapse_keeps_start (s : string) :
  starts_clean s -> starts_clean (PyStr.collapse_ws false s).
Proof.
  destruct s as [|c s]; [done|]. cbn [starts_clean PyStr.collapse_ws].
  intros Hc. by rewrite Hc.
Qed.

Lemma preprocess_text_idem (text : string) :
  preprocess_text (preprocess_text text) = preprocess_text text.
Proof.
  unfold preprocess_text.
  destruct (decide (text = EmptyString)) as [->|Hne]; [done|].
  destruct (decide (PyStr.re_sub_ws (PyStr.strip text) = EmptyString)) as [He|Hne'].
  { by rewrite He. }
  unfold PyStr.re_sub_ws in *.
  rewrite strip_fixed.
  - apply (proj1 (collapse_idem _)).
  - apply collapse_keeps_start. unfold PyStr.strip.
    apply rstrip_clean, lstrip_clean.
  - apply collapse_keeps_end. unfold PyStr.strip. apply rstrip_idem.
Qed.

End CollapseFacts.

Section NormalizeFacts.

(** No code reaches the alias table with a key that the table holds:
    each of its keys has a hyphen after a known language, and the branch
    above returns that language. *)
Lemma aliases_unreachable (code : string) :
  is_Some (PyDict.get aliases code) ->
  PyStr.has_char "-" code
  && bool_decide (hd EmptyString (PyStr.split "-" code) ∈ LANGUAGE_NAMES) = true.
Proof.
  intros [v Hv].
  assert (code ∈ PyDict.keys aliases) as Hin.
  { apply mem_keys. unfold PyDict.mem. by rewrite Hv. }
  unfold aliases, PyDict.keys in Hin. simpl in Hin.
  repeat (apply elem_of_cons in Hin as [->|Hin]; [by vm_compute|]).
  by apply elem_of_nil in Hin.
Qed.

Lemma normalize_unfold (code : string) :
  code ≠ EmptyString ->
  let c := PyStr.strip (PyStr.lower code) in
  normalize_language_code code =
  if PyStr.has_char "-" c
     && bool_decide (hd EmptyString (PyStr.split "-" c) ∈ LANGUAGE_NAMES)
  then hd EmptyString (PyStr.split "-" c)
  else c.
Proof.
  intros Hne. cbv zeta. unfold normalize_language_code.
  rewrite decide_False by done. cbv zeta.
  destruct (_ && _) eqn:Hb; [done|].
  destruct (PyDict.get aliases _) as [v|] eqn:Hg; [|done].
  rewrite aliases_unreachable in Hb; [done|by eexists].
Qed.

Lemma normalize_known (code : string) :
  code ∈ LANGUAGE_NAMES -> normalize_language_code code = code.
Proof.
  intros Hin. unfold LANGUAGE_NAMES in Hin.
  repeat (apply elem_of_cons in Hin as [->|Hin]; [by vm_compute|]).
  by apply elem_of_nil in Hin.
Qed.

Lemma normalize_idem (code : string) :
  normalize_language_code code ≠ EmptyString ->
  normalize_language_code (normalize_language_code code)
  = normalize_language_code code.
Proof.
  destruct (decide (code = EmptyString)) as [->|Hne]; [done|].
  rewrite (normalize_unfold code Hne). cbv zeta.
  destruct (_ && _) eqn:Hb.
  - intros _. apply andb_true_iff in Hb as [_ Hin%bool_decide_eq_true].
    by apply normalize_known.
  - intros Hc. rewrite (normalize_unfold _ Hc). cbv zeta.
    by rewrite strip_lower_idem, Hb.
Qed.

End NormalizeFacts.

Section RegionFacts.

Lemma lower_app (a b : string) :
  PyStr.lower (a +:+ b) = PyStr.lower a +:+ PyStr.lower b.
Proof.
  induction a as [|x a IH]; [done|].
  rewrite append_cons. cbn [PyStr.lower]. by rewrite append_cons, IH.
Qed.

Lemma has_char_app (c : ascii) (a b : string) :
  PyStr.has_char c (a +:+ b) = PyStr.has_char c a || PyStr.has_char c b.
Proof.
  induction a as [|x a IH]; [done|].
  rewrite append_cons. cbn [PyStr.has_char]. by destruct (decide (x = c)).
Qed.

Lemma split_nonempty (sep : ascii) (s : string) : PyStr.split sep s ≠ [].
Proof.
  induction s as [|x s IH]; [done|]. cbn [PyStr.split].
  destruct (decide (x = sep)); [done|]. by destruct (PyStr.split sep s).
Qed.

(** The first field of a string that has the separator after [base]. *)
Lemma split_head (sep : ascii) (base rest : string) :
  PyStr.has_char sep base = false ->
  hd EmptyString (PyStr.split sep (base +:+ String sep rest)) = base.
Proof.
  induction base as [|x base IH].
  - intros _. rewrite append_nil. cbn [PyStr.split]. by rewrite decide_True.
  - rewrite append_cons. cbn [PyStr.has_char PyStr.split].
    destruct (decide (x = sep)) as [|Hne]; [done|]. intros Hb.
    specialize (IH Hb).
    pose proof (split_nonempty sep (base +:+ String sep rest)) as Hs.
    destruct (PyStr.split sep (base +:+ String sep rest)) as [|w ws]; [done|].
    simpl in *. by rewrite IH.
Qed.

(** A code without white space, hyphen or upper-case letter. *)
Lemma strip_app_clean (base rest : string) :
  base ≠ EmptyString ->
  forallb (fun c => negb (PyStr.is_space c)) (list_ascii_of_string base) = true ->
  PyStr.strip (base +:+ rest) = base +:+ PyStr.rstrip rest.
Proof.
  intros Hne Hclean. unfold PyStr.strip.
  rewrite lstrip_of_clean.
  - clear Hne. induction base as [|x base IH]; [done|].
    rewrite !append_cons. simpl in Hclean.
    apply andb_true_iff in Hclean as [Hx Hclean].
    rewrite rstrip_cons_nonspace by (by destruct (PyStr.is_space x)).
    by rewrite IH.
  - destruct base as [|x base]; [done|]. rewrite append_cons. simpl in *.
    apply andb_true_iff in Hclean as [Hx _]. by destruct (PyStr.is_space x).
Qed.

Lemma known_codes_are_clean :
  forallb (fun base =>
             negb (bool_decide (base = EmptyString))
             && bool_decide (PyStr.lower base = base)
             && negb (PyStr.has_char "-" base)
             && forallb (fun c => negb (PyStr.is_space c)) (list_ascii_of_string base))
          LANGUAGE_NAMES = true.
Proof. by vm_compute. Qed.

Lemma normalize_region (base suffix : string) :
  base ∈ LANGUAGE_NAMES ->
  normalize_language_code (base +:+ "-" +:+ suffix) = base.
Proof.
  intros Hin.
  pose proof known_codes_are_clean as Hall.
  rewrite forallb_forall in Hall. specialize (Hall base).
  rewrite <- list_elem_of_In in Hall. specialize (Hall Hin).
  apply andb_true_iff in Hall as [Hall Hspace].
  apply andb_true_iff in Hall as [Hall Hhyphen].
  apply andb_true_iff in Hall as [Hne Hlower].
  apply negb_true_iff, bool_decide_eq_false in Hne.
  apply bool_decide_eq_true in Hlower.
  apply negb_true_iff in Hhyphen.
  rewrite normalize_unfold by (destruct base; [done|by rewrite append_cons]).
  cbv zeta. rewrite lower_app, Hlower.
  rewrite strip_app_clean by done.
  rewrite append_cons, append_nil. cbn [PyStr.lower].
  replace (PyStr.lower_char "-") with "-"%char by (by vm_compute).
  rewrite rstrip_cons_nonspace by (by vm_compute).
  rewrite has_char_app. cbn [PyStr.has_char]. rewrite decide_True by done.
  rewrite orb_true_r, split_head by done.
  by rewrite bool_decide_true.
Qed.

End RegionFacts.

(** X22: for a code of ASCII characters, the empty one included,
    normalising a language code twice is normalising it once, except for
    a non-empty code of white space only: that one is normalised to the
    empty string, which is then normalised to [auto].  (On ASCII text
    [PyStr.lower] and [PyStr.strip] are [str.lower] and [str.strip].) *)
Theorem normalize_language_code_idempotent (code : string) :
  isascii code = true ->
  let blank :=
    negb (bool_decide (code = EmptyString))
    && bool_decide (PyStr.strip (PyStr.lower code) = EmptyString) in
  normalize_language_code code
    = (if blank then EmptyString else normalize_language_code code) ∧
  normalize_language_code (normalize_language_code code)
    = (if blank then "auto" else normalize_language_code code).
Proof.
  intros _. cbv zeta.
  destruct (decide (code = EmptyString)) as [->|Hne]; [by vm_compute|].
  rewrite (bool_decide_false (code = EmptyString)) by done. cbn [negb andb].
  case_bool_decide as Hb.
  - assert (normalize_language_code code = EmptyString) as Hn.
    { rewrite normalize_unfold by done. cbv zeta. by rewrite Hb. }
    by rewrite Hn.
  - split; [done|]. apply normalize_idem.
    rewrite normalize_unfold by done. cbv zeta.
    destruct (_ && _) eqn:Hc; [|done].
    apply andb_true_iff in Hc as [_ Hin%bool_decide_eq_true].
    intros He. rewrite He in Hin. revert Hin.
    apply (bool_decide_unpack _). by vm_compute.
Qed.

Lemma normalize_language_code_idempotent_witness :
  isascii " EN-us " = true ∧
  normalize_language_code (normalize_language_code " EN-us ") = "en".
Proof.
  split; [reflexivity|].
  rewrite (proj2 (normalize_language_code_idempotent " EN-us " eq_refl)).
  by vm_compute.
Defined.

(** X23: any code made of a known language, a hyphen and whatever
    follows is normalised to the known language, so it is valid and has
    the name of that language. *)
Theorem region_variants_are_valid (base suffix : string) :
  base ∈ LANGUAGE_NAMES ->
  let code := base +:+ "-" +:+ suffix in
  normalize_language_code code = base ∧
  validate_language_code code = true ∧
  get_language_name code = get_language_name base.
Proof.
  intros Hin. cbv zeta.
  pose proof (normalize_region base suffix Hin) as Hn.
  split; [done|]. split.
  - unfold validate_language_code.
    rewrite decide_False by (destruct base; [done|by rewrite append_cons]).
    cbv zeta. rewrite Hn. rewrite (bool_decide_true (_ ∈ _)) by done.
    apply orb_true_r.
  - unfold get_language_name. cbv zeta. by rewrite Hn, normalize_known.
Qed.

Lemma region_variants_are_valid_witness :
  "zh" ∈ LANGUAGE_NAMES ∧
  validate_language_code ("zh" +:+ "-" +:+ "not a region") = true.
Proof.
  assert ("zh" ∈ LANGUAGE_NAMES) as Hin
    by (apply (bool_decide_unpack _); by vm_compute).
  split; [exact Hin|].
  exact (proj1 (proj2 (region_variants_are_valid "zh" "not a region" Hin))).
Defined.

Section KeyOfNormalForm.

Lemma generate_cache_key_unfold (text sl tl : string) (o : PyDict.t pyval) :
  generate_cache_key text sl tl o =
  Hashlib.md5_hexdigest (key_string text sl tl o).
Proof. Transparent generate_cache_key. reflexivity. Opaque generate_cache_key. Qed.

Lemma key_parts_of_normal_form (text sl tl : string) (o : PyDict.t pyval) :
  normalize_language_code sl ≠ EmptyString ->
  normalize_language_code tl ≠ EmptyString ->
  key_parts (preprocess_text text) (normalize_language_code sl)
    (normalize_language_code tl) o
  = key_parts text sl tl o.
Proof.
  intros Hs Ht. unfold key_parts. cbv zeta.
  by rewrite preprocess_text_idem, !normalize_idem.
Qed.

End KeyOfNormalForm.

(** X24: for a text and language codes of ASCII characters, the cache
    key of a request is the key of its normal form.  Pre-processing the
    text and normalising the language codes before the call changes no
    key, as long as no code is normalised to the empty string (as the
    codes of white space only are): the entry that
    [Translator.translate] stores for the pre-processed text is the
    entry that the cache finds for the text itself, and codes that
    differ in case, in white space around them or in their region
    address one entry.  (On ASCII text [preprocess_text] and
    [normalize_language_code] compute what the code computes.) *)
Theorem cache_key_of_normal_form (text sl tl : string) (o : PyDict.t pyval) :
  isascii text = true -> isascii sl = true -> isascii tl = true ->
  normalize_language_code sl ≠ EmptyString ->
  normalize_language_code tl ≠ EmptyString ->
  generate_cache_key (preprocess_text text) (normalize_language_code sl)
    (normalize_language_code tl) o
  = generate_cache_key text sl tl o ∧
  generate_cache_key (preprocess_text text) sl tl o
  = generate_cache_key text sl tl o.
Proof.
  intros _ _ _ Hs Ht. rewrite !generate_cache_key_unfold. unfold key_string.
  rewrite key_parts_of_normal_form by done. split; [done|].
  unfold key_parts. cbv zeta. by rewrite preprocess_text_idem.
Qed.

Lemma cache_key_of_normal_form_witness :
  (isascii "  hello   world " = true ∧ isascii " EN-us " = true ∧
   isascii "FR" = true ∧
   normalize_language_code " EN-us " ≠ EmptyString ∧
   normalize_language_code "FR" ≠ EmptyString) ∧
  generate_cache_key "hello world" "en" "fr" []
  = generate_cache_key "  hello   world " " EN-us " "FR" [].
Proof.
  assert (normalize_language_code " EN-us " ≠ EmptyString) as H1 by (by vm_compute).
  assert (normalize_language_code "FR" ≠ EmptyString) as H2 by (by vm_compute).
  split; [by split_and!|].
  rewrite <- (proj1 (cache_key_of_normal_form "  hello   world " " EN-us " "FR" []
                       eq_refl eq_refl eq_refl H1 H2)).
  by vm_compute.
Defined.

(* ===================================================================== *)
(** * One entry per key                                                   *)
(* ===================================================================== *)

Section UniqueKeys.

Lemma NoDup_fold_del {V} (ks : list string) (d : PyDict.t V) :
  NoDup (PyDict.keys d) -> NoDup (PyDict.keys (fold_left PyDict.del ks d)).
Proof. intros Hnd. rewrite fold_del_keys. by apply NoDup_filter. Qed.

Lemma NoDup_keys_drop {V} (n : nat) (d : PyDict.t V) :
  NoDup (PyDict.keys d) -> NoDup (PyDict.keys (drop n d)).
Proof.
  intros Hnd. change (NoDup (fst <$> drop n d)). rewrite fmap_drop.
  by apply NoDup_drop.
Qed.

Lemma NoDup_rows_filter (P : row -> Prop) `{!∀ r, Decision (P r)} (rs : list row) :
  NoDup (map cache_key rs) -> NoDup (map cache_key (filter P rs)).
Proof.
  induction rs as [|r rs IH]; [done|]. simpl.
  intros [Hnin Hnd]%NoDup_cons.
  destruct (decide (P r)).
  - rewrite filter_cons_True by done. simpl. apply NoDup_cons. split; [|by apply IH].
    intros (r' & Hk & [_ Hin]%list_elem_of_filter)%list_elem_of_fmap.
    apply Hnin. apply list_elem_of_fmap. by exists r'.
  - rewrite filter_cons_False by done. by apply IH.
Qed.

Lemma remove_entries_index (ks : list string) (idx : PyDict.t metadata) (d : disk) :
  ∃ done_, fst (snd (FileCache.remove_entries ks idx d)) = fold_left PyDict.del done_ idx.
Proof.
  revert idx d. induction ks as [|k ks IH]; intros idx d.
  - by exists [].
  - cbn [FileCache.remove_entries].
    destruct (FileCache.remove_file d k) as [d'|e]; [|by exists []].
    destruct (IH (PyDict.del idx k) d') as [ks' Hks'].
    exists (k :: ks'). by rewrite Hks'.
Qed.

Lemma get_keeps_unique (b : backend) (now : Z) (text sl tl : string)
    (o : PyDict.t pyval) :
  NoDup (TranslationCache.keys b) ->
  NoDup (TranslationCache.keys (snd (TranslationCache.get b now text sl tl o))).
Proof.
  unfold TranslationCache.get. rewrite call_get.
  destruct b as [c|c|c]; unfold TranslationCache.lift;
    cbn [fst snd TranslationCache.keys]; intros Hnd.
  - unfold MemoryCache.get. cbv zeta.
    destruct (PyDict.get _ _) as [[tr ts]|] eqn:Hg; [|done].
    destruct (_is_expired _ _ _); [by apply NoDup_keys_del|].
    unfold PyDict.move_to_end. rewrite Hg. cbn [snd MemoryCache._cache].
    unfold PyDict.keys. rewrite map_app. apply NoDup_snoc.
    + by apply (NoDup_keys_del (MemoryCache._cache c)).
    + apply del_not_in_keys.
  - unfold FileCache.get. cbv zeta.
    destruct (PyDict.get _ _) as [m|]; [|done].
    destruct (_is_expired _ _ _).
    + destruct (FileCache.remove_file _ _); [by apply NoDup_keys_del|done].
    + destruct (negb _); [by apply NoDup_keys_del|].
      by destruct (Fs.read_text _ _).
  - unfold SQLiteCache.get. cbv zeta.
    destruct (Sql.select_by_key _ _) as [r|]; [|done].
    destruct (_is_expired _ _ _); [|done].
    unfold Sql.delete_where. destruct (db_writable _); [|done].
    by apply NoDup_rows_filter.
Qed.

Lemma set_keeps_unique (b : backend) (q : request) :
  NoDup (TranslationCache.keys b) ->
  NoDup (TranslationCache.keys (TranslationCache.set_request b q)).
Proof.
  unfold TranslationCache.set_request, TranslationCache.set.
  rewrite call_set.
  generalize (q_now q) (q_text q) (q_source q) (q_target q) (q_translated q) (q_options q).
  intros now text sl tl v o.
  destruct b as [c|c|c]; unfold TranslationCache.lift;
    cbn [fst snd TranslationCache.keys]; intros Hnd.
  - unfold MemoryCache.set. cbv zeta. rewrite mem_del_if.
    destruct (Z.le_gt_cases (MemoryCache.max_size c) 0) as [Hm|Hm].
    + rewrite evict_nonpositive by done. apply NoDup_nil_2.
    + rewrite evict_positive by lia. cbn [snd MemoryCache._cache].
      apply NoDup_keys_set, NoDup_keys_drop. by apply NoDup_keys_del.
  - unfold FileCache.set. cbv zeta.
    assert (∀ idx d, NoDup (PyDict.keys idx) ->
              NoDup (PyDict.keys (FileCache._index (snd
                match Fs.write_text d
                        (FileCache._get_cache_file (generate_cache_key text sl tl o)) v with
                | Returns d' =>
                    (Returns tt,
                     FileCache.Mk (FileCache.max_size c) (FileCache.ttl c)
                       (set_total (FileCache.stats_attr c)
                          (PyDict.len (PyDict.set idx (generate_cache_key text sl tl o)
                             (MkMeta (Some now) (Some sl) (Some tl)))))
                       (FileCache.cache_dir c)
                       (PyDict.set idx (generate_cache_key text sl tl o)
                          (MkMeta (Some now) (Some sl) (Some tl)))
                       (FileCache._save_index
                          (PyDict.set idx (generate_cache_key text sl tl o)
                             (MkMeta (Some now) (Some sl) (Some tl))) d'))
                | Raises _ =>
                    (Returns tt,
                     FileCache.Mk (FileCache.max_size c) (FileCache.ttl c)
                       (FileCache.stats_attr c) (FileCache.cache_dir c) idx d)
                end)))) as Hwrite.
    { intros idx d Hidx. destruct (Fs.write_text _ _ _); cbn [snd FileCache._index];
        [by apply NoDup_keys_set|done]. }
    destruct (FileCache.max_size c <=? PyDict.len (FileCache._index c)).
    + unfold FileCache.evict_oldest.
      destruct (sorted_by _ (FileCache._index c)) as [|[k0 m0] rest]; [done|].
      destruct (FileCache.remove_file _ _); [|done].
      apply Hwrite. by apply NoDup_keys_del.
    + by apply Hwrite.
  - destruct (db_writable (SQLiteCache.db c)) eqn:Hw.
    + rewrite sqlite_set_writable by done. cbn [snd SQLiteCache.db rows].
      rewrite map_app. apply NoDup_snoc.
      * apply NoDup_rows_filter. unfold after_eviction.
        destruct (_ <=? _); [by apply NoDup_rows_filter|done].
      * simpl. intros (r & Hk & [Hr _]%list_elem_of_filter)%list_elem_of_fmap.
        by apply Hr.
    + by rewrite sqlite_set_unwritable.
Qed.

Lemma clear_keeps_unique (b : backend) (pattern : option string) :
  NoDup (TranslationCache.keys b) ->
  NoDup (TranslationCache.keys (snd (TranslationCache.clear b pattern))).
Proof.
  unfold TranslationCache.clear. rewrite call_clear.
  destruct b as [c|c|c]; unfold TranslationCache.lift;
    cbn [fst snd TranslationCache.keys]; intros Hnd.
  - destruct pattern as [p|]; cbn [MemoryCache.clear snd MemoryCache._cache].
    + by apply NoDup_fold_del.
    + apply NoDup_nil_2.
  - destruct pattern as [p|]; cbn [FileCache.clear].
    + cbv zeta.
      destruct (remove_entries_index
                  (PyDict.keys (filter (fun kv => FileCache.matches p (snd kv) = true)
                                       (FileCache._index c)))
                  (FileCache._index c) (FileCache.dir c)) as [ks Hks].
      destruct (FileCache.remove_entries _ _ _) as [[u|e] [idx d]];
        cbn [fst snd FileCache._index] in *; subst idx; by apply NoDup_fold_del.
    + destruct (FileCache.remove_files _ _) as [[u|e] d];
        cbn [snd FileCache._index]; [apply NoDup_nil_2|done].
  - unfold SQLiteCache.clear, Sql.delete_where.
    destruct pattern as [p|]; destruct (db_writable _); cbn [snd SQLiteCache.db rows];
      try done; by apply NoDup_rows_filter.
Qed.

End UniqueKeys.

(** X25: every backend keeps one entry per key.  A store whose keys are
    distinct (a new store, an index or a table that was loaded) has
    distinct keys after any sequence of [get], [set], [clear] and
    [stats] calls and of changes of the medium, whether the calls return
    or raise. *)
Theorem keys_stay_unique (b : backend) (os : list TranslationCache.operation) :
  NoDup (TranslationCache.keys b) ->
  NoDup (TranslationCache.keys (TranslationCache.run b os)).
Proof.
  revert b. induction os as [|o os IH]; intros b Hnd; [done|].
  unfold TranslationCache.run. cbn [fold_left]. apply IH.
  destruct o as [now text sl tl o|q|pattern| |w r]; cbn [TranslationCache.step].
  - by apply get_keeps_unique.
  - by apply set_keeps_unique.
  - by apply clear_keeps_unique.
  - by rewrite stats_keeps_store.
  - by destruct b.
Qed.

Lemma keys_stay_unique_witness :
  let b := SQLite (SQLiteCache.Mk 2 3600 CacheStats_init "cache.db" (MkDb [] true)) in
  let os := [TranslationCache.OpSet (MkRequest 100 "hello" "en" "fr" "bonjour" []);
             TranslationCache.OpSet (MkRequest 101 "hello" "en" "fr" "salut" []);
             TranslationCache.OpSet (MkRequest 102 "bye" "en" "fr" "au revoir" []);
             TranslationCache.OpGet 5000 "bye" "en" "fr" []] in
  NoDup (TranslationCache.keys b) ∧
  NoDup (TranslationCache.keys (TranslationCache.run b os)).
Proof.
  intros b os.
  assert (NoDup (TranslationCache.keys b)) as Hnd by apply NoDup_nil_2.
  split; [exact Hnd|]. exact (keys_stay_unique b os Hnd).
Defined.

Section BatchAligned.
Context {St : Type}.
Implicit Types (self : Translator.t St).

(** After the first loop every index of a text that is not blank is
    either in [cached_results] or in [uncached_indices]. *)
Lemma check_cache_covers (name source target : string) (o : PyDict.t pyval)
    (t_get : nat -> Z) (texts : list string) :
  Forall (fun text => Translator.blank text = false) texts ->
  ∀ (i : nat) (acc : Translator.lookups) (b : backend) found b',
    Translator.check_cache name source target o t_get i texts acc b = (Ok found, b') ->
    Translator.results found = Translator.results acc ∧
    ∀ j, (is_Some (Translator.cached_results acc !! j)
          ∨ j ∈ Translator.uncached_indices acc
          ∨ (i ≤ j < i + length texts)%nat) ->
         is_Some (Translator.cached_results found !! j)
         ∨ j ∈ Translator.uncached_indices found.
Proof.
  induction 1 as [|text texts Hb Hall IH]; intros i acc b found b'.
  - simpl. intros [= <- _]. split; [done|].
    intros j [?|[?|?]]; [by left|by right|lia].
  - cbn [Translator.check_cache]. rewrite Hb.
    destruct (TranslationCache.get b _ _ _ _ _) as [[[v|]|e] b1]; [| |done].
    + intros [Hres Hcov]%IH. cbn [Translator.results Translator.cached_results
                                  Translator.uncached_indices] in *.
      split; [done|]. intros j Hj. apply Hcov.
      destruct (decide (j = i)) as [->|Hne].
      * left. rewrite lookup_insert_eq. by eexists.
      * rewrite lookup_insert_ne by done.
        destruct Hj as [?|[?|?]]; [by left|by right; left|].
        right; right. simpl in *. lia.
    + intros [Hres Hcov]%IH. cbn [Translator.results Translator.cached_results
                                  Translator.uncached_indices] in *.
      split; [done|]. intros j Hj. apply Hcov.
      destruct (decide (j = i)) as [->|Hne].
      * right; left. apply elem_of_app. right. apply list_elem_of_here.
      * destruct Hj as [?|[?|?]]; [by left| |].
        -- right; left. apply elem_of_app. by left.
        -- right; right. simpl in *. lia.
Qed.

(** The serial loop fills the place of every index it visits and keeps
    the places that are filled. *)
Lemma translate_each_fills (texts : list string) (source target : string)
    (o : PyDict.t pyval) (indices : list nat) :
  ∀ self (rs0 rs : list (option TranslationResult.t)) self1,
    Translator.translate_each self texts source target o indices rs0 = (Ok rs, self1) ->
    ∀ j, (j ∈ indices ∨ (∃ r, rs0 !! j = Some (Some r))) ->
         ∃ r, rs !! j = Some (Some r).
Proof.
  induction indices as [|idx indices IH]; intros self rs0 rs self1.
  - simpl. intros [= <- _] j [?%elem_of_nil|?]; done.
  - cbn [Translator.translate_each].
    destruct (texts !! idx) as [text|]; [|done].
    destruct (Translator.translate _ _ _ _ _ _ _ _) as [[r|e] self2]; [|done].
    destruct (decide _) as [Hlt|]; [|done].
    intros Heach j Hj. apply (IH _ _ _ _ Heach j).
    destruct (decide (j = idx)) as [->|Hne].
    + right. exists r. by apply list_lookup_insert_eq.
    + destruct Hj as [[?|?]%elem_of_cons|[r0 Hr0]]; [done|by left|].
      right. exists r0. by rewrite list_lookup_insert_ne.
Qed.

Lemma translate_in_turn_length (texts : list string) (source target : string)
    (o : PyDict.t pyval) :
  ∀ self rs self1,
    translate_in_turn self texts source target o = (Ok rs, self1) ->
    length rs = length texts.
Proof.
  induction texts as [|text texts IH]; intros self rs self1.
  - simpl. by intros [= <- _].
  - cbn [translate_in_turn].
    destruct (Translator.translate _ _ _ _ _ _ _ _) as [[r|e] self2]; [|done].
    destruct (translate_in_turn self2 texts source target o) as [[rs'|e] self3] eqn:Hrest;
      [|done].
    intros [= <- _]. simpl. by rewrite (IH _ _ _ Hrest).
Qed.

End BatchAligned.

(** X26: for texts of ASCII characters none of which is blank, the list
    that [translate_batch] (with [parallel=False]) returns has one item
    for every text and none of them is a place holder, under
    [use_cache=True] as well as without the cache.  (On ASCII text
    [Translator.blank] is the test [not text or not text.strip()] of the
    code.) *)
Theorem translate_batch_without_blank_texts {St : Type}
    (self self1 : Translator.t St) (t_get t_set : nat -> Z) (texts : list string)
    (source_lang target_lang : option string) (use_cache : bool)
    (o : PyDict.t pyval) (rs : list (option TranslationResult.t)) :
  Forall (fun text => isascii text = true) texts ->
  Forall (fun text => Translator.blank text = false) texts ->
  Translator.translate_batch self t_get t_set texts source_lang target_lang
    use_cache o = (Ok rs, self1) ->
  length rs = length texts ∧
  ∀ i, (i < length texts)%nat -> ∃ r, rs !! i = Some (Some r).
Proof.
  intros _ Hall. destruct use_cache.
  - unfold Translator.translate_batch.
    destruct texts as [|t0 ts] eqn:Ht.
    { intros [= <- _]. split; [done|]. simpl. lia. }
    rewrite <- Ht in *. clear Ht t0 ts. cbv zeta.
    destruct (Translator.check_cache _ _ _ _ _ _ _ _ _) as [[found|e] cache1] eqn:Hcheck;
      [|done].
    destruct (check_cache_covers _ _ _ _ _ _ Hall _ _ _ _ _ Hcheck) as [Hres Hcov].
    cbn [Translator.results Translator.cached_results Translator.uncached_indices] in *.
    rewrite Hres. cbn [app].
    assert (∀ j, (j < length texts)%nat ->
              map (fun i => Translator.cached_results found !! i) (seq 0 (length texts)) !! j
              = Some (Translator.cached_results found !! j)) as Hlook.
    { intros j Hj. change (map ?f ?l) with (f <$> l).
      rewrite list_lookup_fmap, lookup_seq_lt by done. done. }
    destruct (Translator.uncached_indices found) as [|i0 is0] eqn:Hun.
    + intros [= <- _]. rewrite length_map, length_seq. split; [done|].
      intros i Hi. rewrite Hlook by done.
      destruct (Hcov i) as [[r Hr]|Hin]; [right; right; lia| |by apply elem_of_nil in Hin].
      exists r. by rewrite Hr.
    + destruct (Translator.translate_each _ _ _ _ _ _ _) as [[results1|e] self2] eqn:Heach;
        [|done].
      destruct (Translator.save_each _ _ _ _ _ _ _ _) as [[u|e] cache2]; [|done].
      intros [= <- _].
      rewrite (translate_each_length _ _ _ _ _ _ _ _ _ Heach), length_map, length_seq.
      split; [done|]. intros i Hi.
      apply (translate_each_fills _ _ _ _ _ _ _ _ _ Heach i).
      destruct (Hcov i) as [[r Hr]|Hin]; [right; right; lia| |by left].
      right. exists r. rewrite Hlook by done. by rewrite Hr.
  - rewrite translate_batch_in_turn.
    destruct (translate_in_turn self texts _ _ o) as [[rs'|e] self2] eqn:Hturn; [|done].
    intros [= <- _]. apply translate_in_turn_length in Hturn.
    rewrite length_map. split; [done|]. intros i Hi.
    destruct (lookup_lt_is_Some_2 rs' i) as [r Hr]; [lia|].
    exists r. change (map Some rs') with (Some <$> rs').
    by rewrite list_lookup_fmap, Hr.
Qed.

Lemma translate_batch_without_blank_texts_witness :
  let self := Translator.init echo_provider 0%nat None "en" "fr" in
  let call :=
    Translator.translate_batch self (fun _ => 100) (fun _ => 101)
      ["hello"; "bye"] None None true [] in
  let rs := [Some (TranslationResult.make "[hello]" "en" "fr" false "echo");
             Some (TranslationResult.make "[bye]" "en" "fr" false "echo")] in
  (Forall (fun text => isascii text = true) ["hello"; "bye"] ∧
   Forall (fun text => Translator.blank text = false) ["hello"; "bye"] ∧
   call = (Ok rs, snd call)) ∧
  length rs = length ["hello"; "bye"].
Proof.
  intros self call rs.
  assert (Forall (fun text => isascii text = true) ["hello"; "bye"]) as Hascii
    by (repeat constructor).
  assert (Forall (fun text => Translator.blank text = false) ["hello"; "bye"]) as Hall
    by (repeat constructor).
  assert (call = (Ok rs, snd call)) as Hcall by (by vm_compute).
  split; [by split_and!|].
  exact (proj1 (translate_batch_without_blank_texts self (snd call) (fun _ => 100)
                  (fun _ => 101) ["hello"; "bye"] None None true [] rs
                  Hascii Hall Hcall)).
Defined.



(* ===================================================================== *)
(** * BatchTranslator.translate_dict                                      *)
(* ===================================================================== *)

Section Dict.
Context {St : Type} (clock : nat -> Z * Z).
Context (source_lang target_lang : option string) (options : PyDict.t pyval).

Local Abbreviation state := (Translator.t St * nat)%type.

(** The loop over the items of a dictionary whose keys are distinct and
    new to the result. *)
Lemma translate_entries_spec
    (f : BatchTranslator.value -> state -> result BatchTranslator.value * state)
    (data : list (string * BatchTranslator.value)) :
  ∀ (acc : PyDict.t BatchTranslator.value) (st st' : state) r,
    NoDup (PyDict.keys data) ->
    (∀ k, k ∈ PyDict.keys data -> k ∉ PyDict.keys acc) ->
    BatchTranslator.translate_entries f data acc st = (Ok r, st') ->
    PyDict.keys r = PyDict.keys acc ++ PyDict.keys data ∧
    (∀ k v, PyDict.get acc k = Some v -> PyDict.get r k = Some v) ∧
    (∀ k v, PyDict.get data k = Some v ->
            ∃ v1 s s', PyDict.get r k = Some v1 ∧ f v s = (Ok v1, s')).
Proof.
  induction data as [|[key v] data IH]; intros acc st st' r Hnd Hfresh.
  - simpl. intros [= <- _]. rewrite app_nil_r. by split_and!.
  - cbn [BatchTranslator.translate_entries].
    destruct (f v st) as [[v1|e] st1] eqn:Hf; [|done].
    simpl in Hnd. apply NoDup_cons in Hnd as [Hkey Hnd].
    assert (key ∉ PyDict.keys acc) as Hacc by (apply Hfresh; apply list_elem_of_here).
    rewrite set_fresh by done.
    intros Hloop. apply IH in Hloop as (Hkeys & Hold & Hnew); [|done|].
    + split_and!.
      * rewrite Hkeys. unfold PyDict.keys. rewrite map_app. simpl.
        by rewrite <- app_assoc.
      * intros k v0 Hget. apply Hold. rewrite get_app, Hget. done.
      * intros k v0. simpl. destruct (decide (key = k)) as [->|Hne].
        -- intros [= <-]. exists v1, st, st1. split; [|done].
           apply Hold. rewrite get_app.
           rewrite (proj2 (get_None_keys acc k) Hacc). simpl.
           by rewrite decide_True.
        -- apply Hnew.
    + intros k Hk. unfold PyDict.keys. rewrite map_app.
      intros [Hin|Hin]%elem_of_app.
      * apply (Hfresh k); [by apply list_elem_of_further|done].
      * simpl in Hin. apply list_elem_of_singleton in Hin. subst k. done.
Qed.

(** The list comprehension keeps the length of the list and every item
    that is not a string. *)
Lemma translate_items_spec (items : list BatchTranslator.value) :
  ∀ (st st' : state) items1,
    BatchTranslator.translate_items clock source_lang target_lang options items st
      = (Ok items1, st') ->
    length items1 = length items ∧
    ∀ i x, items !! i = Some x -> (∀ s, x ≠ BatchTranslator.VStr s) ->
           items1 !! i = Some x.
Proof.
  induction items as [|item items IH]; intros st st' items1.
  - simpl. by intros [= <- _].
  - cbn [BatchTranslator.translate_items]. cbv zeta.
    destruct item as [s|d|l|x].
    + destruct (BatchTranslator.translate_text _ _ _ _ _ _) as [[t|e] st1]; [|done].
      destruct (BatchTranslator.translate_items _ _ _ _ items st1)
        as [[items2|e] st2] eqn:Hrest; [|done].
      intros [= <- _]. destruct (IH _ _ _ Hrest) as [Hlen Hkeep].
      split; [simpl; by rewrite Hlen|].
      intros [|i] x; simpl; [|by apply Hkeep].
      intros [= <-] Hx. by destruct (Hx s).
    + destruct (BatchTranslator.translate_items _ _ _ _ items st)
        as [[items2|e] st2] eqn:Hrest; [|done].
      intros [= <- _]. destruct (IH _ _ _ Hrest) as [Hlen Hkeep].
      split; [simpl; by rewrite Hlen|].
      intros [|i] x; simpl; [by intros [= <-]|by apply Hkeep].
    + destruct (BatchTranslator.translate_items _ _ _ _ items st)
        as [[items2|e] st2] eqn:Hrest; [|done].
      intros [= <- _]. destruct (IH _ _ _ Hrest) as [Hlen Hkeep].
      split; [simpl; by rewrite Hlen|].
      intros [|i] x'; simpl; [by intros [= <-]|by apply Hkeep].
    + destruct (BatchTranslator.translate_items _ _ _ _ items st)
        as [[items2|e] st2] eqn:Hrest; [|done].
      intros [= <- _]. destruct (IH _ _ _ Hrest) as [Hlen Hkeep].
      split; [simpl; by rewrite Hlen|].
      intros [|i] x'; simpl; [by intros [= <-]|by apply Hkeep].
Qed.

End Dict.

(** X28: [translate_dict] on a dictionary (its keys are distinct) that
    returns: the result has the keys of the dictionary in their order; a
    string value is replaced by a string, a nested dictionary by what
    [translate_dict] returns for it, a value of another type is kept; a
    list keeps its length and every item that is not a string, so the
    strings of a dictionary or of a list inside a list are not
    translated. *)
Theorem translate_dict_keeps_shape {St : Type} (clock : nat -> Z * Z)
    (source_lang target_lang : option string) (options : PyDict.t pyval)
    (data : list (string * BatchTranslator.value))
    (state state1 : Translator.t St * nat)
    (result : PyDict.t BatchTranslator.value) :
  NoDup (PyDict.keys data) ->
  BatchTranslator.translate_dict clock source_lang target_lang options data state
    = (Ok result, state1) ->
  PyDict.keys result = PyDict.keys data ∧
  ∀ key v, PyDict.get data key = Some v ->
    match v with
    | BatchTranslator.VStr _ =>
        ∃ t, PyDict.get result key = Some (BatchTranslator.VStr t)
    | BatchTranslator.VDict nested =>
        ∃ nested1 (st st' : Translator.t St * nat),
          PyDict.get result key = Some (BatchTranslator.VDict nested1) ∧
          BatchTranslator.translate_dict clock source_lang target_lang options
            nested st = (Ok nested1, st')
    | BatchTranslator.VList items =>
        ∃ items1,
          PyDict.get result key = Some (BatchTranslator.VList items1) ∧
          length items1 = length items ∧
          ∀ i x, items !! i = Some x -> (∀ s, x ≠ BatchTranslator.VStr s) ->
                 items1 !! i = Some x
    | BatchTranslator.VOther _ => PyDict.get result key = Some v
    end.
Proof.
  intros Hnd Hcall. unfold BatchTranslator.translate_dict in Hcall.
  apply translate_entries_spec in Hcall as (Hkeys & _ & Hnew);
    [|done|by intros k _ ?%elem_of_nil].
  split; [done|]. intros key v Hget.
  destruct (Hnew key v Hget) as (v1 & s & s' & Hres & Hval).
  destruct v as [str|nested|items|x]; cbn [BatchTranslator.translate_value] in Hval.
  - destruct (BatchTranslator.translate_text _ _ _ _ _ _) as [[t|e] st1]; [|done].
    injection Hval as <- _. by exists t.
  - destruct (BatchTranslator.translate_entries _ nested [] s)
      as [[nested1|e] st1] eqn:Hnested; [|done].
    injection Hval as <- _. by exists nested1, s, st1.
  - destruct (BatchTranslator.translate_items _ _ _ _ items s)
      as [[items1|e] st1] eqn:Hitems; [|done].
    injection Hval as <- _. exists items1. split; [done|].
    by apply (translate_items_spec clock source_lang target_lang options items s st1).
  - by injection Hval as <- _.
Qed.

Lemma translate_dict_keeps_shape_witness :
  let data :=
    [("title", BatchTranslator.VStr "hello");
     ("count", BatchTranslator.VOther (PInt 3));
     ("tags", BatchTranslator.VList
                [BatchTranslator.VStr "bye";
                 BatchTranslator.VDict [("inner", BatchTranslator.VStr "kept")]])] in
  let state := (Translator.init echo_provider 0%nat None "en" "fr", 0%nat) in
  let call :=
    BatchTranslator.translate_dict (fun n => (100, 101)) None None [] data state in
  let result :=
    [("title", BatchTranslator.VStr "[hello]");
     ("count", BatchTranslator.VOther (PInt 3));
     ("tags", BatchTranslator.VList
                [BatchTranslator.VStr "[bye]";
                 BatchTranslator.VDict [("inner", BatchTranslator.VStr "kept")]])] in
  (NoDup (PyDict.keys data) ∧ call = (Ok result, snd call)) ∧
  PyDict.keys result = PyDict.keys data.
Proof.
  intros data state call result.
  assert (NoDup (PyDict.keys data)) as Hnd
    by (apply (bool_decide_unpack _); by vm_compute).
  assert (call = (Ok result, snd call)) as Hcall by (by vm_compute).
  split; [by split|].
  exact (proj1 (translate_dict_keeps_shape (fun n => (100, 101)) None None []
                  data state (snd call) result Hnd Hcall)).
Defined.

(* ===================================================================== *)
(** * The supported languages                                             *)
(* ===================================================================== *)

Section Supported.

Lemma insert_str_elem (x y : string) (l : list string) :
  y ∈ insert_str x l <-> y = x ∨ y ∈ l.
Proof.
  induction l as [|z l IH]; simpl.
  - rewrite list_elem_of_singleton. split; [by left|intros [?|?%elem_of_nil]; done].
  - destruct (String.leb x z).
    + by rewrite elem_of_cons.
    + rewrite !elem_of_cons, IH. tauto.
Qed.

Lemma sorted_str_elem (y : string) (l : list string) : y ∈ sorted_str l <-> y ∈ l.
Proof.
  induction l as [|z l IH]; [done|]. unfold sorted_str in *. simpl.
  rewrite insert_str_elem, elem_of_cons, IH. tauto.
Qed.

Lemma supported_iff (code : string) :
  code ∈ get_supported_languages <-> code ∈ LANGUAGE_NAMES ∧ code ≠ "auto".
Proof.
  unfold get_supported_languages. rewrite sorted_str_elem, list_elem_of_filter. tauto.
Qed.

Lemma known_code_valid (code : string) :
  code ∈ LANGUAGE_NAMES -> validate_language_code code = true.
Proof.
  intros Hin. unfold validate_language_code.
  rewrite decide_False.
  - cbv zeta. rewrite normalize_known by done.
    rewrite (bool_decide_true (_ ∈ _)) by done. apply orb_true_r.
  - intros ->. revert Hin. apply (bool_decide_unpack _). by vm_compute.
Qed.

End Supported.

(** X29: the codes that [validate_language_code] accepts are those that
    normalise to [auto] or to a code that [get_supported_languages]
    lists; and every listed code is valid, is its own normal form and is
    not [auto]. *)
Theorem valid_codes_are_supported (code : string) :
  validate_language_code code = true ->
  (normalize_language_code code = "auto"
   ∨ normalize_language_code code ∈ get_supported_languages) ∧
  Forall (fun listed => validate_language_code listed = true
                        ∧ normalize_language_code listed = listed
                        ∧ listed ≠ "auto")
         get_supported_languages.
Proof.
  intros Hvalid. split.
  - unfold validate_language_code in Hvalid.
    destruct (decide (code = EmptyString)); [done|]. cbv zeta in Hvalid.
    destruct (decide (normalize_language_code code = "auto")) as [|Hne]; [by left|].
    right. apply supported_iff. split; [|done].
    apply orb_true_iff in Hvalid as [Ha%bool_decide_eq_true|Hin%bool_decide_eq_true];
      done.
  - apply Forall_forall. intros listed [Hin Hne]%supported_iff.
    split_and!; [by apply known_code_valid|by apply normalize_known|done].
Qed.

Lemma valid_codes_are_supported_witness :
  validate_language_code "PT-br" = true ∧
  (normalize_language_code "PT-br" = "auto"
   ∨ normalize_language_code "PT-br" ∈ get_supported_languages).
Proof.
  assert (validate_language_code "PT-br" = true) as Hvalid by (by vm_compute).
  split; [exact Hvalid|].
  exact (proj1 (valid_codes_are_supported "PT-br" Hvalid)).
Defined.

(* ===================================================================== *)
(** * The entry counter                                                   *)
(* ===================================================================== *)

Section EntryCounter.

Lemma get_keeps_total (b : backend) (now : Z) (text sl tl : string)
    (o : PyDict.t pyval) :
  total_entries (TranslationCache.counters (snd (TranslationCache.get b now text sl tl o)))
  = total_entries (TranslationCache.counters b).
Proof.
  unfold TranslationCache.get. rewrite call_get.
  destruct b as [c|c|c]; unfold TranslationCache.lift;
    cbn [fst snd TranslationCache.counters].
  - unfold MemoryCache.get. cbv zeta.
    destruct (PyDict.get _ _) as [[tr ts]|] eqn:Hg; [|done].
    destruct (_is_expired _ _ _); [done|].
    unfold PyDict.move_to_end. by rewrite Hg.
  - unfold FileCache.get. cbv zeta.
    destruct (PyDict.get _ _) as [m|]; [|done].
    destruct (_is_expired _ _ _).
    + by destruct (FileCache.remove_file _ _).
    + destruct (negb _); [done|]. by destruct (Fs.read_text _ _).
  - unfold SQLiteCache.get. cbv zeta.
    destruct (Sql.select_by_key _ _) as [r|]; [|done].
    destruct (_is_expired _ _ _); [|done].
    unfold Sql.delete_where. by destruct (db_writable _).
Qed.

End EntryCounter.

Section EntryCounter2.

Lemma length_filter_decide_key (rs : list row) (key : string) :
  NoDup (map cache_key rs) -> key ∈ map cache_key rs ->
  length rs =
  S (length (filter (fun r => bool_decide (cache_key r = key) = false) rs)).
Proof.
  intros Hnd Hin. rewrite (length_filter_key_NoDup rs key Hnd Hin). f_equal.
  f_equal. apply list_filter_iff. intros r.
  by rewrite bool_decide_eq_false.
Qed.

Lemma select_by_key_in (db : database) (key : string) (r : row) :
  Sql.select_by_key db key = Some r -> key ∈ map cache_key (rows db).
Proof.
  unfold Sql.select_by_key. intros Hh.
  apply head_Some_elem_of in Hh. apply list_elem_of_filter in Hh as [<- Hin].
  apply list_elem_of_fmap. by exists r.
Qed.

End EntryCounter2.

(** X30: [stats.total_entries] is written by [set] and [clear] only.  A
    [get] that finds an expired entry removes it, so the store holds one
    entry less, and leaves [total_entries] as it is: a counter that was
    right is one too high afterwards. *)
Theorem total_entries_goes_stale (b : backend) (now : Z) (text sl tl : string)
    (o : PyDict.t pyval) (ts : Z) :
  TranslationCache.takes_writes b ->
  NoDup (TranslationCache.keys b) ->
  TranslationCache.entry_timestamp b (generate_cache_key text sl tl o) = Some ts ->
  _is_expired (TranslationCache.ttl b) now ts = true ->
  let b' := snd (TranslationCache.get b now text sl tl o) in
  TranslationCache.size b' = TranslationCache.size b - 1 ∧
  total_entries (TranslationCache.counters b')
    = total_entries (TranslationCache.counters b).
Proof.
  intros Hw Hnd Hts Hexp. cbv zeta. split; [|apply get_keeps_total].
  unfold TranslationCache.size, TranslationCache.get. rewrite call_get.
  destruct b as [c|c|c]; unfold TranslationCache.lift; cbn [fst snd];
    cbn [TranslationCache.entry_timestamp TranslationCache.ttl
         TranslationCache.takes_writes TranslationCache.keys] in *.
  - destruct (PyDict.get _ _) as [[tr ts']|] eqn:Hg; [|done].
    injection Hts as ->.
    rewrite (memory_get_expired c now text sl tl o tr ts Hg Hexp).
    cbn [snd MemoryCache._cache]. rewrite !length_keys.
    rewrite (length_del_NoDup (MemoryCache._cache c)
               (generate_cache_key text sl tl o) Hnd); [lia|].
    apply mem_keys. unfold PyDict.mem. by rewrite Hg.
  - destruct (PyDict.get _ _) as [m|] eqn:Hg; [|done].
    injection Hts as <-.
    rewrite (file_get_expired c now text sl tl o m Hg Hexp Hw).
    cbn [snd FileCache._index]. rewrite !length_keys.
    rewrite (length_del_NoDup (FileCache._index c)
               (generate_cache_key text sl tl o) Hnd); [lia|].
    apply mem_keys. unfold PyDict.mem. by rewrite Hg.
  - destruct (Sql.select_by_key _ _) as [r|] eqn:Hg; [|done].
    injection Hts as <-.
    rewrite (sqlite_get_expired c now text sl tl o r Hg Hexp Hw).
    cbn [snd SQLiteCache.db rows]. rewrite !length_map.
    rewrite (length_filter_decide_key (rows (SQLiteCache.db c))
               (generate_cache_key text sl tl o) Hnd); [lia|].
    by apply (select_by_key_in _ _ r).
Qed.

Lemma total_entries_goes_stale_witness :
  let b0 := Memory (MemoryCache.init 10 3600) in
  let b := TranslationCache.set_request b0 (MkRequest 100 "hello" "en" "fr" "bonjour" []) in
  let b' := snd (TranslationCache.get b 5000 "hello" "en" "fr" []) in
  (TranslationCache.takes_writes b ∧
   NoDup (TranslationCache.keys b) ∧
   TranslationCache.entry_timestamp b (generate_cache_key "hello" "en" "fr" [])
     = Some 100 ∧
   _is_expired (TranslationCache.ttl b) 5000 100 = true ∧
   total_entries (TranslationCache.counters b) = TranslationCache.size b) ∧
  TranslationCache.size b' = 0 ∧
  total_entries (TranslationCache.counters b') = 1.
Proof.
  intros b0 b b'.
  assert (TranslationCache.takes_writes b) as H1 by (by vm_compute).
  assert (NoDup (TranslationCache.keys b)) as H2
    by (apply (bool_decide_unpack _); by vm_compute).
  assert (TranslationCache.entry_timestamp b (generate_cache_key "hello" "en" "fr" [])
          = Some 100) as H3 by (by vm_compute).
  assert (_is_expired (TranslationCache.ttl b) 5000 100 = true) as H4 by (by vm_compute).
  assert (total_entries (TranslationCache.counters b) = TranslationCache.size b) as H5
    by (by vm_compute).
  split; [by split_and!|].
  destruct (total_entries_goes_stale b 5000 "hello" "en" "fr" [] 100 H1 H2 H3 H4)
    as [Hsize Htotal].
  split; [etrans; [exact Hsize|by vm_compute]|etrans; [exact Htotal|by vm_compute]].
Defined.
